(** * PREMONITOR: monitoring and fusion core, security monitor, registry

    A shallow embedding of the parts of the PREMONITOR edge agent that the
    specification makes promises about:

    - [equipment_registry.py]: the type catalogue, the threshold table,
      [get_equipment_thresholds], [validate_equipment_config];
    - [premonitor_main_multi_equipment.py]: [build_lstm_feature_vector],
      [check_raw_sensor_thresholds], [check_anomaly_and_alert] and the
      per-equipment cycle [monitor_equipment] with its sliding LSTM buffer;
    - [premonitor_main_hardened.py]: [run_inference] and the fusion pass of
      the main loop;
    - [security_monitor.py]: [MotionDetector], [TamperDetector] and
      [monitor_security].

    Conventions.  Python dictionaries whose literal or insertion order is
    visible are association lists ([dict]); the stores keyed by equipment id
    are [gmap]s.  A Python float is a [pyfloat]: NaN, a signed infinity or a
    finite value carried as a rational; only comparisons, [clip] and the
    tamper rate are computed on them, and the comparisons are the IEEE ones
    (every comparison with NaN is false).  A [datetime] is a number of
    microseconds.  Code that can raise returns a [result]. *)

From Stdlib Require Import ZArith QArith Qabs Lqa String List Bool Lia Permutation.
From stdpp Require Import base option strings list gmap.

Local Open Scope string_scope.
Local Open Scope Z_scope.

(** ** Python values *)

Module Py.

(** Exceptions the modelled code can raise. *)
Inductive exn : Type :=
| KeyError (key : string)
| TypeError
| IndexError
| ValueError
| RuntimeError.

Inductive result (A : Type) : Type :=
| Ok (a : A)
| Raise (e : exn).
Arguments Ok {A} a.
Arguments Raise {A} e.

Definition bind {A B : Type} (m : result A) (k : A -> result B) : result B :=
  match m with
  | Ok a => k a
  | Raise e => Raise e
  end.

(** [try: body except Exception: handler]. *)
Definition try_except {A : Type} (body : result A) (handler : exn -> A) : A :=
  match body with
  | Ok a => a
  | Raise e => handler e
  end.

(** A Python [float]. *)
Inductive pyfloat : Type :=
| FNaN
| FInf (neg : bool)
| FFin (q : Q).

Definition Qltb (x y : Q) : bool :=
  match Qcompare x y with Lt => true | _ => false end.

Definition Qleb (x y : Q) : bool :=
  match Qcompare x y with Gt => false | _ => true end.

(** [a < b] *)
Definition flt (a b : pyfloat) : bool :=
  match a, b with
  | FNaN, _ | _, FNaN => false
  | FInf na, FInf nb => na && negb nb
  | FInf na, FFin _ => na
  | FFin _, FInf nb => negb nb
  | FFin x, FFin y => Qltb x y
  end.

(** [a <= b] *)
Definition fle (a b : pyfloat) : bool :=
  match a, b with
  | FNaN, _ | _, FNaN => false
  | FInf na, FInf nb => na || negb nb
  | FInf na, FFin _ => na
  | FFin _, FInf nb => negb nb
  | FFin x, FFin y => Qleb x y
  end.

(** [a > b] and [a >= b] *)
Definition fgt (a b : pyfloat) : bool := flt b a.
Definition fge (a b : pyfloat) : bool := fle b a.

Definition is_nan (a : pyfloat) : bool :=
  match a with FNaN => true | _ => false end.

(** [np.clip(x, lo, hi)], which is [minimum(maximum(x, lo), hi)]: NaN
    propagates. *)
Definition np_clip (x lo hi : pyfloat) : pyfloat :=
  if is_nan x then FNaN
  else if flt x lo then lo
  else if fgt x hi then hi
  else x.

(** Truthiness of a number. *)
Definition float_truthy (a : pyfloat) : bool :=
  match a with
  | FFin q => negb (Qeq_bool q 0)
  | _ => true
  end.

(** A numpy array: its shape and its elements in row-major order. *)
Record ndarray : Type := { shape : list Z; data : list pyfloat }.

(** What a sensor driver hands over: a number or an array. *)
Inductive value : Type :=
| VNum (x : pyfloat)
| VArr (a : ndarray).

(** [float(v)]: a number is itself, an array converts only when it holds
    exactly one element. *)
Definition py_float (v : value) : result pyfloat :=
  match v with
  | VNum x => Ok x
  | VArr a => match data a with
              | [x] => Ok x
              | _ => Raise TypeError
              end
  end.

(** A dictionary in insertion order. *)
Definition dict (V : Type) : Type := list (string * V).

Fixpoint dict_get {V : Type} (k : string) (d : dict V) : option V :=
  match d with
  | [] => None
  | (k', v) :: rest => if String.eqb k k' then Some v else dict_get k rest
  end.

(** [k in d] *)
Definition dict_has {V : Type} (k : string) (d : dict V) : bool :=
  match dict_get k d with Some _ => true | None => false end.

(** [d.get(k, dflt)] *)
Definition dict_get_or {V : Type} (k : string) (dflt : V) (d : dict V) : V :=
  match dict_get k d with Some v => v | None => dflt end.

(** [d[k]] *)
Definition dict_index {V : Type} (k : string) (d : dict V) : result V :=
  match dict_get k d with Some v => Ok v | None => Raise (KeyError k) end.

Definition dict_keys {V : Type} (d : dict V) : list string := map fst d.

End Py.
Import Py.

#[global] Instance result_ret : MRet result := @Ok.
#[global] Instance result_bind : MBind result :=
  fun A B k m => bind m k.

(** The finite float [n / d]. *)
Definition ratio (n : Z) (d : positive) : pyfloat := FFin (n # d).

(** ** equipment_registry.py *)

Record TypeDef : Type := {
  td_name : string;
  sensors_required : list string;
  sensors_optional : list string;
  models : list string;
  description : string
}.

Definition EQUIPMENT_TYPES : dict TypeDef := [
  ("fridge",
   {| td_name := "Refrigerator";
      sensors_required := ["thermal"; "acoustic"];
      sensors_optional := ["gas"; "temperature"];
      models := ["thermal_cnn"; "acoustic_cnn"; "lstm_ae"];
      description := "Standard lab refrigerator for sample storage" |});
  ("freezer_ultra_low",
   {| td_name := "Ultra-Low Freezer (-80°C)";
      sensors_required := ["thermal"; "acoustic"; "temperature"];
      sensors_optional := ["gas"];
      models := ["thermal_cnn"; "acoustic_cnn"; "lstm_ae"];
      description := "Ultra-low temperature freezer for long-term sample storage" |});
  ("incubator",
   {| td_name := "Incubator";
      sensors_required := ["thermal"; "temperature"];
      sensors_optional := ["co2"; "humidity"];
      models := ["thermal_cnn"; "lstm_ae"];
      description := "Temperature-controlled incubator for cell cultures" |});
  ("centrifuge",
   {| td_name := "Centrifuge";
      sensors_required := ["acoustic"];
      sensors_optional := ["vibration"; "current"];
      models := ["acoustic_cnn"; "lstm_ae"];
      description := "High-speed centrifuge for sample separation" |});
  ("autoclave",
   {| td_name := "Autoclave";
      sensors_required := ["thermal"; "acoustic"];
      sensors_optional := ["pressure"];
      models := ["thermal_cnn"; "acoustic_cnn"; "lstm_ae"];
      description := "Steam sterilization equipment" |});
  ("oven",
   {| td_name := "Laboratory Oven";
      sensors_required := ["thermal"];
      sensors_optional := ["temperature"];
      models := ["thermal_cnn"; "lstm_ae"];
      description := "Drying and heating oven" |});
  ("water_bath",
   {| td_name := "Water Bath";
      sensors_required := ["thermal"; "temperature"];
      sensors_optional := [];
      models := ["thermal_cnn"; "lstm_ae"];
      description := "Temperature-controlled water bath" |});
  ("vacuum_pump",
   {| td_name := "Vacuum Pump";
      sensors_required := ["acoustic"];
      sensors_optional := ["vibration"; "pressure"];
      models := ["acoustic_cnn"; "lstm_ae"];
      description := "Vacuum pump for filtration and evaporation" |});
  ("fume_hood",
   {| td_name := "Fume Hood";
      sensors_required := ["acoustic"];
      sensors_optional := ["airflow"; "gas"];
      models := ["acoustic_cnn"];
      description := "Ventilated enclosure for hazardous materials" |});
  ("shaker",
   {| td_name := "Orbital Shaker";
      sensors_required := ["acoustic"];
      sensors_optional := ["vibration"];
      models := ["acoustic_cnn"];
      description := "Shaking incubator or orbital shaker" |})
].

(** A threshold is a scalar or a [(min, max)] pair. *)
Inductive threshold : Type :=
| TNum (x : pyfloat)
| TRange (lo hi : pyfloat).

Definition EQUIPMENT_THRESHOLDS : dict (dict threshold) := [
  ("fridge",
   [("thermal_anomaly_confidence", TNum (ratio 85 100));
    ("acoustic_anomaly_confidence", TNum (ratio 85 100));
    ("lstm_reconstruction_threshold", TNum (ratio 45 1000));
    ("fusion_correlation_confidence", TNum (ratio 60 100));
    ("gas_analog_threshold", TNum (ratio 300 1));
    ("temperature_range", TRange (ratio 2 1) (ratio 8 1))]);
  ("freezer_ultra_low",
   [("thermal_anomaly_confidence", TNum (ratio 85 100));
    ("acoustic_anomaly_confidence", TNum (ratio 80 100));
    ("lstm_reconstruction_threshold", TNum (ratio 40 1000));
    ("fusion_correlation_confidence", TNum (ratio 55 100));
    ("gas_analog_threshold", TNum (ratio 300 1));
    ("temperature_range", TRange (ratio (-82) 1) (ratio (-78) 1))]);
  ("incubator",
   [("thermal_anomaly_confidence", TNum (ratio 90 100));
    ("acoustic_anomaly_confidence", TNum (ratio 85 100));
    ("lstm_reconstruction_threshold", TNum (ratio 40 1000));
    ("fusion_correlation_confidence", TNum (ratio 60 100));
    ("temperature_range", TRange (ratio 365 10) (ratio 375 10));
    ("co2_range", TRange (ratio 45 10) (ratio 55 10));
    ("humidity_range", TRange (ratio 85 1) (ratio 95 1))]);
  ("centrifuge",
   [("thermal_anomaly_confidence", TNum (ratio 85 100));
    ("acoustic_anomaly_confidence", TNum (ratio 75 100));
    ("lstm_reconstruction_threshold", TNum (ratio 50 1000));
    ("vibration_threshold", TNum (ratio 5 10));
    ("current_threshold", TNum (ratio 5 1))]);
  ("autoclave",
   [("thermal_anomaly_confidence", TNum (ratio 95 100));
    ("acoustic_anomaly_confidence", TNum (ratio 80 100));
    ("lstm_reconstruction_threshold", TNum (ratio 55 1000));
    ("fusion_correlation_confidence", TNum (ratio 65 100));
    ("pressure_range", TRange (ratio 15 1) (ratio 20 1))]);
  ("oven",
   [("thermal_anomaly_confidence", TNum (ratio 92 100));
    ("acoustic_anomaly_confidence", TNum (ratio 85 100));
    ("lstm_reconstruction_threshold", TNum (ratio 45 1000));
    ("temperature_max", TNum (ratio 250 1))]);
  ("water_bath",
   [("thermal_anomaly_confidence", TNum (ratio 88 100));
    ("acoustic_anomaly_confidence", TNum (ratio 85 100));
    ("lstm_reconstruction_threshold", TNum (ratio 40 1000));
    ("temperature_range", TRange (ratio 35 1) (ratio 40 1))]);
  ("vacuum_pump",
   [("thermal_anomaly_confidence", TNum (ratio 85 100));
    ("acoustic_anomaly_confidence", TNum (ratio 78 100));
    ("lstm_reconstruction_threshold", TNum (ratio 48 1000));
    ("pressure_min", TNum (ratio 1 10))]);
  ("fume_hood",
   [("acoustic_anomaly_confidence", TNum (ratio 82 100));
    ("lstm_reconstruction_threshold", TNum (ratio 45 1000));
    ("airflow_min", TNum (ratio 100 1));
    ("gas_analog_threshold", TNum (ratio 200 1))]);
  ("shaker",
   [("acoustic_anomaly_confidence", TNum (ratio 80 100));
    ("lstm_reconstruction_threshold", TNum (ratio 50 1000));
    ("vibration_threshold", TNum (ratio 3 10))])
].

(** One capability's wiring: the [enabled] flag (it may be missing) and the
    driver parameters, which the monitoring core never reads. *)
Record SensorWiring : Type := {
  enabled : option bool;
  driver_params : dict string
}.

(** An entry of [EQUIPMENT_REGISTRY].  The keys read with [.get] are
    optional; [id], [type], [name] and [pi_id] are indexed directly. *)
Record Equipment : Type := {
  eq_id : string;
  eq_type : string;
  eq_name : string;
  eq_location : option string;
  eq_pi_id : string;
  eq_sensors : option (dict SensorWiring);
  eq_alert_channels : option (list string);
  eq_critical : option bool
}.

Definition fridge_lab_a_01 : Equipment := {|
  eq_id := "fridge_lab_a_01";
  eq_type := "fridge";
  eq_name := "Main Lab Fridge A1";
  eq_location := Some "Lab A, Corner near sink";
  eq_pi_id := "premonitor_pi";
  eq_sensors := Some [
    ("thermal_camera",
     {| enabled := Some true;
        driver_params := [("i2c_address", "0x33"); ("fps", "2"); ("resolution", "(32, 24)")] |});
    ("microphone",
     {| enabled := Some true;
        driver_params := [("device", "hw:1,0"); ("sample_rate", "16000"); ("channels", "1")] |});
    ("gas_sensor",
     {| enabled := Some true;
        driver_params := [("gpio_pin", "17"); ("analog_channel", "0"); ("sensor_type", "MQ-2")] |});
    ("temperature",
     {| enabled := Some true;
        driver_params := [("gpio_pin", "4"); ("sensor_type", "DS18B20");
                          ("device_id", "28-000000000000")] |})
  ];
  eq_alert_channels := Some ["discord"; "email"];
  eq_critical := Some true
|}.

Definition EQUIPMENT_REGISTRY : list Equipment := [fridge_lab_a_01].

Definition get_equipment_by_pi (pi_id : string) : list Equipment :=
  filter (fun e => eq_pi_id e = pi_id) EQUIPMENT_REGISTRY.

Definition get_equipment_by_id (equipment_id : string) : option Equipment :=
  find (fun e => String.eqb (eq_id e) equipment_id) EQUIPMENT_REGISTRY.

(** [EQUIPMENT_THRESHOLDS.get(equipment_type, EQUIPMENT_THRESHOLDS["fridge"])]:
    the default is an argument, so it is indexed before the lookup. *)
Definition get_equipment_thresholds (equipment_type : string)
  : result (dict threshold) :=
  dflt ← dict_index "fridge" EQUIPMENT_THRESHOLDS;
  mret (dict_get_or equipment_type dflt EQUIPMENT_THRESHOLDS).

Definition get_critical_equipment : list Equipment :=
  filter (fun e => default false (eq_critical e) = true) EQUIPMENT_REGISTRY.

(** Sensor type names to wiring keys. *)
Definition sensor_name_mapping : dict string := [
  ("thermal", "thermal_camera");
  ("acoustic", "microphone");
  ("temperature", "temperature");
  ("gas", "gas_sensor");
  ("vibration", "vibration");
  ("current", "current");
  ("co2", "co2");
  ("humidity", "humidity");
  ("pressure", "pressure");
  ("airflow", "airflow")
].

(** [config_key not in sensors_config or
     not sensors_config[config_key].get("enabled", False)] *)
Definition sensor_missing (sensors_config : dict SensorWiring)
    (config_key : string) : bool :=
  match dict_get config_key sensors_config with
  | None => true
  | Some wiring => negb (default false (enabled wiring))
  end.

(** The loop over [type_def["sensors_required"]]: it returns at the first
    required sensor that is missing. *)
Fixpoint check_required (sensors_config : dict SensorWiring)
    (required : list string) : bool * string :=
  match required with
  | [] => (true, "Configuration valid")
  | required_sensor :: rest =>
      let config_key :=
        dict_get_or required_sensor required_sensor sensor_name_mapping in
      if sensor_missing sensors_config config_key
      then (false, "Required sensor missing: " +:+ required_sensor +:+
                   " (config key: " +:+ config_key +:+ ")")
      else check_required sensors_config rest
  end.

Definition validate_equipment_config (equipment : Equipment) : bool * string :=
  let eq_type := eq_type equipment in
  match dict_get eq_type EQUIPMENT_TYPES with
  | None => (false, "Unknown equipment type: " +:+ eq_type)
  | Some type_def =>
      let sensors_config := default [] (eq_sensors equipment) in
      check_required sensors_config (sensors_required type_def)
  end.

(** ** config.py *)

(** The attributes of the [config] module that the monitoring code reads.
    Those read with [getattr(config, name, None)] may be absent. *)
Record Config : Type := {
  SENSOR_READ_INTERVAL : pyfloat;
  THERMAL_CRITICAL_THRESHOLD_C : option pyfloat;
  GAS_ANALOG_THRESHOLD : option pyfloat;
  THERMAL_ANOMALY_CONFIDENCE : pyfloat;
  ACOUSTIC_ANOMALY_CONFIDENCE : pyfloat;
  FUSION_CORRELATION_CONFIDENCE : pyfloat
}.

Definition config : Config := {|
  SENSOR_READ_INTERVAL := ratio 30 1;
  THERMAL_CRITICAL_THRESHOLD_C := Some (ratio 75 1);
  GAS_ANALOG_THRESHOLD := Some (ratio 600 1);
  THERMAL_ANOMALY_CONFIDENCE := ratio 80 100;
  ACOUSTIC_ANOMALY_CONFIDENCE := ratio 75 100;
  FUSION_CORRELATION_CONFIDENCE := ratio 60 100
|}.

(** ** Sensor readings, alerts and inference results *)

(** What [read_equipment_sensors] returns. *)
Record Readings : Type := {
  r_equipment_id : string;
  r_timestamp : string;
  sensors : dict value
}.

(** A message handed to [alert_manager]. *)
Inductive Send : Type :=
| Discord (message : string)
| Email (subject message : string).

Definition send_message (s : Send) : string :=
  match s with
  | Discord m => m
  | Email _ m => m
  end.

(** The dictionaries returned by [run_thermal_inference],
    [run_acoustic_inference] and [run_lstm_inference]. *)
Inductive InferenceResult : Type :=
| IError (error : string)
| IThermal (equipment_id : string) (anomaly_confidence : pyfloat) (timestamp : string)
| IAcoustic (equipment_id : string) (anomaly_confidence : pyfloat) (timestamp : string)
| ILstm (equipment_id : string) (reconstruction_error : pyfloat) (timestamp : string).

(** An entry of [anomalies_detected]. *)
Record Anomaly : Type := {
  a_type : string;
  a_value : pyfloat;
  a_threshold : pyfloat;
  a_message : string
}.

(** [x >= t] and [x < t] against a table entry: comparing a float with a
    tuple raises. *)
Definition ge_threshold (x : pyfloat) (t : threshold) : result bool :=
  match t with
  | TNum y => Ok (fge x y)
  | TRange _ _ => Raise TypeError
  end.

Definition lt_threshold (x : pyfloat) (t : threshold) : result bool :=
  match t with
  | TNum y => Ok (flt x y)
  | TRange _ _ => Raise TypeError
  end.

(** [rng and (x < rng[0] or x > rng[1])] for an entry read with [.get]. *)
Definition out_of_range (x : pyfloat) (rng : option threshold) : result bool :=
  match rng with
  | None => Ok false
  | Some (TRange lo hi) => Ok (flt x lo || fgt x hi)
  | Some (TNum y) => if float_truthy y then Raise TypeError else Ok false
  end.

(** The loop over [alert_channels]: Discord and e-mail are sent, SMS is only
    logged as not implemented, any other channel name is skipped. *)
Definition dispatch (channels : list string) (subject message : string)
  : list Send :=
  flat_map (fun channel =>
    if String.eqb channel "discord" then [Discord message]
    else if String.eqb channel "email" then [Email subject message]
    else []) channels.

(** The bullet lines of a composite alert message. *)
Definition bullets (lines : list string) : string :=
  fold_right (fun line acc => "• " +:+ line +:+ "
" +:+ acc) "" lines.

Definition is_critical_temperature (alert : string) : bool :=
  String.prefix "CRITICAL: High temperature detected" alert.

(** How many entries of a raw alert list are the CRITICAL temperature
    alert. *)
Definition critical_temperature_count (alerts : list string) : nat :=
  length (List.filter is_critical_temperature alerts).

(** A range entry that the range checks can index: absent, or a pair. *)
Definition range_well_formed (rng : option threshold) : bool :=
  match rng with
  | Some (TNum _) => false
  | _ => true
  end.

(** A scalar entry that the confidence checks can compare with: absent
    (the default applies), or a number. *)
Definition numeric_entry (key : string) (profile : dict threshold) : bool :=
  match dict_get key profile with
  | Some (TRange _ _) => false
  | _ => true
  end.

Definition MODEL_THRESHOLD_KEYS : list string :=
  ["thermal_anomaly_confidence"; "acoustic_anomaly_confidence";
   "lstm_reconstruction_threshold"].


(** ** security_monitor.py: configuration and state *)

Record SecurityConfig : Type := {
  motion_detection_enabled : bool;
  cooldown_seconds : Z;
  capture_images : bool;
  tamper_detection_enabled : bool;
  vibration_threshold : pyfloat;
  temperature_change_rate : pyfloat;
  activity_logging_enabled : bool;
  log_all_access : bool
}.

Definition SECURITY_CONFIG : SecurityConfig := {|
  motion_detection_enabled := true;
  cooldown_seconds := 300;
  capture_images := true;
  tamper_detection_enabled := true;
  vibration_threshold := ratio 2 1;
  temperature_change_rate := ratio 5 1;
  activity_logging_enabled := true;
  log_all_access := true
|}.

(** A [datetime], in microseconds. *)
Definition datetime : Type := Z.

(** [(a - b).total_seconds()] *)
Definition total_seconds (a b : datetime) : Q := (a - b) # 1000000.

Record MotionDetector : Type := {
  gpio_pin : Z;
  gpio_available : bool;
  last_motion_time : option datetime;
  motion_active : bool
}.

(** [MotionDetector.__init__]; whether [RPi.GPIO] imports is the
    environment's. *)
Definition MotionDetector_init (gpio : bool) : MotionDetector := {|
  gpio_pin := 18;
  gpio_available := gpio;
  last_motion_time := None;
  motion_active := false
|}.

(** [detect_motion].  [motion] is what the PIR pin (or the mock's random
    draw) gives on this call, [now] the clock at the rising edge. *)
Definition detect_motion (cfg : SecurityConfig) (motion : bool) (now : datetime)
    (self : MotionDetector) : bool * MotionDetector :=
  if negb (motion_detection_enabled cfg) then (false, self)
  else if motion && negb (motion_active self) then
    (true, {| gpio_pin := gpio_pin self;
              gpio_available := gpio_available self;
              last_motion_time := Some now;
              motion_active := true |})
  else if negb motion && motion_active self then
    (motion, {| gpio_pin := gpio_pin self;
                gpio_available := gpio_available self;
                last_motion_time := last_motion_time self;
                motion_active := false |})
  else (motion, self).

Definition is_cooldown_active (cfg : SecurityConfig) (now : datetime)
    (self : MotionDetector) : bool :=
  match last_motion_time self with
  | None => false
  | Some last =>
      let cooldown := cooldown_seconds cfg in
      let elapsed := total_seconds now last in
      Qltb elapsed (inject_Z cooldown)
  end.

(** One entry of [TamperDetector.baseline_readings]: the raw
    [sensors.get("temperature")] and the time it was stored. *)
Record Baseline : Type := {
  b_temperature : option value;
  b_timestamp : datetime
}.

Record TamperDetector : Type := {
  baseline_readings : gmap string Baseline
}.

Definition TamperDetector_init : TamperDetector :=
  {| baseline_readings := ∅ |}.

(** The dictionary [check_tamper] returns when it signals. *)
Record Tamper : Type := {
  tamper_type : string;
  indicator : string;
  tamper_value : string;
  tamper_message : string
}.

(** Arithmetic of the rate check, over the rationals: the rounding of each
    double operation is not modelled, so a finite result is the exact one
    and can differ from Python's in the last place. *)
Definition fsub (a b : pyfloat) : pyfloat :=
  match a, b with
  | FNaN, _ | _, FNaN => FNaN
  | FInf sa, FInf sb => if Bool.eqb sa sb then FNaN else FInf sa
  | FInf sa, FFin _ => FInf sa
  | FFin _, FInf sb => FInf (negb sb)
  | FFin x, FFin y => FFin (x - y)
  end.

Definition fabs (a : pyfloat) : pyfloat :=
  match a with
  | FNaN => FNaN
  | FInf _ => FInf false
  | FFin x => FFin (Qabs x)
  end.

(** Division by a finite positive number. *)
Definition fdiv_pos (a : pyfloat) (d : Q) : pyfloat :=
  match a with
  | FFin x => FFin (x / d)
  | other => other
  end.

(** Events of the security monitor: a call of [activity_logger.log_activity]
    that reaches the log, and a call of [send_intrusion_alert]. *)
Inductive Details : Type :=
| MotionLogDetails (location : string) (after_hours thermal_data_available : bool)
| MotionAlertDetails (message location : string) (after_hours : bool) (timestamp : string)
| TamperDetails (tamper : Tamper)
| RoutineDetails (sensors_read : list string) (after_hours : bool).

Inductive SecurityEvent : Type :=
| LogActivity (event_type equipment_id : string) (details : Details) (after_hours : bool)
| IntrusionAlert (equipment_id alert_type : string) (details : Details)
    (thermal_image_path : option string).

Definition is_motion_alert (e : SecurityEvent) : bool :=
  match e with
  | IntrusionAlert _ alert_type _ _ => String.eqb alert_type "unauthorized_motion"
  | LogActivity _ _ _ _ => false
  end.

Definition is_motion_log (e : SecurityEvent) : bool :=
  match e with
  | LogActivity event_type _ _ _ => String.eqb event_type "motion_detected"
  | IntrusionAlert _ _ _ _ => false
  end.

Definition motion_alert_count (events : list SecurityEvent) : nat :=
  length (List.filter is_motion_alert events).

Definition motion_log_count (events : list SecurityEvent) : nat :=
  length (List.filter is_motion_log events).

(** The module globals [motion_detector] and [tamper_detector] once
    [initialize_security_monitoring] has run. *)
Record Security : Type := {
  motion_detector : MotionDetector;
  tamper_detector : TamperDetector
}.

Definition initialize_security_monitoring (gpio : bool) : Security := {|
  motion_detector := MotionDetector_init gpio;
  tamper_detector := TamperDetector_init
|}.

(** What one call of [monitor_security] takes from its environment: the
    value of [is_after_hours()] during the call, the PIR read, the clock at
    each [datetime.now()] it can reach, and the formatted time stamp. *)
Record SecurityInput : Type := {
  si_after_hours : bool;
  si_motion : bool;
  now_detect : datetime;
  now_cooldown : datetime;
  now_rate : datetime;
  now_store : datetime;
  now_text : string
}.

(** The result of a call that may have raised part-way: the events and the
    state reached, and the exception if one left the function. *)
Record SecurityOutcome : Type := {
  so_events : list SecurityEvent;
  so_state : Security;
  so_raised : option exn
}.

(** ** premonitor_main_hardened.py: interpreter interface *)

Inductive dtype : Type := UInt8 | Int8 | Float32.

(** One entry of [get_input_details()] / [get_output_details()].  A
    dimension is [None] or an integer ([-1] for a flexible one). *)
Record TensorDetails : Type := {
  td_index : Z;
  td_shape : list (option Z);
  td_dtype : dtype;
  td_quantization : Q * Z
}.

(** A loaded TFLite interpreter.  [invoke t] stands for [set_tensor],
    [invoke] and [get_tensor] in a row; each of the three calls may raise. *)
Record Interpreter : Type := {
  get_input_details : result (list TensorDetails);
  get_output_details : result (list TensorDetails);
  invoke : ndarray -> result ndarray
}.

(** [normalize_shape] *)
Definition normalize_shape (shape : list (option Z)) : list Z :=
  map (fun x => match x with
                | None => -1
                | Some n => if n =? -1 then -1 else n
                end) shape.

(** [all(exp == -1 or exp == inp for exp, inp in zip(expected, got))]:
    [zip] stops at the shorter of the two. *)
Fixpoint shapes_compatible (expected got : list Z) : bool :=
  match expected, got with
  | exp :: expected', inp :: got' =>
      ((exp =? -1) || (exp =? inp)) && shapes_compatible expected' got'
  | _, _ => true
  end.

(** [lst[0]] *)
Definition first {A : Type} (l : list A) : result A :=
  match l with
  | x :: _ => Ok x
  | [] => Raise IndexError
  end.

(** [np.expand_dims(a, axis=0)] *)
Definition expand_dims (a : ndarray) : ndarray :=
  {| shape := 1 :: shape a; data := data a |}.

Definition is_quantized (d : dtype) : bool :=
  match d with
  | UInt8 | Int8 => true
  | Float32 => false
  end.

(** The thresholds the hardened main loop reads from its configuration
    module; [startup_check] refuses to start when one is missing.
    [fusion_config] holds the values of [config.py]. *)
Record FusionConfig : Type := {
  fc_thermal_anomaly_confidence : pyfloat;
  fc_acoustic_anomaly_confidence : pyfloat;
  fc_fusion_correlation_confidence : pyfloat;
  fc_gas_analog_threshold : pyfloat
}.

Definition fusion_config : FusionConfig := {|
  fc_thermal_anomaly_confidence := THERMAL_ANOMALY_CONFIDENCE config;
  fc_acoustic_anomaly_confidence := ACOUSTIC_ANOMALY_CONFIDENCE config;
  fc_fusion_correlation_confidence := FUSION_CORRELATION_CONFIDENCE config;
  fc_gas_analog_threshold := ratio 600 1
|}.

(** A call of [alert_manager.send_alert_in_background(title, details)]. *)
Record BackgroundAlert : Type := {
  alert_title : string;
  alert_details : string
}.

Definition TITLE_THERMAL : string := "CRITICAL: High-Confidence Thermal Anomaly".
Definition TITLE_ACOUSTIC : string := "CRITICAL: High-Confidence Acoustic Anomaly".
Definition TITLE_CORRELATED : string := "WARNING: Correlated Anomaly Detected".
Definition TITLE_GAS : string := "WARNING: High Gas Level Detected".

Definition has_title (title : string) (alerts : list BackgroundAlert) : bool :=
  existsb (fun a => String.eqb (alert_title a) title) alerts.

(** ** The multi-equipment script: state and environment *)

(** One hardware read of [read_equipment_sensors]: the value, or the
    exception the driver raised. *)
Record Hardware : Type := {
  read_thermal_camera : result value;
  read_microphone : result value;
  read_gas_sensor : result value;
  read_temperature : result value;
  read_co2_sensor : result value;
  read_oxygen_sensor : result value;
  read_vibration_sensor : result value;
  read_current_sensor : result value
}.

(** An entry of [equipment_states]. *)
Record EquipmentState : Type := {
  last_reading : Readings;
  last_inference : list InferenceResult;
  state_timestamp : string
}.

(** The module-level state of the multi-equipment script and of the
    security monitor it drives. *)
Record World : Type := {
  equipment_states : gmap string EquipmentState;
  equipment_lstm_buffers : gmap string (list (list pyfloat));
  security : option Security
}.

Definition initial_world : World := {|
  equipment_states := ∅;
  equipment_lstm_buffers := ∅;
  security := None
|}.

(** What one call of [monitor_equipment] takes from its environment. *)
Record CycleInput : Type := {
  hardware : Hardware;
  security_input : SecurityInput;
  cycle_now : string
}.

(** What one call of [monitor_equipment] does besides updating the state:
    the messages of the raw pass and of the model pass as handed to the
    channels, the security events, the array submitted to the LSTM, the
    inference results of the cycle, and the exception that left the call,
    if any. *)
Record CycleOutput : Type := {
  raw_sends : list Send;
  model_sends : list Send;
  security_events : list SecurityEvent;
  lstm_submitted : option (list (list pyfloat));
  inference : list InferenceResult;
  raised : option exn
}.

Definition sends (out : CycleOutput) : list Send :=
  (raw_sends out ++ model_sends out)%list.

(** ** Further state: the wall clock, the activity log, retries *)

(** [SECURITY_CONFIG["business_hours"]] *)
Record BusinessHours : Type := {
  bh_start : string;
  bh_end : string;
  weekdays_only : bool
}.

Definition BUSINESS_HOURS : BusinessHours := {|
  bh_start := "08:00";
  bh_end := "18:00";
  weekdays_only := true
|}.

(** What [is_after_hours] reads off [datetime.now()]: [weekday()] (Monday
    is 0) and [time()], in microseconds since midnight. *)
Record WallClock : Type := {
  weekday : Z;
  time_of_day : Z
}.

(** A line of the JSON activity log once decoded: the record and the time
    its ["timestamp"] field stands for ([datetime.fromisoformat(...)
    .timestamp()], in microseconds). *)
Record ActivityEntry : Type := {
  ae_timestamp : string;
  ae_time : Z;
  ae_event_type : string;
  ae_equipment_id : string;
  ae_details : string;
  ae_after_hours : bool
}.

(** The JSON log file as [get_recent_activity] meets it: not there, not
    readable, or a sequence of lines each of which decodes or raises
    ([json.loads], the ["timestamp"] key, [fromisoformat]). *)
Inductive LogFile : Type :=
| LogMissing
| LogUnreadable (e : exn)
| LogLines (lines : list (result ActivityEntry)).

(** What a call of a function wrapped by [retry_on_failure] does: what it
    returns or raises ([Ok None] is Python's [None]), how often the wrapped
    function was called, and the arguments of [time.sleep] in order. *)
Record RetryOutcome (A : Type) : Type := {
  ro_value : result (option A);
  ro_calls : nat;
  ro_sleeps : list Q
}.
Arguments ro_value {A} _.
Arguments ro_calls {A} _.
Arguments ro_sleeps {A} _.

(** The reads of [read_equipment_sensors], in the order it makes them:
    the wiring key that switches the read on, the key the reading is
    stored under, and the driver call. *)
Definition SENSOR_READS : list (string * string * (Hardware -> result value)) := [
  ("thermal_camera", "thermal", read_thermal_camera);
  ("microphone", "audio", read_microphone);
  ("gas_sensor", "gas", read_gas_sensor);
  ("temperature", "temperature", read_temperature);
  ("co2", "co2", read_co2_sensor);
  ("oxygen", "oxygen", read_oxygen_sensor);
  ("vibration", "vibration", read_vibration_sensor);
  ("current", "current", read_current_sensor)
].

Definition READING_KEYS : list string :=
  map (fun entry => snd (fst entry)) SENSOR_READS.

(** ** A sample environment

    Stand-ins for the external collaborators, used where an example needs a
    closed term: floats print as a placeholder, the numpy kernels return the
    first element of the array, casts are the identity, no frame is
    captured and no model is loaded ([thermal_090] stands for a thermal
    model that answers 0.90). *)

Module Sample.

Definition fixed (digits : nat) (x : pyfloat) : string := "<float>".
Definition str_float (x : pyfloat) : string := "<float>".
Definition first_or_nan (a : ndarray) : pyfloat :=
  match data a with
  | x :: _ => x
  | [] => FNaN
  end.
Definition np_mean : ndarray -> pyfloat := first_or_nan.
Definition np_rms : ndarray -> pyfloat := first_or_nan.
Definition round32 (v : Q) : pyfloat := FFin v.
Definition prepare_input (details : TensorDetails) (a : ndarray) : ndarray := a.
Definition dequantize (details : TensorDetails) (a : ndarray) : ndarray := a.
Definition capture (equipment_id : string) (frame : value) : option string := None.
Definition no_model (input : value) (equipment_id : string) : InferenceResult :=
  IError "model not loaded".
Definition thermal_090 (input : value) (equipment_id : string)
  : InferenceResult := IThermal equipment_id (ratio 90 100) "2025-01-01T00:00:00".
Definition no_lstm (buffer : list (list pyfloat)) (equipment_id : string)
  : InferenceResult := IError "LSTM model not loaded".


(** The configuration of the docstring of [validate_equipment_config]: a
    fridge with only its thermal camera wired. *)
Definition fridge_thermal_only : Equipment := {|
  eq_id := "test_invalid";
  eq_type := "fridge";
  eq_name := "Test Fridge";
  eq_location := None;
  eq_pi_id := "premonitor_pi";
  eq_sensors := Some [("thermal_camera",
                       {| enabled := Some true; driver_params := [] |})];
  eq_alert_channels := None;
  eq_critical := None
|}.

Definition readings_of (items : dict value) : Readings :=
  {| r_equipment_id := "fridge_lab_a_01";
     r_timestamp := "2025-01-01T00:00:00";
     sensors := items |}.



(** The readings of [test_critical_temperature_alert]: 80 °C. *)
Definition readings_hot : Readings :=
  readings_of [("temperature", VNum (ratio 80 1))].

(** 20 °C, with and without a 3 G shock. *)
Definition readings_20C : Readings :=
  readings_of [("temperature", VNum (ratio 20 1))].

Definition readings_shaken : Readings :=
  readings_of [("vibration", VNum (ratio 3 1)); ("temperature", VNum (ratio 20 1))].

(** Seconds on the microsecond clock. *)
Definition seconds (n : Z) : datetime := n * 1000000.

(** A [monitor_security] call at [t] seconds whose PIR read is [motion];
    the clock does not advance during the call. *)
Definition call_at (t : Z) (motion : bool) : SecurityInput * Readings :=
  ({| si_after_hours := false; si_motion := motion;
      now_detect := seconds t; now_cooldown := seconds t;
      now_rate := seconds t; now_store := seconds t;
      now_text := "" |},
   readings_of []).

(** A tamper detector whose baseline for the fridge is 5.0 °C, stored at
    time 0. *)
Definition baseline_5C : Baseline :=
  {| b_temperature := Some (VNum (ratio 5 1)); b_timestamp := 0 |}.

Definition detector_5C : TamperDetector :=
  {| baseline_readings := {[ "fridge_lab_a_01" := baseline_5C ]} |}.

(** A float32 model of input shape (1, 2) whose output is NaN. *)
Definition float_details (dims : list (option Z)) : TensorDetails :=
  {| td_index := 0; td_shape := dims; td_dtype := Float32;
     td_quantization := (0%Q, 0) |}.

Definition nan_model : Interpreter := {|
  get_input_details := Ok [float_details [Some 1; Some 2]];
  get_output_details := Ok [float_details [Some 1; Some 1]];
  invoke := fun _ => Ok {| shape := [1; 1]; data := [FNaN] |}
|}.

Definition input_1x2 : ndarray :=
  {| shape := [2]; data := [ratio 0 1; ratio 0 1] |}.

(** Fusion thresholds of the fridge profile: anomaly 0.85 for both
    sensors, correlation 0.60. *)
Definition fridge_fusion_config : FusionConfig := {|
  fc_thermal_anomaly_confidence := ratio 85 100;
  fc_acoustic_anomaly_confidence := ratio 85 100;
  fc_fusion_correlation_confidence := ratio 60 100;
  fc_gas_analog_threshold := ratio 300 1
|}.

(** An interpreter whose [invoke] raises. *)
Definition failing_model : Interpreter := {|
  get_input_details := Ok [float_details [Some 1; Some 2]];
  get_output_details := Ok [float_details [Some 1; Some 1]];
  invoke := fun _ => Raise RuntimeError
|}.

(** A cycle in which the fridge reads 80 °C and its thermal camera
    delivers a frame. *)
Definition frame : value :=
  VArr {| shape := [1; 1]; data := [ratio 80 1] |}.

Definition hot_hardware : Hardware := {|
  read_thermal_camera := Ok frame;
  read_microphone := Raise RuntimeError;
  read_gas_sensor := Raise RuntimeError;
  read_temperature := Ok (VNum (ratio 80 1));
  read_co2_sensor := Raise RuntimeError;
  read_oxygen_sensor := Raise RuntimeError;
  read_vibration_sensor := Raise RuntimeError;
  read_current_sensor := Raise RuntimeError
|}.

Definition hot_cycle : CycleInput := {|
  hardware := hot_hardware;
  security_input := fst (call_at 0 false);
  cycle_now := "2025-01-01 00:00:00"
|}.

(** [strptime] on the two times of the shipped business hours; any other
    text is refused here. *)
Definition strptime_time (text : string) : result Z :=
  if String.eqb text "08:00" then Ok (8 * 3600 * 1000000)
  else if String.eqb text "18:00" then Ok (18 * 3600 * 1000000)
  else Raise ValueError.

(** Business hours whose start is not of the form HH:MM. *)
Definition hours_misspelt : BusinessHours :=
  {| bh_start := "8am"; bh_end := "18:00"; weekdays_only := true |}.

(** Wednesday noon, Wednesday 18:00 sharp and Saturday noon. *)
Definition wednesday_noon : WallClock :=
  {| weekday := 2; time_of_day := 12 * 3600 * 1000000 |}.
Definition wednesday_1800 : WallClock :=
  {| weekday := 2; time_of_day := 18 * 3600 * 1000000 |}.
Definition saturday_noon : WallClock :=
  {| weekday := 5; time_of_day := 12 * 3600 * 1000000 |}.

(** A detector that saw motion start at time 0 and has not seen it end. *)
Definition detector_active : MotionDetector :=
  {| gpio_pin := 18; gpio_available := false;
     last_motion_time := Some 0; motion_active := true |}.

(** The shipped fridge with SMS as its only alert channel. *)
Definition fridge_sms_only : Equipment := {|
  eq_id := "fridge_lab_a_01";
  eq_type := "fridge";
  eq_name := "Main Lab Fridge A1";
  eq_location := Some "Lab A, Corner near sink";
  eq_pi_id := "premonitor_pi";
  eq_sensors := eq_sensors fridge_lab_a_01;
  eq_alert_channels := Some ["sms"];
  eq_critical := Some true
|}.



(** A temperature sensor that answers NaN. *)
Definition readings_nan : Readings :=
  readings_of [("temperature", VNum FNaN)].

(** A gas reading of 350, between the fridge profile's 300 and the
    configuration's 600. *)
Definition readings_gas_350 : Readings :=
  readings_of [("gas", VNum (ratio 350 1))].

(** The configuration with another gas threshold. *)
Definition config_gas_100 : Config := {|
  SENSOR_READ_INTERVAL := SENSOR_READ_INTERVAL config;
  THERMAL_CRITICAL_THRESHOLD_C := THERMAL_CRITICAL_THRESHOLD_C config;
  GAS_ANALOG_THRESHOLD := Some (ratio 100 1);
  THERMAL_ANOMALY_CONFIDENCE := THERMAL_ANOMALY_CONFIDENCE config;
  ACOUSTIC_ANOMALY_CONFIDENCE := ACOUSTIC_ANOMALY_CONFIDENCE config;
  FUSION_CORRELATION_CONFIDENCE := FUSION_CORRELATION_CONFIDENCE config
|}.




End Sample.

(** ** The program, over its external collaborators *)

Section Premonitor.

Set Default Proof Using "Type".

(** Text formatting of floats: [fixed n x] is [f"{x:.nf}"], [str_float x]
    is [f"{x}"]. *)
Variable fixed : nat -> pyfloat -> string.
Variable str_float : pyfloat -> string.

(** numpy kernels: [np.mean(a)], [np.sqrt(np.mean(a ** 2))] and the
    rounding of a finite value to [float32]. *)
Variable np_mean : ndarray -> pyfloat.
Variable np_rms : ndarray -> pyfloat.
Variable round32 : Q -> pyfloat.

(** numpy casts and arithmetic of [run_inference]: the input tensor
    prepared for the model's dtype, and the dequantised output. *)
Variable prepare_input : TensorDetails -> ndarray -> ndarray.
Variable dequantize : TensorDetails -> ndarray -> ndarray.

(** [capture_thermal_image_on_motion]: writes a PNG and returns its path,
    or [None] when capturing is off or fails. *)
Variable capture_thermal_image_on_motion : string -> value -> option string.

(** The three TFLite wrappers of the multi-equipment script; each returns an
    error dictionary instead of raising. *)
Variable run_thermal_inference : value -> string -> InferenceResult.
Variable run_acoustic_inference : value -> string -> InferenceResult.
Variable run_lstm_inference : list (list pyfloat) -> string -> InferenceResult.

Definition str_threshold (t : threshold) : string :=
  match t with
  | TNum x => str_float x
  | TRange lo hi => "(" +:+ str_float lo +:+ ", " +:+ str_float hi +:+ ")"
  end.

(** [np.float32(x)] *)
Definition float32 (x : pyfloat) : pyfloat :=
  match x with
  | FFin v => round32 v
  | other => other
  end.

(** *** security_monitor.py *)

Definition vibration_tamper (vib_val : pyfloat) : Tamper := {|
  tamper_type := "physical_tampering";
  indicator := "abnormal_vibration";
  tamper_value := fixed 2 vib_val +:+ "G";
  tamper_message := "Equipment experienced " +:+ fixed 2 vib_val +:+
                    "G vibration (possible physical tampering)"
|}.

Definition thermal_tamper (temp_change_rate : pyfloat) : Tamper := {|
  tamper_type := "thermal_tampering";
  indicator := "rapid_temperature_change";
  tamper_value := fixed 2 temp_change_rate +:+ "°C/min";
  tamper_message := "Temperature changing at " +:+ fixed 2 temp_change_rate +:+
                    "°C/min (possible door open/tampering)"
|}.

(** Check 1 of [check_tamper]. *)
Definition check_vibration (cfg : SecurityConfig) (sensors : dict value)
  : result (option Tamper) :=
  match dict_get "vibration" sensors with
  | None => Ok None
  | Some v =>
      vib_val ← py_float v;
      let threshold := vibration_threshold cfg in
      if fge vib_val threshold then Ok (Some (vibration_tamper vib_val))
      else Ok None
  end.

(** Check 2 of [check_tamper].  The stored temperature enters the
    arithmetic as a number; an array of several elements makes the
    comparison raise. *)
Definition check_temperature_rate (cfg : SecurityConfig) (now : datetime)
    (baseline : option Baseline) (sensors : dict value)
  : result (option Tamper) :=
  match baseline, dict_get "temperature" sensors with
  | Some base, Some cur =>
      match b_temperature base with
      | None => Ok None
      | Some prev =>
          current_temp ← py_float cur;
          let time_diff := (total_seconds now (b_timestamp base) / 60)%Q in
          if Qltb 0 time_diff then
            prev_temp ← py_float prev;
            let temp_change_rate :=
              fdiv_pos (fabs (fsub current_temp prev_temp)) time_diff in
            let max_rate := temperature_change_rate cfg in
            if fgt temp_change_rate max_rate
            then Ok (Some (thermal_tamper temp_change_rate))
            else Ok None
          else Ok None
      end
  | _, _ => Ok None
  end.

(** [TamperDetector.check_tamper] *)
Definition check_tamper (cfg : SecurityConfig) (now_rate now_store : datetime)
    (equipment_id : string) (readings : Readings) (self : TamperDetector)
  : result (option Tamper * TamperDetector) :=
  if negb (tamper_detection_enabled cfg) then Ok (None, self)
  else
    let sensors := sensors readings in
    vib ← check_vibration cfg sensors;
    match vib with
    | Some tamper => Ok (Some tamper, self)
    | None =>
        rate ← check_temperature_rate cfg now_rate
                 (baseline_readings self !! equipment_id) sensors;
        match rate with
        | Some tamper => Ok (Some tamper, self)
        | None =>
            (* Update baseline readings *)
            Ok (None,
                {| baseline_readings :=
                     <[equipment_id :=
                         {| b_temperature := dict_get "temperature" sensors;
                            b_timestamp := now_store |}]>
                       (baseline_readings self) |})
        end
    end.

(** [ActivityLogger.log_activity]: nothing is written when logging is off. *)
Definition log_activity (cfg : SecurityConfig) (after_hours : bool)
    (event_type equipment_id : string) (details : Details)
  : list SecurityEvent :=
  if negb (activity_logging_enabled cfg) then []
  else [LogActivity event_type equipment_id details after_hours].

(** The thermal frame captured for an alert, when the readings hold one. *)
Definition capture_if_thermal (equipment_id : string) (readings : Readings)
  : option string :=
  match dict_get "thermal" (sensors readings) with
  | Some thermal_data => capture_thermal_image_on_motion equipment_id thermal_data
  | None => None
  end.

(** The motion part of [monitor_security]. *)
Definition monitor_motion (cfg : SecurityConfig) (inp : SecurityInput)
    (equipment : Equipment) (readings : Readings) (md : MotionDetector)
  : list SecurityEvent * MotionDetector :=
  let equipment_id := eq_id equipment in
  let after_hours := si_after_hours inp in
  if after_hours || motion_detection_enabled cfg then
    let '(motion_detected, md') :=
      detect_motion cfg (si_motion inp) (now_detect inp) md in
    if motion_detected && negb (is_cooldown_active cfg (now_cooldown inp) md')
    then
      let location := default "Unknown" (eq_location equipment) in
      ((log_activity cfg after_hours "motion_detected" equipment_id
          (MotionLogDetails location after_hours
             (dict_has "thermal" (sensors readings)))
        ++ [IntrusionAlert equipment_id "unauthorized_motion"
              (MotionAlertDetails "Motion detected in equipment area" location
                 after_hours (now_text inp))
              (capture_if_thermal equipment_id readings)])%list,
       md')
    else ([], md')
  else ([], md).

(** [monitor_security].  [st] is [None] until the first call, which
    creates the detectors. *)
Definition monitor_security (cfg : SecurityConfig) (gpio : bool)
    (inp : SecurityInput) (equipment : Equipment) (readings : Readings)
    (st : option Security) : SecurityOutcome :=
  let st := default (initialize_security_monitoring gpio) st in
  let equipment_id := eq_id equipment in
  let after_hours := si_after_hours inp in
  let '(motion_events, md) :=
    monitor_motion cfg inp equipment readings (motion_detector st) in
  match check_tamper cfg (now_rate inp) (now_store inp) equipment_id readings
          (tamper_detector st) with
  | Raise e =>
      {| so_events := motion_events;
         so_state := {| motion_detector := md;
                        tamper_detector := tamper_detector st |};
         so_raised := Some e |}
  | Ok (tamper_result, td) =>
      let tamper_events :=
        match tamper_result with
        | Some tamper =>
            (log_activity cfg after_hours "tamper_detected" equipment_id
               (TamperDetails tamper)
             ++ [IntrusionAlert equipment_id "equipment_tampering"
                   (TamperDetails tamper)
                   (capture_if_thermal equipment_id readings)])%list
        | None => []
        end in
      let routine_events :=
        if log_all_access cfg then
          log_activity cfg after_hours "routine_monitoring" equipment_id
            (RoutineDetails (dict_keys (sensors readings)) after_hours)
        else [] in
      {| so_events := (motion_events ++ tamper_events ++ routine_events)%list;
         so_state := {| motion_detector := md; tamper_detector := td |};
         so_raised := None |}
  end.

(** A run of [monitor_security] calls for one equipment, as the monitoring
    loop makes them; an exception leaving a call is logged by the caller and
    the run goes on. *)
Fixpoint run_security (cfg : SecurityConfig) (gpio : bool)
    (equipment : Equipment) (calls : list (SecurityInput * Readings))
    (st : option Security) : list SecurityEvent * option Security :=
  match calls with
  | [] => ([], st)
  | (inp, readings) :: rest =>
      let out := monitor_security cfg gpio inp equipment readings st in
      let '(events, st') :=
        run_security cfg gpio equipment rest (Some (so_state out)) in
      ((so_events out ++ events)%list, st')
  end.

(** *** premonitor_main_multi_equipment.py *)

(** [sensors_config.get(key, {}).get("enabled", False)] *)
Definition wiring_enabled (sensors_config : dict SensorWiring) (key : string)
  : bool :=
  match dict_get key sensors_config with
  | Some wiring => default false (enabled wiring)
  | None => false
  end.

(** One guarded read: the reading is stored under [name] unless the sensor
    is off or the driver raised (which is logged). *)
Definition read_sensor (sensors_config : dict SensorWiring)
    (config_key name : string) (read : result value) (acc : dict value)
  : dict value :=
  if wiring_enabled sensors_config config_key then
    match read with
    | Ok v => (acc ++ [(name, v)])%list
    | Raise _ => acc
    end
  else acc.

Definition read_equipment_sensors (hardware : Hardware) (timestamp : string)
    (equipment : Equipment) : Readings :=
  let sensors_config := default [] (eq_sensors equipment) in
  let s := [] in
  let s := read_sensor sensors_config "thermal_camera" "thermal"
             (read_thermal_camera hardware) s in
  let s := read_sensor sensors_config "microphone" "audio"
             (read_microphone hardware) s in
  let s := read_sensor sensors_config "gas_sensor" "gas"
             (read_gas_sensor hardware) s in
  let s := read_sensor sensors_config "temperature" "temperature"
             (read_temperature hardware) s in
  let s := read_sensor sensors_config "co2" "co2"
             (read_co2_sensor hardware) s in
  let s := read_sensor sensors_config "oxygen" "oxygen"
             (read_oxygen_sensor hardware) s in
  let s := read_sensor sensors_config "vibration" "vibration"
             (read_vibration_sensor hardware) s in
  let s := read_sensor sensors_config "current" "current"
             (read_current_sensor hardware) s in
  {| r_equipment_id := eq_id equipment;
     r_timestamp := timestamp;
     sensors := s |}.

(** [float(sensors.get(key, np.nan))] *)
Definition scalar_feature (key : string) (sensors : dict value)
  : result pyfloat :=
  py_float (dict_get_or key (VNum FNaN) sensors).

(** Feature 4: the RMS of the audio array, NaN unless the reading is an
    array. *)
Definition acoustic_feature (sensors : dict value) : pyfloat :=
  match dict_get "audio" sensors with
  | Some (VArr audio) => np_rms audio
  | _ => FNaN
  end.

(** Feature 5: the mean of the thermal array, NaN unless the reading is an
    array. *)
Definition thermal_feature (sensors : dict value) : pyfloat :=
  match dict_get "thermal" sensors with
  | Some (VArr thermal) => np_mean thermal
  | _ => FNaN
  end.



Definition build_lstm_feature_vector (readings : Readings)
    (equipment_type : string) : result (list pyfloat) :=
  let sensors := sensors readings in
  f_temperature ← scalar_feature "temperature" sensors;
  f_gas ← scalar_feature "gas" sensors;
  f_vibration ← scalar_feature "vibration" sensors;
  f_current ← scalar_feature "current" sensors;
  let feature_vector :=
    [f_temperature; f_gas; f_vibration; f_current;
     acoustic_feature sensors; thermal_feature sensors] in
  mret (map float32 feature_vector).

(** The six guarded blocks of [check_raw_sensor_thresholds].  In each, the
    statements that can raise come before the first [alerts.append], so a
    block that raises contributes nothing. *)
Definition temperature_alerts (cfg : Config) (thresholds : dict threshold)
    (sensors : dict value) : list string :=
  match dict_get "temperature" sensors with
  | None => []
  | Some v =>
      try_except
        (temp_val ← py_float v;
         let temp_range := dict_get "temperature_range" thresholds in
         out ← out_of_range temp_val temp_range;
         let range_alert :=
           if out : bool then
             ["Temperature out of expected range: " +:+ fixed 2 temp_val +:+
              "°C (expected " +:+ from_option str_threshold "None" temp_range
              +:+ ")"]
           else [] in
         let critical_alert :=
           match THERMAL_CRITICAL_THRESHOLD_C cfg with
           | Some critical_c =>
               if fge temp_val critical_c then
                 ["CRITICAL: High temperature detected: " +:+ fixed 2 temp_val
                  +:+ "°C >= " +:+ str_float critical_c +:+ "°C"]
               else []
           | None => []
           end in
         mret (range_alert ++ critical_alert)%list)
        (fun _ => [])
  end.

Definition gas_alerts (cfg : Config) (thresholds : dict threshold)
    (sensors : dict value) : list string :=
  match dict_get "gas" sensors with
  | None => []
  | Some v =>
      try_except
        (gas_val ← py_float v;
         match dict_get "gas_analog_threshold" thresholds with
         | Some gas_threshold =>
             over ← ge_threshold gas_val gas_threshold;
             mret (if over : bool then
                     ["Gas sensor above threshold: " +:+ str_float gas_val +:+
                      " >= " +:+ str_threshold gas_threshold]
                   else [])
         | None =>
             match GAS_ANALOG_THRESHOLD cfg with
             | Some gas_threshold =>
                 mret (if fge gas_val gas_threshold then
                         ["Gas sensor above threshold: " +:+ str_float gas_val
                          +:+ " >= " +:+ str_float gas_threshold]
                       else [])
             | None => mret []
             end
         end)
        (fun _ => [])
  end.

Definition co2_alerts (thresholds : dict threshold) (sensors : dict value)
  : list string :=
  match dict_get "co2" sensors with
  | None => []
  | Some v =>
      try_except
        (co2_val ← py_float v;
         let co2_range := dict_get "co2_range" thresholds in
         out ← out_of_range co2_val co2_range;
         mret (if out : bool then
                 ["CO2 level out of expected range: " +:+ fixed 2 co2_val +:+
                  "% (expected " +:+ from_option str_threshold "None" co2_range
                  +:+ ")"]
               else []))
        (fun _ => [])
  end.

Definition oxygen_alerts (thresholds : dict threshold) (sensors : dict value)
  : list string :=
  match dict_get "oxygen" sensors with
  | None => []
  | Some v =>
      try_except
        (oxy_val ← py_float v;
         match dict_get "oxygen_min" thresholds with
         | Some oxy_min =>
             low ← lt_threshold oxy_val oxy_min;
             mret (if low : bool then
                     ["Low oxygen detected: " +:+ fixed 2 oxy_val +:+ "% < " +:+
                      str_threshold oxy_min +:+ "%"]
                   else [])
         | None => mret []
         end)
        (fun _ => [])
  end.

Definition vibration_alerts (thresholds : dict threshold)
    (sensors : dict value) : list string :=
  match dict_get "vibration" sensors with
  | None => []
  | Some v =>
      try_except
        (vib_val ← py_float v;
         match dict_get "vibration_threshold" thresholds with
         | Some vib_threshold =>
             over ← ge_threshold vib_val vib_threshold;
             mret (if over : bool then
                     ["High vibration detected: " +:+ fixed 2 vib_val +:+
                      "G >= " +:+ str_threshold vib_threshold +:+
                      "G (possible bearing wear)"]
                   else [])
         | None => mret []
         end)
        (fun _ => [])
  end.

Definition current_alerts (thresholds : dict threshold) (sensors : dict value)
  : list string :=
  match dict_get "current" sensors with
  | None => []
  | Some v =>
      try_except
        (current_val ← py_float v;
         match dict_get "current_threshold" thresholds with
         | Some current_threshold =>
             over ← ge_threshold current_val current_threshold;
             mret (if over : bool then
                     ["Motor overload detected: " +:+ fixed 2 current_val +:+
                      "A >= " +:+ str_threshold current_threshold +:+
                      "A (possible mechanical jam)"]
                   else [])
         | None => mret []
         end)
        (fun _ => [])
  end.

(** The list [alerts] of [check_raw_sensor_thresholds] when the channel
    loop is reached. *)
Definition raw_alerts (cfg : Config) (thresholds : dict threshold)
    (sensors : dict value) : list string :=
  (temperature_alerts cfg thresholds sensors
   ++ gas_alerts cfg thresholds sensors
   ++ co2_alerts thresholds sensors
   ++ oxygen_alerts thresholds sensors
   ++ vibration_alerts thresholds sensors
   ++ current_alerts thresholds sensors)%list.

(** The composite message of one pass. *)
Definition compose_message (headline : string) (equipment : Equipment)
    (lines : list string) (now : string) : string :=
  headline +:+ eq_name equipment +:+ " (" +:+ eq_id equipment +:+ ")
" +:+ "Location: " +:+ default "Unknown" (eq_location equipment) +:+ "
" +:+ "Equipment Type: " +:+ eq_type equipment +:+ "

" +:+ bullets lines +:+ "
Timestamp: " +:+ now.

Definition alert_channels (equipment : Equipment) : list string :=
  default ["discord"] (eq_alert_channels equipment).

Definition check_raw_sensor_thresholds (cfg : Config) (now : string)
    (equipment : Equipment) (readings : Readings) : result (list Send) :=
  thresholds ← get_equipment_thresholds (eq_type equipment);
  let alerts := raw_alerts cfg thresholds (sensors readings) in
  match alerts with
  | [] => mret []
  | _ :: _ =>
      let alert_message :=
        compose_message "🚨 SENSOR THRESHOLD ALERT: " equipment alerts now in
      mret (dispatch (alert_channels equipment)
              ("Sensor Threshold Alert: " +:+ eq_name equipment) alert_message)
  end.

(** The body of the loop over [inference_results]. *)
Definition detect_anomaly (thresholds : dict threshold) (r : InferenceResult)
  : result (list Anomaly) :=
  match r with
  | IError _ => mret []
  | IThermal _ confidence _ =>
      match dict_get_or "thermal_anomaly_confidence" (TNum (ratio 85 100)) thresholds with
      | TNum threshold =>
          mret (if fgt confidence threshold then
                  [{| a_type := "thermal"; a_value := confidence;
                      a_threshold := threshold;
                      a_message := "Thermal anomaly detected (confidence: " +:+
                                   fixed 2 confidence +:+ ")" |}]
                else [])
      | TRange _ _ => Raise TypeError
      end
  | IAcoustic _ confidence _ =>
      match dict_get_or "acoustic_anomaly_confidence" (TNum (ratio 85 100)) thresholds with
      | TNum threshold =>
          mret (if fgt confidence threshold then
                  [{| a_type := "acoustic"; a_value := confidence;
                      a_threshold := threshold;
                      a_message := "Acoustic anomaly detected (confidence: " +:+
                                   fixed 2 confidence +:+ ")" |}]
                else [])
      | TRange _ _ => Raise TypeError
      end
  | ILstm _ reconstruction_error _ =>
      match dict_get_or "lstm_reconstruction_threshold" (TNum (ratio 45 1000)) thresholds with
      | TNum threshold =>
          mret (if fgt reconstruction_error threshold then
                  [{| a_type := "lstm_degradation"; a_value := reconstruction_error;
                      a_threshold := threshold;
                      a_message := "Performance degradation detected (error: " +:+
                                   fixed 4 reconstruction_error +:+ ")" |}]
                else [])
      | TRange _ _ => Raise TypeError
      end
  end.

Fixpoint detect_anomalies (thresholds : dict threshold)
    (inference_results : list InferenceResult) : result (list Anomaly) :=
  match inference_results with
  | [] => mret []
  | r :: rest =>
      found ← detect_anomaly thresholds r;
      more ← detect_anomalies thresholds rest;
      mret (found ++ more)%list
  end.

Definition check_anomaly_and_alert (now : string) (equipment : Equipment)
    (inference_results : list InferenceResult) : result (list Send) :=
  thresholds ← get_equipment_thresholds (eq_type equipment);
  anomalies_detected ← detect_anomalies thresholds inference_results;
  match anomalies_detected with
  | [] => mret []
  | _ :: _ =>
      let alert_message :=
        compose_message "🚨 ANOMALY DETECTED: " equipment
          (map a_message anomalies_detected) now in
      mret (dispatch (alert_channels equipment)
              ("Anomaly: " +:+ eq_name equipment) alert_message)
  end.

(** The sliding LSTM buffer: [append], then [pop(0)] when more than 50 are
    held. *)
Definition lstm_push (buffer : list (list pyfloat))
    (feature_vector : list pyfloat) : list (list pyfloat) :=
  let buffer := (buffer ++ [feature_vector])%list in
  if (50 <? length buffer)%nat then drop 1 buffer else buffer.

(** Lines 717-737 of [monitor_equipment]: the buffers after the cycle, and
    the array handed to [run_lstm_inference] when there is one. *)
Definition lstm_step (buffers : gmap string (list (list pyfloat)))
    (equipment_id : string) (readings : Readings) (equipment_type : string)
  : gmap string (list (list pyfloat)) * option (list (list pyfloat)) :=
  let buffers :=
    match buffers !! equipment_id with
    | Some _ => buffers
    | None => <[equipment_id := []]> buffers
    end in
  match build_lstm_feature_vector readings equipment_type with
  | Raise _ => (buffers, None)
  | Ok feature_vector =>
      let buffer :=
        lstm_push (default [] (buffers !! equipment_id)) feature_vector in
      (<[equipment_id := buffer]> buffers,
       if (50 <=? length buffer)%nat then Some buffer else None)
  end.

Definition monitor_equipment (cfg : Config) (sec_cfg : SecurityConfig)
    (gpio : bool) (inp : CycleInput) (equipment : Equipment) (w : World)
  : World * CycleOutput :=
  let equipment_id := eq_id equipment in
  (* Read all sensors *)
  let readings := read_equipment_sensors (hardware inp) (cycle_now inp) equipment in
  (* Security monitoring; an exception is logged *)
  let sec := monitor_security sec_cfg gpio (security_input inp) equipment
               readings (security w) in
  (* Quick raw sensor threshold checks; an exception is logged *)
  let raw := try_except
               (check_raw_sensor_thresholds cfg (cycle_now inp) equipment readings)
               (fun _ => []) in
  (* Run AI inference on sensor data *)
  let thermal_results :=
    match dict_get "thermal" (sensors readings) with
    | Some thermal => [run_thermal_inference thermal equipment_id]
    | None => []
    end in
  let acoustic_results :=
    match dict_get "audio" (sensors readings) with
    | Some audio => [run_acoustic_inference audio equipment_id]
    | None => []
    end in
  let '(buffers, submitted) :=
    lstm_step (equipment_lstm_buffers w) equipment_id readings
      (eq_type equipment) in
  let lstm_results :=
    match submitted with
    | Some buffer_array => [run_lstm_inference buffer_array equipment_id]
    | None => []
    end in
  let inference_results :=
    (thermal_results ++ acoustic_results ++ lstm_results)%list in
  (* Check for anomalies and send alerts *)
  match check_anomaly_and_alert (cycle_now inp) equipment inference_results with
  | Raise e =>
      ({| equipment_states := equipment_states w;
          equipment_lstm_buffers := buffers;
          security := Some (so_state sec) |},
       {| raw_sends := raw; model_sends := [];
          security_events := so_events sec;
          lstm_submitted := submitted; inference := inference_results;
          raised := Some e |})
  | Ok model =>
      (* Store equipment state *)
      ({| equipment_states :=
            <[equipment_id := {| last_reading := readings;
                                 last_inference := inference_results;
                                 state_timestamp := cycle_now inp |}]>
              (equipment_states w);
          equipment_lstm_buffers := buffers;
          security := Some (so_state sec) |},
       {| raw_sends := raw; model_sends := model;
          security_events := so_events sec;
          lstm_submitted := submitted; inference := inference_results;
          raised := None |})
  end.

(** A run of cycles, as [main_loop] drives them: each element is one call
    of [monitor_equipment]; an exception leaving a call is logged and the
    loop goes on. *)
Fixpoint run_cycles (cfg : Config) (sec_cfg : SecurityConfig) (gpio : bool)
    (cycles : list (CycleInput * Equipment)) (w : World)
  : World * list CycleOutput :=
  match cycles with
  | [] => (w, [])
  | (inp, equipment) :: rest =>
      let '(w1, out) := monitor_equipment cfg sec_cfg gpio inp equipment w in
      let '(w2, outs) := run_cycles cfg sec_cfg gpio rest w1 in
      (w2, out :: outs)
  end.

(** The distinct message texts among a list of sends. *)
Definition distinct_messages (l : list Send) : list string :=
  remove_dups (map send_message l).

(** The feature vectors a run of cycles appends to the buffer of
    [equipment_id], oldest first: one for each cycle of that equipment whose
    feature vector could be built. *)
Definition pushed_by (equipment_id : string) (cycle : CycleInput * Equipment)
  : list (list pyfloat) :=
  let '(inp, equipment) := cycle in
  if String.eqb (eq_id equipment) equipment_id then
    match build_lstm_feature_vector
            (read_equipment_sensors (hardware inp) (cycle_now inp) equipment)
            (eq_type equipment) with
    | Ok feature_vector => [feature_vector]
    | Raise _ => []
    end
  else [].

Definition pushed (equipment_id : string)
    (cycles : list (CycleInput * Equipment)) : list (list pyfloat) :=
  flat_map (pushed_by equipment_id) cycles.

(** The last [n] elements of a list, in order. *)
Definition last_n {A : Type} (n : nat) (l : list A) : list A :=
  drop (length l - n) l.

(** What the buffers of a world hold after the cycles of [history]. *)
Definition buffers_track (history : list (CycleInput * Equipment))
    (buffers : gmap string (list (list pyfloat))) : Prop :=
  forall equipment_id,
    match buffers !! equipment_id with
    | Some buffer => buffer = last_n 50 (pushed equipment_id history)
    | None => pushed equipment_id history = []
    end.

(** *** premonitor_main_hardened.py *)

Definition run_inference (interpreter : option Interpreter)
    (input_data : ndarray) : pyfloat :=
  match interpreter with
  | None => ratio 0 1
  | Some interpreter =>
      try_except
        (ins ← get_input_details interpreter;
         input_details ← first ins;
         outs ← get_output_details interpreter;
         output_details ← first outs;
         let expected_shape := normalize_shape (drop 1 (td_shape input_details)) in
         let input_shape := shape input_data in
         if negb (shapes_compatible expected_shape input_shape) then mret (ratio 0 1)
         else
           let input_tensor := prepare_input input_details (expand_dims input_data) in
           prediction ← invoke interpreter input_tensor;
           let prediction :=
             if is_quantized (td_dtype output_details)
             then dequantize output_details prediction
             else prediction in
           score ← first (data prediction);
           mret (np_clip score (ratio 0 1) (ratio 1 1)))
        (fun _ => ratio 0 1)
  end.

(** Step 3 of the main loop: sensor fusion and alerting. *)
Definition fusion_pass (cfg : FusionConfig)
    (thermal_score acoustic_score gas_reading : pyfloat)
  : list BackgroundAlert :=
  let model_alerts :=
    if fgt thermal_score (fc_thermal_anomaly_confidence cfg) then
      [{| alert_title := TITLE_THERMAL;
          alert_details := "Critical thermal anomaly detected with confidence "
                           +:+ fixed 3 thermal_score |}]
    else if fgt acoustic_score (fc_acoustic_anomaly_confidence cfg) then
      [{| alert_title := TITLE_ACOUSTIC;
          alert_details := "Critical acoustic anomaly detected with confidence "
                           +:+ fixed 3 acoustic_score |}]
    else if fgt thermal_score (fc_fusion_correlation_confidence cfg)
            && fgt acoustic_score (fc_fusion_correlation_confidence cfg) then
      [{| alert_title := TITLE_CORRELATED;
          alert_details :=
            "Potential issue detected by correlating weak signals:
- Thermal: " +:+ fixed 3 thermal_score +:+ " (threshold: " +:+
            str_float (fc_fusion_correlation_confidence cfg) +:+ ")
- Acoustic: " +:+ fixed 3 acoustic_score +:+ " (threshold: " +:+
            str_float (fc_fusion_correlation_confidence cfg) +:+ ")" |}]
    else [] in
  let gas_alerts :=
    if fgt gas_reading (fc_gas_analog_threshold cfg) then
      [{| alert_title := TITLE_GAS;
          alert_details := "Gas sensor reading " +:+ str_float gas_reading +:+
                           " exceeds threshold " +:+
                           str_float (fc_gas_analog_threshold cfg) |}]
    else [] in
  (model_alerts ++ gas_alerts)%list.

(** One cycle of the main loop: a cycle with an invalid sensor read is
    skipped. *)
Definition main_cycle (cfg : FusionConfig)
    (thermal_interpreter acoustic_interpreter : option Interpreter)
    (thermal_image acoustic_spectrogram : option ndarray)
    (gas_reading : pyfloat) : list BackgroundAlert :=
  match thermal_image, acoustic_spectrogram with
  | Some image, Some spectrogram =>
      let thermal_score := run_inference thermal_interpreter image in
      let acoustic_score := run_inference acoustic_interpreter spectrogram in
      fusion_pass cfg thermal_score acoustic_score gas_reading
  | _, _ => []
  end.

(** *** security_monitor.py: schedule, activity log, report *)

(** [datetime.strptime(text, "%H:%M").time()], in microseconds since
    midnight; it raises on text of another shape. *)
Variable strptime_time : string -> result Z.

(** [str(n)] for an integer, [str.upper]. *)
Variable str_int : Z -> string.
Variable upper : string -> string.

Definition is_after_hours (config : BusinessHours) (now : WallClock) : bool :=
  (* Check weekends *)
  if weekdays_only config && (5 <=? weekday now) then true
  else
    (* Parse business hours *)
    try_except
      (start_time ← strptime_time (bh_start config);
       end_time ← strptime_time (bh_end config);
       let current_time := time_of_day now in
       mret (negb ((start_time <=? current_time) && (current_time <=? end_time))))
      (fun _ => false).

(** The loop of [get_recent_activity] over the lines of the file: the
    first line that raises ends it, with the entries found so far. *)
Fixpoint read_recent (cutoff_time : Z) (lines : list (result ActivityEntry))
  : list ActivityEntry :=
  match lines with
  | [] => []
  | Raise _ :: _ => []
  | Ok entry :: rest =>
      if cutoff_time <=? ae_time entry
      then entry :: read_recent cutoff_time rest
      else read_recent cutoff_time rest
  end.

(** The entries of the lines that decode, in file order. *)
Definition decoded (lines : list (result ActivityEntry)) : list ActivityEntry :=
  omap (fun line => match line with
                    | Ok entry => Some entry
                    | Raise _ => None
                    end) lines.

(** [ActivityLogger.get_recent_activity]; [now] is [datetime.now()] in
    microseconds. *)
Definition get_recent_activity (file : LogFile) (now : datetime) (hours : Z)
  : list ActivityEntry :=
  match file with
  | LogMissing => []
  | LogUnreadable _ => []
  | LogLines lines =>
      let cutoff_time := now - hours * 3600 * 1000000 in
      read_recent cutoff_time lines
  end.

Definition count_event_type (event_type : string)
    (activities : list ActivityEntry) : Z :=
  Z.of_nat (length (List.filter
                      (fun a => String.eqb (ae_event_type a) event_type)
                      activities)).

Definition is_security_event (a : ActivityEntry) : bool :=
  String.eqb (ae_event_type a) "motion_detected"
  || String.eqb (ae_event_type a) "tamper_detected".

(** The four numbers of the report's summary: total, motion, tampering and
    what is printed as routine monitoring. *)
Definition report_summary (activities : list ActivityEntry) : Z * Z * Z * Z :=
  let motion_events := count_event_type "motion_detected" activities in
  let tamper_events := count_event_type "tamper_detected" activities in
  let total_events := Z.of_nat (length activities) in
  (total_events, motion_events, tamper_events,
   total_events - motion_events - tamper_events).

Definition report_event (activity : ActivityEntry) : string :=
  "  [" +:+ ae_timestamp activity +:+ "] " +:+ upper (ae_event_type activity)
  +:+ "
    Equipment: " +:+ ae_equipment_id activity +:+ "
    Details: " +:+ ae_details activity +:+ "

".

(** [generate_security_report]; [logger] is [None] while the activity
    logger is not initialised, otherwise the log file it reads. *)
Definition generate_security_report (logger : option LogFile) (now : datetime)
    (hours : Z) : string :=
  match logger with
  | None => "Activity logger not initialized"
  | Some file =>
      let activities := get_recent_activity file now hours in
      let '(total_events, motion_events, tamper_events, routine) :=
        report_summary activities in
      let report :=
        "SECURITY ACTIVITY REPORT - Last " +:+ str_int hours +:+ " hours
============================================================

Summary:
  Total Events: " +:+ str_int total_events +:+ "
  Motion Detected: " +:+ str_int motion_events +:+ "
  Tampering Detected: " +:+ str_int tamper_events +:+ "
  Routine Monitoring: " +:+ str_int routine +:+ "

" in
      if (0 <? motion_events) || (0 <? tamper_events) then
        report +:+ "Security Events:
" +:+ String.concat "" (map report_event
                          (List.filter is_security_event activities))
      else report
  end.

(** *** premonitor_main_multi_equipment.py: start-up *)

(** [startup_check] of the multi-equipment script.  Missing model files
    only produce warnings; [has_attr] tells which attributes the [config]
    module has, [pi_id] is what [get_pi_id()] returns. *)
Definition startup_check (has_attr : string -> bool) (pi_id : string) : bool :=
  let attrs_ok :=
    forallb has_attr
      ["THERMAL_MODEL_PATH"; "ACOUSTIC_MODEL_PATH"; "SENSOR_READ_INTERVAL"] in
  let equipment_list := get_equipment_by_pi pi_id in
  let equipment_ok :=
    match equipment_list with
    | [] => false
    | _ => forallb (fun eq => fst (validate_equipment_config eq)) equipment_list
    end in
  attrs_ok && equipment_ok.

(** *** config.py *)

(** [validate_config]: whether the two model files exist and the values of
    the e-mail settings ([None] or the empty string count as missing). *)
Definition validate_config (thermal_exists acoustic_exists : bool)
    (thermal_path acoustic_path : string)
    (email_sender_address email_sender_password : option string)
  : bool * list string :=
  let falsy (v : option string) : bool :=
    match v with
    | None => true
    | Some text => String.eqb text ""
    end in
  let errors :=
    ((if thermal_exists then []
      else ["WARNING: Thermal model not found: " +:+ thermal_path])
     ++ (if acoustic_exists then []
         else ["WARNING: Acoustic model not found: " +:+ acoustic_path])
     ++ (if falsy email_sender_address
         then ["WARNING: EMAIL_SENDER_ADDRESS not configured"] else [])
     ++ (if falsy email_sender_password
         then ["WARNING: EMAIL_SENDER_PASSWORD not configured"] else []))%list in
  (* Count critical errors (non-WARNING) *)
  let critical_errors :=
    List.filter (fun e => negb (String.prefix "WARNING" e)) errors in
  (Nat.eqb (length critical_errors) 0, errors).

(** *** retry_utils.py *)

(** The loop of the wrapper made by [retry_on_failure].  [func n] is what
    the [n]-th call of the wrapped function does, [catches] tells which
    exceptions are instances of [exceptions]; [remaining] counts the
    attempts still allowed, [attempt] the one being made.  [time.sleep]
    raises [ValueError] on a negative argument, and does so inside the
    handler, so that exception leaves the wrapper. *)
Fixpoint retry_loop {A : Type} (func : nat -> result A) (catches : exn -> bool)
    (backoff_multiplier : Q) (default_return : option A)
    (remaining attempt : nat) (delay : Q) (last_exception : option exn)
  : RetryOutcome A :=
  match remaining with
  | O =>
      (* All attempts failed *)
      {| ro_value := match default_return, last_exception with
                     | Some d, _ => Ok (Some d)
                     | None, Some e => Raise e
                     | None, None => Ok None
                     end;
         ro_calls := 0; ro_sleeps := [] |}
  | S remaining' =>
      match func attempt with
      | Ok r => {| ro_value := Ok (Some r); ro_calls := 1; ro_sleeps := [] |}
      | Raise e =>
          if catches e then
            match remaining' with
            | S _ =>
                (* attempt < max_attempts *)
                if Qltb delay 0
                then {| ro_value := Raise ValueError; ro_calls := 1;
                        ro_sleeps := [] |}
                else
                  let more :=
                    retry_loop func catches backoff_multiplier default_return
                      remaining' (S attempt) (delay * backoff_multiplier)%Q
                      (Some e) in
                  {| ro_value := ro_value more;
                     ro_calls := S (ro_calls more);
                     ro_sleeps := delay :: ro_sleeps more |}
            | O =>
                let more :=
                  retry_loop func catches backoff_multiplier default_return
                    remaining' (S attempt) delay (Some e) in
                {| ro_value := ro_value more;
                   ro_calls := S (ro_calls more);
                   ro_sleeps := ro_sleeps more |}
            end
          else {| ro_value := Raise e; ro_calls := 1; ro_sleeps := [] |}
      end
  end.


(** A call of a function decorated with
    [retry_on_failure(max_attempts, delay_seconds, backoff_multiplier,
    exceptions, default_return)]. *)
Definition retry_on_failure {A : Type} (max_attempts : Z) (delay_seconds : Q)
    (backoff_multiplier : Q) (catches : exn -> bool)
    (default_return : option A) (func : nat -> result A) : RetryOutcome A :=
  retry_loop func catches backoff_multiplier default_return
    (Z.to_nat max_attempts) 1%nat delay_seconds None.

(** * Properties *)

(** Membership in a list given by its elements. *)
Ltac solve_In := simpl; repeat first [left; reflexivity | right].

(** ** Floats and dictionaries *)

Lemma Qltb_lt (x y : Q) : Qltb x y = true <-> (x < y)%Q.
Proof.
  unfold Qltb. rewrite Qlt_alt. destruct (x ?= y)%Q; split; congruence.
Qed.

Lemma Qleb_le (x y : Q) : Qleb x y = true <-> (x <= y)%Q.
Proof.
  unfold Qleb. rewrite Qle_alt. destruct (x ?= y)%Q; split; congruence.
Qed.

Lemma dict_get_Some_In {V : Type} (k : string) (v : V) (d : dict V) :
  dict_get k d = Some v -> In (k, v) d.
Proof.
  induction d as [|[k' v'] d IH]; simpl; [done|].
  destruct (String.eqb_spec k k') as [->|Hne].
  - intros [= ->]. by left.
  - intros H. right. by apply IH.
Qed.



(** ** The equipment registry *)

(** The lookup answers with a profile of the table. *)
Lemma get_equipment_thresholds_ok (equipment_type : string) :
  exists thresholds key,
    get_equipment_thresholds equipment_type = Ok thresholds
    /\ In (key, thresholds) EQUIPMENT_THRESHOLDS.
Proof.
  unfold get_equipment_thresholds, dict_index, dict_get_or.
  destruct (dict_get "fridge" EQUIPMENT_THRESHOLDS) as [fridge|] eqn:Hfridge;
    [|discriminate Hfridge].
  destruct (dict_get equipment_type EQUIPMENT_THRESHOLDS) as [own|] eqn:Hown.
  - exists own, equipment_type. split; [reflexivity|].
    by apply dict_get_Some_In.
  - exists fridge, "fridge". split; [reflexivity|].
    by apply dict_get_Some_In.
Qed.

(** C8.  [get_equipment_thresholds] never fails: for every equipment-type
    string it returns a profile, the table's own entry when the type has
    one and the "fridge" profile otherwise. *)
Theorem get_equipment_thresholds_total (equipment_type : string) :
  exists profile : dict threshold,
    get_equipment_thresholds equipment_type = Ok profile
    /\ (forall own, dict_get equipment_type EQUIPMENT_THRESHOLDS = Some own ->
        profile = own)
    /\ (dict_get equipment_type EQUIPMENT_THRESHOLDS = None ->
        dict_get "fridge" EQUIPMENT_THRESHOLDS = Some profile).
Proof.
  unfold get_equipment_thresholds, dict_index, dict_get_or.
  destruct (dict_get "fridge" EQUIPMENT_THRESHOLDS) as [fridge|] eqn:Hfridge;
    [|discriminate Hfridge].
  destruct (dict_get equipment_type EQUIPMENT_THRESHOLDS) as [own|] eqn:Hown.
  - exists own. split; [reflexivity|]. split; [|discriminate].
    intros own' [= ->]. reflexivity.
  - exists fridge. split; [reflexivity|]. split; [discriminate|done].
Qed.

Lemma sensor_missing_iff (sensors_config : dict SensorWiring) (config_key : string) :
  sensor_missing sensors_config config_key = true <->
  dict_get config_key sensors_config = None
  \/ exists wiring, dict_get config_key sensors_config = Some wiring
                    /\ enabled wiring <> Some true.
Proof.
  unfold sensor_missing.
  destruct (dict_get config_key sensors_config) as [wiring|];
    [|split; [by left|done]].
  split.
  - intros H. right. exists wiring. split; [done|].
    intros Hen. rewrite Hen in H. discriminate.
  - intros [H|(w & [= <-] & Hen)]; [discriminate|].
    destruct (enabled wiring) as [[]|]; simpl; congruence.
Qed.

Lemma check_required_false (sensors_config : dict SensorWiring)
    (required : list string) :
  fst (check_required sensors_config required) = false <->
  exists required_sensor,
    In required_sensor required
    /\ sensor_missing sensors_config
         (dict_get_or required_sensor required_sensor sensor_name_mapping) = true.
Proof.
  induction required as [|r rest IH]; simpl.
  - split; [discriminate|]. by intros (? & [] & _).
  - destruct (sensor_missing sensors_config
                (dict_get_or r r sensor_name_mapping)) eqn:Hr; simpl.
    + split; [|done]. intros _. exists r. by split; [left|].
    + rewrite IH. split.
      * intros (r' & Hin & Hm). exists r'. by split; [right|].
      * intros (r' & [<-|Hin] & Hm); [congruence|]. by exists r'.
Qed.

Lemma check_required_reason (sensors_config : dict SensorWiring)
    (required : list string) :
  match check_required sensors_config required with
  | (true, message) => message = "Configuration valid"
  | (false, message) =>
      exists required_sensor,
        In required_sensor required
        /\ message = "Required sensor missing: " +:+ required_sensor +:+
                     " (config key: " +:+
                     dict_get_or required_sensor required_sensor sensor_name_mapping
                     +:+ ")"
  end.
Proof.
  induction required as [|r rest IH]; simpl; [done|].
  destruct (sensor_missing sensors_config (dict_get_or r r sensor_name_mapping)).
  - exists r. by split; [left|].
  - destruct (check_required sensors_config rest) as [[] message]; [done|].
    destruct IH as (r' & Hin & ->). exists r'. by split; [right|].
Qed.

(** C10.  For an equipment whose type is in the catalogue,
    [validate_equipment_config] returns a pair (it cannot raise), and the
    pair is (False, reason) exactly when some required capability's wiring
    key is absent from the sensors configuration, or present with its
    [enabled] flag false or missing; otherwise it is
    (True, "Configuration valid"). *)
Theorem validate_equipment_config_required
    (equipment : Equipment) (type_def : TypeDef) :
  dict_get (eq_type equipment) EQUIPMENT_TYPES = Some type_def ->
  let sensors_config := default [] (eq_sensors equipment) in
  let config_key_of := fun required_sensor =>
    dict_get_or required_sensor required_sensor sensor_name_mapping in
  (fst (validate_equipment_config equipment) = false <->
   exists required_sensor,
     In required_sensor (sensors_required type_def)
     /\ (dict_get (config_key_of required_sensor) sensors_config = None
         \/ exists wiring,
              dict_get (config_key_of required_sensor) sensors_config = Some wiring
              /\ enabled wiring <> Some true))
  /\ match validate_equipment_config equipment with
     | (true, message) => message = "Configuration valid"
     | (false, message) =>
         exists required_sensor,
           In required_sensor (sensors_required type_def)
           /\ message = "Required sensor missing: " +:+ required_sensor +:+
                        " (config key: " +:+ config_key_of required_sensor +:+ ")"
     end.
Proof.
  intros Htype sensors_config config_key_of.
  unfold validate_equipment_config. rewrite Htype. split.
  - rewrite check_required_false. split.
    + intros (r & Hin & Hm). exists r. split; [done|].
      by apply sensor_missing_iff.
    + intros (r & Hin & Hm). exists r. split; [done|].
      by apply sensor_missing_iff.
  - apply check_required_reason.
Qed.

(** ** The sliding LSTM buffer *)

Lemma lstm_push_below (buffer : list (list pyfloat)) (v : list pyfloat) :
  (length buffer < 50)%nat -> lstm_push buffer v = (buffer ++ [v])%list.
Proof.
  intros Hlen. unfold lstm_push.
  destruct (Nat.ltb_spec 50 (length (buffer ++ [v]))) as [H|H]; [|done].
  rewrite length_app in H. simpl in H. lia.
Qed.

Lemma lstm_push_full (buffer : list (list pyfloat)) (v : list pyfloat) :
  (length buffer = 50)%nat -> lstm_push buffer v = (drop 1 buffer ++ [v])%list.
Proof.
  intros Hlen. unfold lstm_push.
  destruct (Nat.ltb_spec 50 (length (buffer ++ [v]))) as [H|H].
  - apply drop_app_le. lia.
  - rewrite length_app in H. simpl in H. lia.
Qed.

Lemma length_last_n {A : Type} (n : nat) (l : list A) :
  length (last_n n l) = Nat.min n (length l).
Proof. unfold last_n. rewrite length_drop. lia. Qed.

(** Pushing onto the last 50 of a history gives the last 50 of the longer
    history. *)
Lemma lstm_push_last_n (history : list (list pyfloat)) (v : list pyfloat) :
  lstm_push (last_n 50 history) v = last_n 50 (history ++ [v]).
Proof.
  destruct (Nat.lt_ge_cases (length history) 50) as [Hlt|Hge].
  - rewrite lstm_push_below by (rewrite length_last_n; lia).
    unfold last_n. rewrite length_app. simpl.
    replace (length history - 50)%nat with 0%nat by lia.
    replace (length history + 1 - 50)%nat with 0%nat by lia.
    by rewrite !drop_0.
  - rewrite lstm_push_full by (rewrite length_last_n; lia).
    unfold last_n. rewrite drop_drop, length_app. simpl.
    rewrite drop_app_le by lia.
    by replace (length history - 50 + 1)%nat
         with (length history + 1 - 50)%nat by lia.
Qed.

Lemma pushed_snoc (equipment_id : string)
    (history : list (CycleInput * Equipment)) (cycle : CycleInput * Equipment) :
  pushed equipment_id (history ++ [cycle])
  = (pushed equipment_id history ++ pushed_by equipment_id cycle)%list.
Proof.
  unfold pushed. rewrite flat_map_app. simpl. by rewrite app_nil_r.
Qed.

Lemma lstm_step_track (history : list (CycleInput * Equipment))
    (buffers : gmap string (list (list pyfloat)))
    (inp : CycleInput) (equipment : Equipment) :
  buffers_track history buffers ->
  buffers_track (history ++ [(inp, equipment)])
    (fst (lstm_step buffers (eq_id equipment)
            (read_equipment_sensors (hardware inp) (cycle_now inp) equipment)
            (eq_type equipment))).
Proof.
  intros Htrack id. rewrite pushed_snoc. unfold pushed_by, lstm_step.
  pose proof (Htrack id) as Hid.
  pose proof (Htrack (eq_id equipment)) as Hown.
  destruct (String.eqb_spec (eq_id equipment) id) as [<-|Hne].
  - destruct (build_lstm_feature_vector _ _) as [fv|e]; simpl.
    + rewrite lookup_insert_eq.
      destruct (buffers !! eq_id equipment) as [buffer|] eqn:Hb.
      * rewrite Hb. simpl. subst buffer. apply lstm_push_last_n.
      * rewrite lookup_insert_eq. simpl. rewrite Hown. reflexivity.
    + rewrite app_nil_r.
      destruct (buffers !! eq_id equipment) as [buffer|] eqn:Hb.
      * by rewrite Hb.
      * rewrite lookup_insert_eq. by rewrite Hown.
  - rewrite app_nil_r.
    destruct (build_lstm_feature_vector _ _) as [fv|e]; simpl.
    + rewrite lookup_insert_ne by done.
      destruct (buffers !! eq_id equipment); [done|].
      by rewrite lookup_insert_ne.
    + destruct (buffers !! eq_id equipment); [done|].
      by rewrite lookup_insert_ne.
Qed.

Lemma monitor_equipment_lstm (cfg : Config) (sec_cfg : SecurityConfig)
    (gpio : bool) (inp : CycleInput) (equipment : Equipment) (w : World) :
  let step := lstm_step (equipment_lstm_buffers w) (eq_id equipment)
                (read_equipment_sensors (hardware inp) (cycle_now inp) equipment)
                (eq_type equipment) in
  equipment_lstm_buffers (fst (monitor_equipment cfg sec_cfg gpio inp equipment w))
  = fst step
  /\ lstm_submitted (snd (monitor_equipment cfg sec_cfg gpio inp equipment w))
     = snd step.
Proof.
  unfold monitor_equipment.
  destruct (lstm_step _ _ _ _) as [buffers submitted].
  destruct (check_anomaly_and_alert _ _ _); by simpl.
Qed.

Lemma run_cycles_track (cfg : Config) (sec_cfg : SecurityConfig) (gpio : bool)
    (cycles history : list (CycleInput * Equipment)) (w : World) :
  buffers_track history (equipment_lstm_buffers w) ->
  buffers_track (history ++ cycles)
    (equipment_lstm_buffers (fst (run_cycles cfg sec_cfg gpio cycles w))).
Proof.
  revert history w.
  induction cycles as [|[inp equipment] rest IH]; intros history w Htrack.
  - by rewrite app_nil_r.
  - simpl.
    destruct (monitor_equipment cfg sec_cfg gpio inp equipment w)
      as [w1 out] eqn:Hstep.
    destruct (run_cycles cfg sec_cfg gpio rest w1) as [w2 outs] eqn:Hrun.
    simpl.
    replace (history ++ (inp, equipment) :: rest)%list
      with ((history ++ [(inp, equipment)]) ++ rest)%list
      by (by rewrite <- app_assoc).
    replace w2 with (fst (run_cycles cfg sec_cfg gpio rest w1))
      by (by rewrite Hrun).
    apply IH.
    replace w1 with (fst (monitor_equipment cfg sec_cfg gpio inp equipment w))
      by (by rewrite Hstep).
    rewrite (proj1 (monitor_equipment_lstm cfg sec_cfg gpio inp equipment w)).
    by apply lstm_step_track.
Qed.

(** After a step the equipment has a buffer, and the step submits it
    exactly when a feature vector was built and 50 are then held. *)
Lemma lstm_step_spec (buffers : gmap string (list (list pyfloat)))
    (equipment_id : string) (readings : Readings) (equipment_type : string) :
  exists buffer,
    fst (lstm_step buffers equipment_id readings equipment_type) !! equipment_id
    = Some buffer
    /\ snd (lstm_step buffers equipment_id readings equipment_type)
       = match build_lstm_feature_vector readings equipment_type with
         | Ok _ => if (50 <=? length buffer)%nat then Some buffer else None
         | Raise _ => None
         end.
Proof.
  unfold lstm_step.
  destruct (build_lstm_feature_vector readings equipment_type) as [fv|e];
    cbn [fst snd].
  - eexists. split; [apply lookup_insert_eq|reflexivity].
  - destruct (buffers !! equipment_id) as [buffer|] eqn:Hb.
    + exists buffer. by split.
    + exists []. split; [apply lookup_insert_eq|reflexivity].
Qed.

(** C7.  After any run of monitoring cycles from the initial state, the
    LSTM buffer of every equipment id is exactly the last 50 feature
    vectors that were pushed for that id, in the order they were pushed, so
    it never holds more than 50; an id without a buffer is one for which
    nothing was pushed.  A push onto a full buffer drops its oldest element
    and nothing else; a push onto a shorter one drops nothing.  In the next
    cycle, whatever it is, the equipment has a buffer afterwards, again the
    last 50 vectors pushed for it, and an array is submitted to the LSTM
    exactly when the cycle pushed a vector and the buffer then holds 50:
    the array is that whole buffer, and a shorter buffer is never
    submitted. *)
Theorem lstm_buffer_sliding_window (cfg : Config) (sec_cfg : SecurityConfig)
    (gpio : bool) (cycles : list (CycleInput * Equipment)) :
  let w := fst (run_cycles cfg sec_cfg gpio cycles initial_world) in
  (forall equipment_id,
      match equipment_lstm_buffers w !! equipment_id with
      | Some buffer =>
          (length buffer <= 50)%nat
          /\ buffer = last_n 50 (pushed equipment_id cycles)
      | None => pushed equipment_id cycles = []
      end)
  /\ (forall buffer v,
         ((length buffer < 50)%nat -> lstm_push buffer v = (buffer ++ [v])%list)
         /\ ((length buffer = 50)%nat ->
             lstm_push buffer v = (drop 1 buffer ++ [v])%list))
  /\ (forall inp equipment,
         let next := monitor_equipment cfg sec_cfg gpio inp equipment w in
         exists buffer,
           equipment_lstm_buffers (fst next) !! eq_id equipment = Some buffer
           /\ (length buffer <= 50)%nat
           /\ buffer
              = last_n 50
                  (pushed (eq_id equipment) cycles
                   ++ pushed_by (eq_id equipment) (inp, equipment))
           /\ match lstm_submitted (snd next) with
              | Some buffer_array =>
                  buffer_array = buffer
                  /\ length buffer = 50%nat
                  /\ pushed_by (eq_id equipment) (inp, equipment) <> []
              | None =>
                  (length buffer < 50)%nat
                  \/ pushed_by (eq_id equipment) (inp, equipment) = []
              end).
Proof.
  intros w.
  assert (Htrack : buffers_track cycles (equipment_lstm_buffers w)).
  { subst w. change cycles with ([] ++ cycles)%list at 1.
    apply run_cycles_track. intros id. simpl. by rewrite lookup_empty. }
  split; [|split].
  - intros id. pose proof (Htrack id) as Hid.
    destruct (equipment_lstm_buffers w !! id) as [buffer|]; [|exact Hid].
    split; [|exact Hid]. subst buffer. rewrite length_last_n. lia.
  - intros buffer v. split; [apply lstm_push_below|apply lstm_push_full].
  - intros inp equipment next. subst next.
    destruct (monitor_equipment_lstm cfg sec_cfg gpio inp equipment w)
      as [Hbuf Hsnd].
    rewrite Hbuf, Hsnd.
    pose proof (lstm_step_track cycles (equipment_lstm_buffers w) inp
                  equipment Htrack (eq_id equipment)) as Hnext.
    destruct (lstm_step_spec (equipment_lstm_buffers w) (eq_id equipment)
                (read_equipment_sensors (hardware inp) (cycle_now inp)
                   equipment) (eq_type equipment))
      as (buffer & Hstored & Hsub).
    rewrite Hstored in Hnext. rewrite pushed_snoc in Hnext.
    assert (Hlen : (length buffer <= 50)%nat).
    { rewrite Hnext, length_last_n. lia. }
    exists buffer. split; [exact Hstored|]. split; [exact Hlen|].
    split; [exact Hnext|]. rewrite Hsub.
    unfold pushed_by. rewrite String.eqb_refl.
    destruct (build_lstm_feature_vector _ _) as [fv|e]; [|by right].
    destruct (Nat.leb_spec 50 (length buffer)) as [Hfull|Hpart].
    + split; [reflexivity|]. split; [lia|discriminate].
    + by left.
Qed.

(** ** The feature vector *)




(** ** The raw fail-safe pass *)

Lemma get_equipment_thresholds_In (equipment_type : string)
    (thresholds : dict threshold) :
  get_equipment_thresholds equipment_type = Ok thresholds ->
  exists key, In (key, thresholds) EQUIPMENT_THRESHOLDS.
Proof.
  intros Hget.
  destruct (get_equipment_thresholds_ok equipment_type)
    as (profile & key & Hok & Hin).
  rewrite Hget in Hok. injection Hok as <-. by exists key.
Qed.

Lemma table_temperature_ranges :
  forallb (fun entry =>
             range_well_formed (dict_get "temperature_range" (snd entry)))
    EQUIPMENT_THRESHOLDS = true.
Proof. reflexivity. Qed.

Lemma out_of_range_ok (x : pyfloat) (rng : option threshold) :
  range_well_formed rng = true -> exists b, out_of_range x rng = Ok b.
Proof.
  destruct rng as [[y|lo hi]|]; simpl; [discriminate| |]; by eexists.
Qed.

(** Case analysis on the innermost scrutinee of the goal. *)
Ltac case_inner :=
  match goal with
  | |- context [match ?x with _ => _ end] =>
      lazymatch x with
      | context [match _ with _ => _ end] => fail
      | _ => destruct x eqn:?
      end
  end.

Ltac unfold_result :=
  unfold mbind, mret, result_bind, result_ret, bind, try_except.

Ltac not_critical := unfold_result; repeat case_inner; reflexivity.

Lemma gas_alerts_not_critical (cfg : Config) (thresholds : dict threshold)
    (sensors : dict value) :
  List.filter is_critical_temperature (gas_alerts cfg thresholds sensors) = [].
Proof. unfold gas_alerts, try_except, ge_threshold. not_critical. Qed.

Lemma co2_alerts_not_critical (thresholds : dict threshold) (sensors : dict value) :
  List.filter is_critical_temperature (co2_alerts thresholds sensors) = [].
Proof. unfold co2_alerts, try_except, out_of_range. not_critical. Qed.

Lemma oxygen_alerts_not_critical (thresholds : dict threshold) (sensors : dict value) :
  List.filter is_critical_temperature (oxygen_alerts thresholds sensors) = [].
Proof. unfold oxygen_alerts, try_except, lt_threshold. not_critical. Qed.

Lemma vibration_alerts_not_critical (thresholds : dict threshold)
    (sensors : dict value) :
  List.filter is_critical_temperature (vibration_alerts thresholds sensors) = [].
Proof. unfold vibration_alerts, try_except, ge_threshold. not_critical. Qed.

Lemma current_alerts_not_critical (thresholds : dict threshold)
    (sensors : dict value) :
  List.filter is_critical_temperature (current_alerts thresholds sensors) = [].
Proof. unfold current_alerts, try_except, ge_threshold. not_critical. Qed.

Lemma temperature_alerts_critical (cfg : Config) (thresholds : dict threshold)
    (sensors : dict value) (critical_c temp_val : pyfloat) :
  range_well_formed (dict_get "temperature_range" thresholds) = true ->
  THERMAL_CRITICAL_THRESHOLD_C cfg = Some critical_c ->
  dict_get "temperature" sensors = Some (VNum temp_val) ->
  fge temp_val critical_c = true ->
  List.filter is_critical_temperature (temperature_alerts cfg thresholds sensors)
  = ["CRITICAL: High temperature detected: " +:+ fixed 2 temp_val +:+ "°C >= "
     +:+ str_float critical_c +:+ "°C"].
Proof.
  intros Hrange Hcfg Htemp Hge. unfold temperature_alerts.
  rewrite Htemp. simpl.
  destruct (out_of_range_ok temp_val _ Hrange) as [b Hb].
  unfold_result. rewrite Hb, Hcfg, Hge. by destruct b.
Qed.

(** C4.  Whatever the equipment (its type may even be unknown to the
    tables) and whatever its per-type temperature range, a temperature
    reading at or above the configured critical ceiling makes the raw
    threshold check produce exactly one CRITICAL temperature alert, and the
    check hands the composite message that carries it to the equipment's
    channels. *)
Theorem critical_temperature_failsafe (cfg : Config) (now : string)
    (equipment : Equipment) (readings : Readings)
    (critical_c temp_val : pyfloat) :
  THERMAL_CRITICAL_THRESHOLD_C cfg = Some critical_c ->
  dict_get "temperature" (sensors readings) = Some (VNum temp_val) ->
  fge temp_val critical_c = true ->
  exists thresholds,
    get_equipment_thresholds (eq_type equipment) = Ok thresholds
    /\ List.filter is_critical_temperature
         (raw_alerts cfg thresholds (sensors readings))
       = ["CRITICAL: High temperature detected: " +:+ fixed 2 temp_val +:+
          "°C >= " +:+ str_float critical_c +:+ "°C"]
    /\ critical_temperature_count (raw_alerts cfg thresholds (sensors readings))
       = 1%nat
    /\ check_raw_sensor_thresholds cfg now equipment readings
       = Ok (dispatch (alert_channels equipment)
               ("Sensor Threshold Alert: " +:+ eq_name equipment)
               (compose_message "🚨 SENSOR THRESHOLD ALERT: " equipment
                  (raw_alerts cfg thresholds (sensors readings)) now)).
Proof.
  intros Hcfg Htemp Hge.
  destruct (get_equipment_thresholds_ok (eq_type equipment))
    as (thresholds & ? & Hok & _).
  exists thresholds. split; [exact Hok|].
  assert (Hrange : range_well_formed (dict_get "temperature_range" thresholds)
                   = true).
  { destruct (get_equipment_thresholds_In _ _ Hok) as [key Hin].
    pose proof table_temperature_ranges as Hall.
    rewrite forallb_forall in Hall. exact (Hall _ Hin). }
  assert (Hfilter : List.filter is_critical_temperature
                      (raw_alerts cfg thresholds (sensors readings))
                    = ["CRITICAL: High temperature detected: " +:+
                       fixed 2 temp_val +:+ "°C >= " +:+ str_float critical_c
                       +:+ "°C"]).
  { unfold raw_alerts. rewrite !List.filter_app.
    rewrite (temperature_alerts_critical _ _ _ _ _ Hrange Hcfg Htemp Hge).
    rewrite gas_alerts_not_critical, co2_alerts_not_critical,
      oxygen_alerts_not_critical, vibration_alerts_not_critical,
      current_alerts_not_critical.
    reflexivity. }
  split; [exact Hfilter|]. split.
  - unfold critical_temperature_count. by rewrite Hfilter.
  - unfold check_raw_sensor_thresholds. rewrite Hok. unfold_result.
    destruct (raw_alerts cfg thresholds (sensors readings)) eqn:Halerts;
      [discriminate Hfilter|reflexivity].
Qed.

(** ** Alert composition *)

Lemma table_model_thresholds :
  forallb (fun entry =>
             forallb (fun key => numeric_entry key (snd entry))
               MODEL_THRESHOLD_KEYS)
    EQUIPMENT_THRESHOLDS = true.
Proof. reflexivity. Qed.

Lemma thresholds_numeric (equipment_type key : string)
    (thresholds : dict threshold) :
  get_equipment_thresholds equipment_type = Ok thresholds ->
  In key MODEL_THRESHOLD_KEYS ->
  numeric_entry key thresholds = true.
Proof.
  intros Hget Hkey.
  destruct (get_equipment_thresholds_In _ _ Hget) as [name Hin].
  pose proof table_model_thresholds as Hall.
  rewrite forallb_forall in Hall. specialize (Hall _ Hin).
  rewrite forallb_forall in Hall. exact (Hall _ Hkey).
Qed.

Lemma numeric_entry_get_or (key : string) (dflt : pyfloat)
    (thresholds : dict threshold) :
  numeric_entry key thresholds = true ->
  exists t, dict_get_or key (TNum dflt) thresholds = TNum t.
Proof.
  unfold numeric_entry, dict_get_or.
  destruct (dict_get key thresholds) as [[t|lo hi]|];
    [by eexists|discriminate|by eexists].
Qed.

Lemma detect_anomaly_ok (thresholds : dict threshold) (r : InferenceResult) :
  (forall key, In key MODEL_THRESHOLD_KEYS ->
               numeric_entry key thresholds = true) ->
  exists found, detect_anomaly thresholds r = Ok found.
Proof.
  intros Hnum. unfold detect_anomaly. destruct r as [e|id c ts|id c ts|id c ts].
  - by eexists.
  - destruct (numeric_entry_get_or "thermal_anomaly_confidence" (ratio 85 100)
                thresholds) as [t Ht]; [apply Hnum; solve_In|].
    rewrite Ht. by eexists.
  - destruct (numeric_entry_get_or "acoustic_anomaly_confidence" (ratio 85 100)
                thresholds) as [t Ht]; [apply Hnum; solve_In|].
    rewrite Ht. by eexists.
  - destruct (numeric_entry_get_or "lstm_reconstruction_threshold" (ratio 45 1000)
                thresholds) as [t Ht]; [apply Hnum; solve_In|].
    rewrite Ht. by eexists.
Qed.

Lemma detect_anomalies_ok (thresholds : dict threshold)
    (results : list InferenceResult) :
  (forall key, In key MODEL_THRESHOLD_KEYS ->
               numeric_entry key thresholds = true) ->
  exists anomalies, detect_anomalies thresholds results = Ok anomalies.
Proof.
  intros Hnum. induction results as [|r rest [more IH]]; simpl; [by eexists|].
  destruct (detect_anomaly_ok thresholds r Hnum) as [found Hfound].
  unfold_result. rewrite Hfound, IH. by eexists.
Qed.

Lemma dispatch_messages (channels : list string) (subject message : string) :
  Forall (fun s => send_message s = message)
    (dispatch channels subject message).
Proof.
  unfold dispatch. induction channels as [|channel rest IH]; simpl; [done|].
  destruct (String.eqb channel "discord"); simpl; [by constructor|].
  destruct (String.eqb channel "email"); simpl; [by constructor|done].
Qed.

Lemma length_dispatch (channels : list string) (subject message : string) :
  (length (dispatch channels subject message) <= length channels)%nat.
Proof.
  unfold dispatch. induction channels as [|channel rest IH]; simpl; [done|].
  destruct (String.eqb channel "discord"); simpl; [lia|].
  destruct (String.eqb channel "email"); simpl; lia.
Qed.

Lemma remove_dups_constant (m : string) (l : list string) :
  Forall (fun x => x = m) l -> (length (remove_dups l) <= 1)%nat.
Proof.
  intros Hall. rewrite Forall_forall in Hall.
  assert (Hsub : forall x, x ∈ remove_dups l -> x = m).
  { intros x Hx. rewrite elem_of_remove_dups in Hx. by apply Hall. }
  pose proof (NoDup_remove_dups l) as Hnd.
  destruct (remove_dups l) as [|x [|y rest]]; simpl; [lia|lia|].
  exfalso.
  assert (Hx : x = m) by (apply Hsub; by left).
  assert (Hy : y = m) by (apply Hsub; right; by left).
  subst. apply NoDup_cons in Hnd as [Hnotin _]. apply Hnotin. by left.
Qed.

Lemma distinct_messages_dispatch (channels : list string)
    (subject message : string) :
  (length (distinct_messages (dispatch channels subject message)) <= 1)%nat.
Proof.
  unfold distinct_messages. apply (remove_dups_constant message).
  rewrite Forall_forall. intros x Hx.
  apply list_elem_of_fmap in Hx as (s & -> & Hs).
  pose proof (dispatch_messages channels subject message) as Hall.
  rewrite Forall_forall in Hall. by apply Hall.
Qed.

Lemma distinct_messages_nil : distinct_messages [] = [].
Proof. reflexivity. Qed.

(** C3, as the code has it.  In every monitoring cycle of every equipment
    the alerts of each pass are merged into one composite message for that
    pass: all raw threshold violations of the cycle into one message, all
    model-based anomalies of the cycle into another.  Each message is handed
    at most once to each configured channel, however many events it lists,
    and a pass without events hands over nothing.  The two passes are not
    merged with each other, and no exception leaves the cycle. *)
Theorem composite_alert_per_pass (cfg : Config) (sec_cfg : SecurityConfig)
    (gpio : bool) (inp : CycleInput) (equipment : Equipment) (w : World) :
  let out := snd (monitor_equipment cfg sec_cfg gpio inp equipment w) in
  let readings :=
    read_equipment_sensors (hardware inp) (cycle_now inp) equipment in
  exists thresholds anomalies,
    get_equipment_thresholds (eq_type equipment) = Ok thresholds
    /\ detect_anomalies thresholds (inference out) = Ok anomalies
    /\ raised out = None
    /\ raw_sends out
       = match raw_alerts cfg thresholds (sensors readings) with
         | [] => []
         | alerts =>
             dispatch (alert_channels equipment)
               ("Sensor Threshold Alert: " +:+ eq_name equipment)
               (compose_message "🚨 SENSOR THRESHOLD ALERT: " equipment alerts
                  (cycle_now inp))
         end
    /\ model_sends out
       = match anomalies with
         | [] => []
         | _ =>
             dispatch (alert_channels equipment)
               ("Anomaly: " +:+ eq_name equipment)
               (compose_message "🚨 ANOMALY DETECTED: " equipment
                  (map a_message anomalies) (cycle_now inp))
         end
    /\ (length (distinct_messages (raw_sends out)) <= 1)%nat
    /\ (length (distinct_messages (model_sends out)) <= 1)%nat
    /\ (length (raw_sends out) <= length (alert_channels equipment))%nat
    /\ (length (model_sends out) <= length (alert_channels equipment))%nat.
Proof.
  intros out readings.
  destruct (get_equipment_thresholds_ok (eq_type equipment))
    as (thresholds & ? & Hok & _).
  assert (Hnum : forall key, In key MODEL_THRESHOLD_KEYS ->
                             numeric_entry key thresholds = true).
  { intros key Hkey. by eapply thresholds_numeric. }
  subst out. unfold monitor_equipment. fold readings.
  destruct (lstm_step _ _ _ _) as [buffers submitted].
  set (results := (_ ++ _ ++ _)%list).
  destruct (detect_anomalies_ok thresholds results Hnum) as [anomalies Hdet].
  exists thresholds, anomalies.
  assert (Hmodel : check_anomaly_and_alert (cycle_now inp) equipment results
                   = Ok match anomalies with
                        | [] => []
                        | _ =>
                            dispatch (alert_channels equipment)
                              ("Anomaly: " +:+ eq_name equipment)
                              (compose_message "🚨 ANOMALY DETECTED: " equipment
                                 (map a_message anomalies) (cycle_now inp))
                        end).
  { unfold check_anomaly_and_alert. rewrite Hok. unfold_result.
    rewrite Hdet. by destruct anomalies. }
  assert (Hraw : try_except
                   (check_raw_sensor_thresholds cfg (cycle_now inp) equipment
                      readings) (fun _ => [])
                 = match raw_alerts cfg thresholds (sensors readings) with
                   | [] => []
                   | alerts =>
                       dispatch (alert_channels equipment)
                         ("Sensor Threshold Alert: " +:+ eq_name equipment)
                         (compose_message "🚨 SENSOR THRESHOLD ALERT: "
                            equipment alerts (cycle_now inp))
                   end).
  { unfold check_raw_sensor_thresholds. rewrite Hok. unfold_result.
    by destruct (raw_alerts cfg thresholds (sensors readings)). }
  rewrite Hmodel. cbn [snd inference raised raw_sends model_sends].
  rewrite Hraw.
  split; [exact Hok|]. split; [exact Hdet|]. split; [reflexivity|].
  split; [reflexivity|]. split; [reflexivity|].
  split; [|split; [|split]].
  - destruct (raw_alerts cfg thresholds (sensors readings));
      [rewrite distinct_messages_nil; simpl; lia
      |apply distinct_messages_dispatch].
  - destruct anomalies;
      [rewrite distinct_messages_nil; simpl; lia
      |apply distinct_messages_dispatch].
  - destruct (raw_alerts cfg thresholds (sensors readings));
      [simpl; lia|apply length_dispatch].
  - destruct anomalies; [simpl; lia|apply length_dispatch].
Qed.

(** ** Fusion *)

Lemma detect_anomalies_In (thresholds : dict threshold)
    (results : list InferenceResult) (anomalies : list Anomaly)
    (r : InferenceResult) (found : list Anomaly) (a : Anomaly) :
  detect_anomalies thresholds results = Ok anomalies ->
  In r results -> detect_anomaly thresholds r = Ok found -> In a found ->
  In a anomalies.
Proof.
  revert anomalies.
  induction results as [|r' rest IH]; intros anomalies Hdet Hin Hr Ha; [done|].
  simpl in Hdet. unfold_result.
  destruct (detect_anomaly thresholds r') as [found'|] eqn:Hr'; [|discriminate].
  destruct (detect_anomalies thresholds rest) as [more|] eqn:Hrest; [|discriminate].
  injection Hdet as <-. apply in_or_app.
  destruct Hin as [->|Hin].
  - left. congruence.
  - right. by apply IH.
Qed.

(** C2, as the code has it.  In the fusion pass of the hardened main loop
    the model-based cases form one chain: the CRITICAL thermal alert is
    emitted exactly when the thermal score exceeds its threshold; the
    CRITICAL acoustic alert exactly when the thermal score does not exceed
    its threshold and the acoustic score exceeds its own; the correlated
    WARNING exactly when neither is above its anomaly threshold and both
    exceed the correlation threshold; the gas warning is independent of the
    chain.  In the multi-equipment anomaly check every thermal and every
    acoustic result whose confidence exceeds the type's threshold yields an
    anomaly for that sensor, whatever the other results are. *)
Theorem fusion_priority_chain (cfg : FusionConfig)
    (thermal_score acoustic_score gas_reading : pyfloat) :
  let alerts := fusion_pass cfg thermal_score acoustic_score gas_reading in
  let thermal_high := fgt thermal_score (fc_thermal_anomaly_confidence cfg) in
  let acoustic_high := fgt acoustic_score (fc_acoustic_anomaly_confidence cfg) in
  let correlated :=
    fgt thermal_score (fc_fusion_correlation_confidence cfg)
    && fgt acoustic_score (fc_fusion_correlation_confidence cfg) in
  has_title TITLE_THERMAL alerts = thermal_high
  /\ has_title TITLE_ACOUSTIC alerts = negb thermal_high && acoustic_high
  /\ has_title TITLE_CORRELATED alerts
     = negb thermal_high && negb acoustic_high && correlated
  /\ has_title TITLE_GAS alerts = fgt gas_reading (fc_gas_analog_threshold cfg)
  /\ forall equipment_type,
       exists thresholds thermal_threshold acoustic_threshold,
         get_equipment_thresholds equipment_type = Ok thresholds
         /\ dict_get_or "thermal_anomaly_confidence" (TNum (ratio 85 100)) thresholds
            = TNum thermal_threshold
         /\ dict_get_or "acoustic_anomaly_confidence" (TNum (ratio 85 100)) thresholds
            = TNum acoustic_threshold
         /\ forall results,
              exists anomalies,
                detect_anomalies thresholds results = Ok anomalies
                /\ (forall id confidence ts,
                       In (IThermal id confidence ts) results ->
                       fgt confidence thermal_threshold = true ->
                       exists a, In a anomalies /\ a_type a = "thermal"
                                 /\ a_value a = confidence)
                /\ (forall id confidence ts,
                       In (IAcoustic id confidence ts) results ->
                       fgt confidence acoustic_threshold = true ->
                       exists a, In a anomalies /\ a_type a = "acoustic"
                                 /\ a_value a = confidence).
Proof.
  intros alerts thermal_high acoustic_high correlated.
  subst alerts thermal_high acoustic_high correlated. unfold fusion_pass.
  split; [|split; [|split; [|split]]].
  1-4: destruct (fgt thermal_score (fc_thermal_anomaly_confidence cfg)),
         (fgt acoustic_score (fc_acoustic_anomaly_confidence cfg)),
         (fgt thermal_score (fc_fusion_correlation_confidence cfg)),
         (fgt acoustic_score (fc_fusion_correlation_confidence cfg)),
         (fgt gas_reading (fc_gas_analog_threshold cfg));
       reflexivity.
  intros equipment_type.
  destruct (get_equipment_thresholds_ok equipment_type)
    as (thresholds & ? & Hok & _).
  assert (Hnum : forall key, In key MODEL_THRESHOLD_KEYS ->
                             numeric_entry key thresholds = true).
  { intros key Hkey. by eapply thresholds_numeric. }
  destruct (numeric_entry_get_or "thermal_anomaly_confidence" (ratio 85 100)
              thresholds) as [tt Htt]; [apply Hnum; solve_In|].
  destruct (numeric_entry_get_or "acoustic_anomaly_confidence" (ratio 85 100)
              thresholds) as [ta Hta]; [apply Hnum; solve_In|].
  exists thresholds, tt, ta. split; [exact Hok|]. split; [exact Htt|].
  split; [exact Hta|]. intros results.
  destruct (detect_anomalies_ok thresholds results Hnum) as [anomalies Hdet].
  exists anomalies. split; [exact Hdet|]. split.
  - intros id c ts Hin Hgt.
    exists {| a_type := "thermal"; a_value := c; a_threshold := tt;
              a_message := "Thermal anomaly detected (confidence: " +:+
                           fixed 2 c +:+ ")" |}.
    split; [|by split].
    eapply (detect_anomalies_In thresholds results anomalies (IThermal id c ts)).
    + exact Hdet.
    + exact Hin.
    + simpl. rewrite Htt. unfold_result. rewrite Hgt. reflexivity.
    + by left.
  - intros id c ts Hin Hgt.
    exists {| a_type := "acoustic"; a_value := c; a_threshold := ta;
              a_message := "Acoustic anomaly detected (confidence: " +:+
                           fixed 2 c +:+ ")" |}.
    split; [|by split].
    eapply (detect_anomalies_In thresholds results anomalies (IAcoustic id c ts)).
    + exact Hdet.
    + exact Hin.
    + simpl. rewrite Hta. unfold_result. rewrite Hgt. reflexivity.
    + by left.
Qed.

(** ** Inference *)

Lemma Qltb_false_le (x y : Q) : Qltb x y = false -> Qleb y x = true.
Proof.
  intros H. apply Qleb_le. apply Qnot_lt_le. intros Hlt.
  apply Qltb_lt in Hlt. congruence.
Qed.

(** [np.clip] lands in the interval unless its argument is NaN. *)
Lemma np_clip_unit (x : pyfloat) :
  np_clip x (ratio 0 1) (ratio 1 1) = (if is_nan x then FNaN else np_clip x (ratio 0 1) (ratio 1 1))
  /\ (is_nan x = false ->
      fle (ratio 0 1) (np_clip x (ratio 0 1) (ratio 1 1)) = true
      /\ fle (np_clip x (ratio 0 1) (ratio 1 1)) (ratio 1 1) = true).
Proof.
  split; [by destruct x|].
  destruct x as [|[]|v]; [discriminate|done|done|]. intros _.
  unfold np_clip, ratio, fgt. simpl.
  destruct (Qltb v (0 # 1)) eqn:Hlo; [done|].
  destruct (Qltb (1 # 1) v) eqn:Hhi; [done|].
  simpl. split; by apply Qltb_false_le.
Qed.

(** The three ways an inference fails; each is answered with 0.0. *)
Lemma run_inference_no_interpreter (input_data : ndarray) :
  run_inference None input_data = ratio 0 1.
Proof. reflexivity. Qed.

(** An exception raised by [get_input_details], by [get_output_details] or
    by the invocation is answered with 0.0. *)
Lemma run_inference_raises (interpreter : Interpreter) (input_data : ndarray)
    (e : exn) :
  get_input_details interpreter = Raise e
  \/ get_output_details interpreter = Raise e
  \/ (forall t, invoke interpreter t = Raise e) ->
  run_inference (Some interpreter) input_data = ratio 0 1.
Proof.
  unfold run_inference. unfold_result.
  intros [H|[H|H]].
  - by rewrite H.
  - rewrite H. by repeat case_inner.
  - repeat case_inner; try reflexivity.
    all: match goal with Hi : invoke _ _ = Ok _ |- _ => by rewrite H in Hi end.
Qed.

Lemma run_inference_shape_mismatch (interpreter : Interpreter)
    (input_data : ndarray) (input_details : TensorDetails)
    (others : list TensorDetails) :
  get_input_details interpreter = Ok (input_details :: others) ->
  shapes_compatible (normalize_shape (drop 1 (td_shape input_details)))
    (shape input_data) = false ->
  run_inference (Some interpreter) input_data = ratio 0 1.
Proof.
  intros Hin Hshape. unfold run_inference. unfold_result.
  rewrite Hin. simpl. rewrite Hshape. simpl. by repeat case_inner.
Qed.

(** Whatever the interpreter does, the score is NaN or lies in [0, 1]; and
    it is NaN only when the model was invoked and the first element of its
    output, dequantised for a quantised model, is NaN. *)
Lemma run_inference_range (interpreter : option Interpreter)
    (input_data : ndarray) :
  let score := run_inference interpreter input_data in
  (score = FNaN
   \/ (fle (ratio 0 1) score = true /\ fle score (ratio 1 1) = true))
  /\ (score = FNaN ->
      exists loaded input_details ins output_details outs raw rest,
        interpreter = Some loaded
        /\ get_input_details loaded = Ok (input_details :: ins)
        /\ get_output_details loaded = Ok (output_details :: outs)
        /\ invoke loaded (prepare_input input_details (expand_dims input_data))
           = Ok raw
        /\ data (if is_quantized (td_dtype output_details)
                 then dequantize output_details raw
                 else raw)
           = FNaN :: rest).
Proof.
  assert (Hzero : ratio 0 1 = FNaN
                  \/ (fle (ratio 0 1) (ratio 0 1) = true
                      /\ fle (ratio 0 1) (ratio 1 1) = true))
    by (by right).
  assert (Hnot : ratio 0 1 = FNaN ->
                 exists loaded input_details ins output_details outs raw rest,
                   interpreter = Some loaded
                   /\ get_input_details loaded = Ok (input_details :: ins)
                   /\ get_output_details loaded = Ok (output_details :: outs)
                   /\ invoke loaded
                        (prepare_input input_details (expand_dims input_data))
                      = Ok raw
                   /\ data (if is_quantized (td_dtype output_details)
                            then dequantize output_details raw
                            else raw)
                      = FNaN :: rest)
    by discriminate.
  unfold run_inference. unfold_result. unfold first.
  destruct interpreter as [loaded|]; [|by split].
  destruct (get_input_details loaded) as [[|input_details ins]|e1] eqn:Hins;
    try (by split).
  destruct (get_output_details loaded) as [[|output_details outs]|e2] eqn:Houts;
    try (by split).
  destruct (negb (shapes_compatible _ _)); [by split|].
  destruct (invoke loaded _) as [raw|e3] eqn:Hinvoke; [|by split].
  destruct (data _) as [|x rest] eqn:Hdata; [by split|].
  destruct (np_clip_unit x) as [Hnan Hin].
  destruct x as [|neg|v].
  - split; [by left|]. intros _.
    by exists loaded, input_details, ins, output_details, outs, raw, rest.
  - specialize (Hin eq_refl). split; [by right|].
    intros Hclip. rewrite Hclip in Hin. by destruct Hin.
  - specialize (Hin eq_refl). split; [by right|].
    intros Hclip. rewrite Hclip in Hin. by destruct Hin.
Qed.

(** ** The security monitor *)

Lemma total_seconds_lt (now last : datetime) (seconds : Z) :
  now - last < seconds * 1000000 ->
  Qltb (total_seconds now last) (inject_Z seconds) = true.
Proof.
  intros H. apply Qltb_lt. unfold total_seconds, Qlt, inject_Z. simpl. lia.
Qed.

(** A rising edge stamps [last_motion_time] before the cooldown is
    consulted, so the detection that starts a cooldown is itself inside
    it: no alert and no activity-log entry is produced for it. *)
Lemma rising_edge_is_silent (cfg : SecurityConfig) (inp : SecurityInput)
    (equipment : Equipment) (readings : Readings) (md : MotionDetector) :
  motion_detection_enabled cfg = true ->
  motion_active md = false ->
  si_motion inp = true ->
  now_cooldown inp - now_detect inp < cooldown_seconds cfg * 1000000 ->
  fst (monitor_motion cfg inp equipment readings md) = [].
Proof.
  intros Hen Hidle Hmotion Hsoon.
  unfold monitor_motion, detect_motion, is_cooldown_active.
  rewrite Hen, Hidle, Hmotion, orb_true_r. simpl.
  by rewrite (total_seconds_lt _ _ _ Hsoon).
Qed.

(** A call that signals tampering leaves the baselines as they were. *)
Lemma check_tamper_signal_keeps_baseline (cfg : SecurityConfig)
    (now_rate now_store : datetime) (equipment_id : string)
    (readings : Readings) (self after : TamperDetector) (tamper : Tamper) :
  check_tamper cfg now_rate now_store equipment_id readings self
  = Ok (Some tamper, after) ->
  after = self.
Proof.
  unfold check_tamper. unfold_result.
  repeat case_inner; intros H; congruence.
Qed.

(** A call that signals nothing (and is not switched off) stores the
    current temperature reading and time as the new baseline. *)
Lemma check_tamper_quiet_updates_baseline (cfg : SecurityConfig)
    (now_rate now_store : datetime) (equipment_id : string)
    (readings : Readings) (self after : TamperDetector) :
  tamper_detection_enabled cfg = true ->
  check_tamper cfg now_rate now_store equipment_id readings self
  = Ok (None, after) ->
  baseline_readings after !! equipment_id
  = Some {| b_temperature := dict_get "temperature" (sensors readings);
            b_timestamp := now_store |}.
Proof.
  intros Hen. unfold check_tamper. rewrite Hen. unfold_result. simpl.
  repeat case_inner; intros H; try congruence.
  injection H as <-. simpl. by rewrite lookup_insert_eq.
Qed.


(** ** More on the tamper detector *)

Lemma Qltb_ge_false (x y : Q) : (y <= x)%Q -> Qltb x y = false.
Proof.
  intros Hle. destruct (Qltb x y) eqn:H; [|reflexivity].
  apply Qltb_lt in H. exfalso. exact (Qlt_not_le _ _ H Hle).
Qed.

Lemma minutes_elapsed_not_positive (now last : datetime) :
  now <= last -> Qltb 0 (total_seconds now last / 60) = false.
Proof.
  intros Hle. apply Qltb_ge_false.
  unfold total_seconds, Qdiv, Qmult, Qle. simpl. lia.
Qed.

(** Vibration comes first: a numeric vibration reading at or above the
    tamper threshold is signalled as physical tampering whatever the
    temperature reading and the baseline are, and nothing is stored. *)
Theorem check_tamper_vibration_first (cfg : SecurityConfig)
    (now_rate now_store : datetime) (equipment_id : string)
    (readings : Readings) (self : TamperDetector) (vib_val : pyfloat) :
  tamper_detection_enabled cfg = true ->
  dict_get "vibration" (sensors readings) = Some (VNum vib_val) ->
  fge vib_val (vibration_threshold cfg) = true ->
  check_tamper cfg now_rate now_store equipment_id readings self
  = Ok (Some (vibration_tamper vib_val), self).
Proof.
  intros Hen Hvib Hge. unfold check_tamper, check_vibration.
  rewrite Hen, Hvib. unfold_result. simpl. by rewrite Hge.
Qed.

(** A call for one equipment never touches the baseline of another, and
    without a stored baseline, or when the clock has not advanced past it,
    the only tampering it can signal is the vibration one. *)
Theorem check_tamper_frame (cfg : SecurityConfig)
    (now_rate now_store : datetime) (equipment_id : string)
    (readings : Readings) (self after : TamperDetector)
    (answer : option Tamper) :
  check_tamper cfg now_rate now_store equipment_id readings self
  = Ok (answer, after) ->
  (forall other, other <> equipment_id ->
                 baseline_readings after !! other
                 = baseline_readings self !! other)
  /\ (forall tamper,
         answer = Some tamper ->
         match baseline_readings self !! equipment_id with
         | Some base => now_rate <= b_timestamp base
         | None => True
         end ->
         tamper_type tamper = "physical_tampering").
Proof.
  unfold check_tamper, check_vibration, check_temperature_rate. unfold_result.
  destruct (baseline_readings self !! equipment_id) as [base|] eqn:Hbase.
  - repeat case_inner; intros H; try discriminate H;
      injection H as <- <-; (split; [intros other Hne|intros tamper Ht Hclock]);
      try reflexivity; try discriminate Ht; simpl;
      try (by rewrite lookup_insert_ne);
      try (injection Ht as <-; reflexivity).
    all: exfalso;
      match goal with
      | Hq : Qltb 0 _ = true |- _ =>
          rewrite (minutes_elapsed_not_positive _ _ Hclock) in Hq;
          discriminate Hq
      end.
  - repeat case_inner; intros H; try discriminate H;
      injection H as <- <-; (split; [intros other Hne|intros tamper Ht _]);
      try reflexivity; try discriminate Ht; simpl;
      try (by rewrite lookup_insert_ne);
      try (injection Ht as <-; reflexivity).
Qed.

(** ** More on the motion detector *)

Lemma total_seconds_ge (now last : datetime) (seconds : Z) :
  seconds * 1000000 <= now - last ->
  Qltb (total_seconds now last) (inject_Z seconds) = false.
Proof.
  intros H. apply Qltb_ge_false.
  unfold total_seconds, Qle, inject_Z. simpl. lia.
Qed.

(** When [monitor_security] raises a motion alert.  A call produces no
    motion event at all unless motion detection is switched on and the PIR
    read is positive (the after-hours flag alone never enables it); when it
    does produce one, it is a single alert, and the cooldown measured from
    the stored detection time, when there is one, has run out. *)
Theorem motion_alert_conditions (cfg : SecurityConfig) (inp : SecurityInput)
    (equipment : Equipment) (readings : Readings) (md : MotionDetector) :
  let events := fst (monitor_motion cfg inp equipment readings md) in
  let md' := snd (monitor_motion cfg inp equipment readings md) in
  events = []
  \/ (motion_detection_enabled cfg = true
      /\ si_motion inp = true
      /\ motion_alert_count events = 1%nat
      /\ forall last,
           last_motion_time md' = Some last ->
           (inject_Z (cooldown_seconds cfg)
            <= total_seconds (now_cooldown inp) last)%Q).
Proof.
  intros events md'. subst events md'.
  unfold monitor_motion, detect_motion, is_cooldown_active, log_activity.
  destruct (motion_detection_enabled cfg) eqn:Hen;
    destruct (si_after_hours inp), (si_motion inp), (motion_active md);
    cbn [orb andb negb fst snd last_motion_time]; try (by left).
  all: try (destruct (last_motion_time md) as [last|] eqn:Hlast);
    cbn [negb andb fst snd]; try (by left).
  all: try match goal with
       | |- context [Qltb ?a ?b] =>
           destruct (Qltb a b) eqn:Hq; cbn [negb fst snd]; [by left|]
       end.
  all: right; split; [reflexivity|]; split; [reflexivity|]; split;
    [by destruct (activity_logging_enabled cfg)|].
  all: cbn [last_motion_time]; intros last' Hlast'; simplify_eq.
  all: apply Qnot_lt_le; intros Hlt; apply Qltb_lt in Hlt; congruence.
Qed.

(** Sustained motion alerts on every call.  While the pin stays high the
    stored detection time is not renewed, so once the cooldown has run out
    every further call with a positive read raises one more alert and
    leaves the detector as it was. *)
Theorem sustained_motion_alerts_every_call (cfg : SecurityConfig)
    (inp : SecurityInput) (equipment : Equipment) (readings : Readings)
    (md : MotionDetector) (last : datetime) :
  motion_detection_enabled cfg = true ->
  motion_active md = true ->
  last_motion_time md = Some last ->
  si_motion inp = true ->
  cooldown_seconds cfg * 1000000 <= now_cooldown inp - last ->
  motion_alert_count (fst (monitor_motion cfg inp equipment readings md))
  = 1%nat
  /\ snd (monitor_motion cfg inp equipment readings md) = md.
Proof.
  intros Hen Hactive Hlast Hmotion Hlate.
  unfold monitor_motion, detect_motion, is_cooldown_active, log_activity.
  rewrite Hen, Hactive, Hmotion, orb_true_r. cbn [negb andb].
  rewrite Hlast, (total_seconds_ge _ _ _ Hlate). cbn [negb andb fst snd].
  split; [|reflexivity]. by destruct (activity_logging_enabled cfg).
Qed.

(** ** The business-hours schedule *)

(** Outside a weekend that counts as after-hours, a business-hours bound
    that does not parse makes [is_after_hours] answer False at every time
    of day: the schedule fails towards "business hours". *)
Theorem is_after_hours_fails_open (config : BusinessHours) (now : WallClock)
    (e : exn) :
  weekdays_only config && (5 <=? weekday now) = false ->
  strptime_time (bh_start config) = Raise e
  \/ strptime_time (bh_end config) = Raise e ->
  is_after_hours config now = false.
Proof.
  intros Hweek Hbad. unfold is_after_hours. rewrite Hweek. unfold_result.
  destruct Hbad as [H|H]; rewrite H; [reflexivity|].
  by destruct (strptime_time (bh_start config)).
Qed.

(** With both bounds parsed, a weekend day is after-hours whenever weekends
    count, and any other day exactly when the time of day is strictly
    before the start or strictly after the end: both bounds themselves are
    business hours, and a window whose start lies after its end makes every
    time after-hours. *)
Theorem is_after_hours_window (config : BusinessHours) (now : WallClock)
    (start_time end_time : Z) :
  strptime_time (bh_start config) = Ok start_time ->
  strptime_time (bh_end config) = Ok end_time ->
  (weekdays_only config = true -> 5 <= weekday now ->
   is_after_hours config now = true)
  /\ (weekdays_only config = false \/ weekday now < 5 ->
      (is_after_hours config now = true <->
       time_of_day now < start_time \/ end_time < time_of_day now))
  /\ (end_time < start_time -> is_after_hours config now = true).
Proof.
  intros Hstart Hend. unfold is_after_hours. rewrite Hstart, Hend.
  unfold_result.
  split; [|split].
  - intros Hw Hday. rewrite Hw. simpl.
    by destruct (Z.leb_spec 5 (weekday now)); [|lia].
  - intros Hweek.
    assert (Hguard : weekdays_only config && (5 <=? weekday now) = false).
    { destruct Hweek as [->|Hday]; [reflexivity|].
      destruct (Z.leb_spec 5 (weekday now)); [lia|]. apply andb_false_r. }
    rewrite Hguard.
    destruct (Z.leb_spec start_time (time_of_day now)),
      (Z.leb_spec (time_of_day now) end_time); simpl; split;
      intros Hx; try discriminate Hx; try reflexivity; lia.
  - intros Hinv.
    destruct (weekdays_only config && (5 <=? weekday now)); [reflexivity|].
    destruct (Z.leb_spec start_time (time_of_day now)),
      (Z.leb_spec (time_of_day now) end_time); simpl; try reflexivity; lia.
Qed.

(** ** The activity log *)

Lemma read_recent_all_ok (cutoff : Z) (entries : list ActivityEntry) :
  read_recent cutoff (map Ok entries)
  = List.filter (fun entry => cutoff <=? ae_time entry) entries.
Proof.
  induction entries as [|entry rest IH]; simpl; [done|].
  by destruct (cutoff <=? ae_time entry); rewrite IH.
Qed.

Lemma read_recent_app_raise (cutoff : Z) (entries : list ActivityEntry)
    (e : exn) (rest : list (result ActivityEntry)) :
  read_recent cutoff (map Ok entries ++ Raise e :: rest)
  = read_recent cutoff (map Ok entries).
Proof.
  induction entries as [|entry more IH]; simpl; [done|].
  by destruct (cutoff <=? ae_time entry); rewrite IH.
Qed.

(** Reading the activity log stops at the first line that does not decode:
    the entries before it that fall in the window are returned, oldest
    first, and everything after it is lost, however recent.  A log without
    such a line gives exactly its entries in the window. *)
Theorem recent_activity_stops_at_bad_line (now : datetime) (hours : Z)
    (entries : list ActivityEntry) (e : exn)
    (rest : list (result ActivityEntry)) :
  let cutoff_time := now - hours * 3600 * 1000000 in
  let in_window :=
    List.filter (fun entry => cutoff_time <=? ae_time entry) entries in
  get_recent_activity (LogLines (map Ok entries)) now hours = in_window
  /\ get_recent_activity (LogLines (map Ok entries ++ Raise e :: rest))
       now hours = in_window.
Proof.
  intros cutoff_time in_window. unfold get_recent_activity.
  fold cutoff_time. by rewrite read_recent_app_raise, read_recent_all_ok.
Qed.

Lemma read_recent_sublist (cutoff : Z) (lines : list (result ActivityEntry)) :
  read_recent cutoff lines `sublist_of` decoded lines
  /\ Forall (fun entry => cutoff <= ae_time entry) (read_recent cutoff lines).
Proof.
  induction lines as [|[entry|e] rest [IHs IHf]]; simpl.
  - by split.
  - destruct (Z.leb_spec cutoff (ae_time entry)); split; try done.
    + by apply sublist_skip.
    + by constructor.
    + by apply sublist_cons.
  - split; [apply sublist_nil_l|done].
Qed.

Lemma read_recent_wider (cutoff cutoff' : Z)
    (lines : list (result ActivityEntry)) :
  cutoff' <= cutoff ->
  read_recent cutoff lines `sublist_of` read_recent cutoff' lines.
Proof.
  intros Hle. induction lines as [|[entry|e] rest IH]; simpl; [done| |done].
  destruct (Z.leb_spec cutoff (ae_time entry)),
    (Z.leb_spec cutoff' (ae_time entry)); try lia.
  - by apply sublist_skip.
  - by apply sublist_cons.
  - done.
Qed.

(** Whatever the file holds, [get_recent_activity] returns decoded entries
    of it in file order, each no older than the cutoff; a missing or
    unreadable file gives the empty list; asking for more hours never loses
    an entry. *)
Theorem recent_activity_window (file : LogFile) (now : datetime)
    (hours : Z) :
  let recent := get_recent_activity file now hours in
  Forall (fun entry => now - hours * 3600 * 1000000 <= ae_time entry) recent
  /\ match file with
     | LogLines lines => recent `sublist_of` decoded lines
     | _ => recent = []
     end
  /\ forall more, hours <= more ->
       recent `sublist_of` get_recent_activity file now more.
Proof.
  intros recent. subst recent. destruct file as [|e|lines]; simpl.
  - by repeat split.
  - by repeat split.
  - destruct (read_recent_sublist (now - hours * 3600 * 1000000) lines)
      as [Hs Hf].
    split; [exact Hf|]. split; [exact Hs|].
    intros more Hmore. apply read_recent_wider. lia.
Qed.

(** ** The security report *)

Lemma count_event_type_cons (event_type : string) (a : ActivityEntry)
    (activities : list ActivityEntry) :
  count_event_type event_type (a :: activities)
  = (if String.eqb (ae_event_type a) event_type then 1 else 0)
    + count_event_type event_type activities.
Proof.
  unfold count_event_type. simpl.
  destruct (String.eqb (ae_event_type a) event_type); simpl length; lia.
Qed.

(** The numbers of the security report.  The motion and tampering counts
    together are the number of entries listed under "Security Events", the
    count printed as routine monitoring is the number of entries of every
    other type (so it is never negative), and the events section is printed
    exactly when some entry is a motion or tampering event. *)
Theorem report_summary_counts (activities : list ActivityEntry) :
  let summary := report_summary activities in
  let total_events := fst (fst (fst summary)) in
  let motion_events := snd (fst (fst summary)) in
  let tamper_events := snd (fst summary) in
  let routine := snd summary in
  motion_events + tamper_events
  = Z.of_nat (length (List.filter is_security_event activities))
  /\ routine
     = Z.of_nat (length (List.filter (fun a => negb (is_security_event a))
                           activities))
  /\ total_events = motion_events + tamper_events + routine
  /\ ((0 <? motion_events) || (0 <? tamper_events) = true <->
      List.filter is_security_event activities <> []).
Proof.
  intros summary total_events motion_events tamper_events routine.
  subst summary total_events motion_events tamper_events routine.
  unfold report_summary. cbn [fst snd].
  assert (Hsec : count_event_type "motion_detected" activities
                 + count_event_type "tamper_detected" activities
                 = Z.of_nat (length (List.filter is_security_event activities))
                 /\ Z.of_nat (length activities)
                    = Z.of_nat (length (List.filter is_security_event activities))
                      + Z.of_nat (length (List.filter
                                   (fun a => negb (is_security_event a))
                                   activities))).
  { induction activities as [|a rest [IH1 IH2]]; [done|].
    rewrite !count_event_type_cons. unfold is_security_event in *.
    cbn [List.filter length].
    destruct (String.eqb_spec (ae_event_type a) "motion_detected") as [Hm|Hm];
      destruct (String.eqb_spec (ae_event_type a) "tamper_detected") as [Ht|Ht];
      cbn [orb negb length]; try (rewrite Hm in Ht; discriminate Ht); lia. }
  destruct Hsec as [Hsum Htotal].
  assert (Hm : 0 <= count_event_type "motion_detected" activities)
    by (unfold count_event_type; lia).
  assert (Ht : 0 <= count_event_type "tamper_detected" activities)
    by (unfold count_event_type; lia).
  split; [exact Hsum|]. split; [lia|]. split; [lia|].
  rewrite orb_true_iff, !Z.ltb_lt.
  destruct (List.filter is_security_event activities) as [|a l] eqn:Hf.
  - simpl in Hsum. split; [lia|done].
  - simpl length in Hsum. split; [done|lia].
Qed.

(** ** Reading the sensors *)

Lemma dict_get_snoc {V : Type} (k name : string) (v : V) (acc : dict V) :
  dict_get k (acc ++ [(name, v)])%list
  = match dict_get k acc with
    | Some x => Some x
    | None => if String.eqb k name then Some v else None
    end.
Proof.
  induction acc as [|[k' v'] acc IH]; simpl; [done|].
  by destruct (String.eqb k k').
Qed.

Lemma option_or_None {A : Type} (o : option A) :
  match o with Some x => Some x | None => None end = o.
Proof. by destruct o. Qed.

Lemma read_sensor_lookup (sensors_config : dict SensorWiring)
    (config_key name k : string) (read : result value) (acc : dict value) :
  dict_get k (read_sensor sensors_config config_key name read acc)
  = match dict_get k acc with
    | Some x => Some x
    | None =>
        if String.eqb k name && wiring_enabled sensors_config config_key
        then match read with Ok v => Some v | Raise _ => None end
        else None
    end.
Proof.
  unfold read_sensor.
  destruct (wiring_enabled sensors_config config_key), read as [v|e];
    rewrite ?dict_get_snoc, ?andb_true_r, ?andb_false_r;
    by repeat case_match.
Qed.

Lemma read_sensor_keys (sensors_config : dict SensorWiring)
    (config_key name : string) (read : result value) (acc : dict value) :
  exists got,
    dict_keys (read_sensor sensors_config config_key name read acc)
    = (dict_keys acc ++ got)%list
    /\ got `sublist_of` [name].
Proof.
  unfold read_sensor, dict_keys.
  destruct (wiring_enabled sensors_config config_key), read as [v|e].
  - exists [name]. by rewrite map_app.
  - exists []. rewrite app_nil_r. split; [done|apply sublist_nil_l].
  - exists []. rewrite app_nil_r. split; [done|apply sublist_nil_l].
  - exists []. rewrite app_nil_r. split; [done|apply sublist_nil_l].
Qed.

(** What [read_equipment_sensors] returns.  Each of the eight readings is
    present exactly when its sensor is switched on in the wiring and its
    driver did not raise, and then it is what the driver returned: a driver
    that raises costs its own reading only.  The keys come in the fixed
    order of the reads, none twice. *)
Theorem read_equipment_sensors_lookup (hw : Hardware) (timestamp : string)
    (equipment : Equipment) :
  let sensors_config := default [] (eq_sensors equipment) in
  let readings := read_equipment_sensors hw timestamp equipment in
  (forall config_key name read,
     In (config_key, name, read) SENSOR_READS ->
     dict_get name (sensors readings)
     = if wiring_enabled sensors_config config_key
       then match read hw with Ok v => Some v | Raise _ => None end
       else None)
  /\ dict_keys (sensors readings) `sublist_of` READING_KEYS.
Proof.
  intros sensors_config readings. subst readings. split.
  - intros config_key name read Hin.
    unfold read_equipment_sensors. cbn [sensors].
    fold sensors_config. rewrite !read_sensor_lookup.
    simpl in Hin.
    repeat (destruct Hin as [Hin|Hin];
            [injection Hin as <- <- <-; simpl;
             by rewrite ?option_or_None|]).
    destruct Hin.
  - unfold read_equipment_sensors. cbn [sensors]. fold sensors_config.
    repeat match goal with
    | |- context [read_sensor ?c ?k ?n ?r ?acc] =>
        let got := fresh "got" in
        let Hk := fresh "Hk" in
        let Hs := fresh "Hs" in
        destruct (read_sensor_keys c k n r acc) as (got & Hk & Hs);
        rewrite Hk; clear Hk
    end.
    change READING_KEYS with
      ((((((((([] ++ ["thermal"]) ++ ["audio"]) ++ ["gas"]) ++ ["temperature"])
           ++ ["co2"]) ++ ["oxygen"]) ++ ["vibration"]) ++ ["current"])%list).
    repeat (apply sublist_app; [|assumption]). done.
Qed.

(** An equipment that passes [validate_equipment_config] gets every sensor
    its type requires read: each required capability maps to a wiring key
    that [read_equipment_sensors] reads, the sensor is switched on there,
    and the reading is stored whenever the driver returns. *)
Theorem validated_equipment_reads_required_sensors (hw : Hardware)
    (timestamp : string) (equipment : Equipment) (type_def : TypeDef)
    (required_sensor : string) :
  dict_get (eq_type equipment) EQUIPMENT_TYPES = Some type_def ->
  fst (validate_equipment_config equipment) = true ->
  In required_sensor (sensors_required type_def) ->
  exists config_key name read,
    dict_get required_sensor sensor_name_mapping = Some config_key
    /\ In (config_key, name, read) SENSOR_READS
    /\ wiring_enabled (default [] (eq_sensors equipment)) config_key = true
    /\ dict_get name
         (sensors (read_equipment_sensors hw timestamp equipment))
       = match read hw with Ok v => Some v | Raise _ => None end.
Proof.
  intros Htype Hvalid Hin.
  assert (Hon : sensor_missing (default [] (eq_sensors equipment))
                  (dict_get_or required_sensor required_sensor
                     sensor_name_mapping) = false).
  { destruct (sensor_missing _ _) eqn:Hm; [|done].
    assert (Hf : fst (validate_equipment_config equipment) = false).
    { unfold validate_equipment_config. rewrite Htype.
      apply check_required_false. by exists required_sensor. }
    congruence. }
  assert (Hen : forall config_key,
             sensor_missing (default [] (eq_sensors equipment)) config_key
             = false ->
             wiring_enabled (default [] (eq_sensors equipment)) config_key
             = true).
  { intros config_key. unfold sensor_missing, wiring_enabled.
    destruct (dict_get config_key _) as [wiring|]; [|done].
    by destruct (default false (enabled wiring)). }
  destruct (read_equipment_sensors_lookup hw timestamp equipment)
    as [Hlookup _].
  assert (Hreq : In required_sensor ["thermal"; "acoustic"; "temperature"]).
  { apply dict_get_Some_In in Htype. simpl in Htype.
    repeat (destruct Htype as [Htype|Htype];
            [injection Htype as _ <-; simpl in Hin;
             repeat (destruct Hin as [<-|Hin]; [solve_In|]); destruct Hin|]).
    destruct Htype. }
  simpl in Hreq.
  destruct Hreq as [<-|[<-|[<-|[]]]].
  - exists "thermal_camera", "thermal", read_thermal_camera.
    specialize (Hen _ Hon).
    change (wiring_enabled (default [] (eq_sensors equipment)) "thermal_camera"
            = true) in Hen.
    split; [done|]. split; [solve_In|]. split; [exact Hen|].
    rewrite (Hlookup "thermal_camera" "thermal" read_thermal_camera);
      [|solve_In].
    cbn zeta. by rewrite Hen.
  - exists "microphone", "audio", read_microphone.
    specialize (Hen _ Hon).
    change (wiring_enabled (default [] (eq_sensors equipment)) "microphone"
            = true) in Hen.
    split; [done|]. split; [solve_In|]. split; [exact Hen|].
    rewrite (Hlookup "microphone" "audio" read_microphone); [|solve_In].
    cbn zeta. by rewrite Hen.
  - exists "temperature", "temperature", read_temperature.
    specialize (Hen _ Hon).
    change (wiring_enabled (default [] (eq_sensors equipment)) "temperature"
            = true) in Hen.
    split; [done|]. split; [solve_In|]. split; [exact Hen|].
    rewrite (Hlookup "temperature" "temperature" read_temperature);
      [|solve_In].
    cbn zeta. by rewrite Hen.
Qed.

(** What a passed start-up check guarantees about the loop that follows:
    the Pi has equipment to monitor, and every unit [main_loop] will cycle
    over has a catalogue type with all its required sensors switched on. *)
Theorem startup_check_guarantee (has_attr : string -> bool) (pi_id : string) :
  startup_check has_attr pi_id = true ->
  get_equipment_by_pi pi_id <> []
  /\ Forall (fun equipment =>
               exists type_def,
                 dict_get (eq_type equipment) EQUIPMENT_TYPES = Some type_def
                 /\ Forall (fun required_sensor =>
                              wiring_enabled (default [] (eq_sensors equipment))
                                (dict_get_or required_sensor required_sensor
                                   sensor_name_mapping) = true)
                      (sensors_required type_def))
       (get_equipment_by_pi pi_id).
Proof.
  unfold startup_check. intros H.
  apply andb_true_iff in H as [_ H].
  destruct (get_equipment_by_pi pi_id) as [|e l] eqn:Hlist; [discriminate|].
  split; [done|].
  rewrite forallb_forall in H. apply List.Forall_forall.
  intros equipment Hin. specialize (H _ Hin).
  unfold validate_equipment_config in H.
  destruct (dict_get (eq_type equipment) EQUIPMENT_TYPES) as [type_def|];
    [|discriminate].
  exists type_def. split; [done|]. apply List.Forall_forall.
  intros required_sensor Hreq.
  destruct (sensor_missing (default [] (eq_sensors equipment))
              (dict_get_or required_sensor required_sensor
                 sensor_name_mapping)) eqn:Hm.
  - assert (Hf : fst (check_required (default [] (eq_sensors equipment))
                        (sensors_required type_def)) = false)
      by (apply check_required_false; by exists required_sensor).
    congruence.
  - unfold sensor_missing in Hm. unfold wiring_enabled.
    destruct (dict_get _ (default [] (eq_sensors equipment))) as [wiring|];
      [|done].
    by destruct (default false (enabled wiring)).
Qed.

(** ** The raw threshold pass: what stays silent *)

Lemma flt_nan_r (x : pyfloat) : flt x FNaN = false.
Proof. by destruct x. Qed.

Lemma fle_nan_r (x : pyfloat) : fle x FNaN = false.
Proof. by destruct x. Qed.

(** Closes a goal about a block of the raw pass whose reading is NaN: every
    comparison with NaN is false. *)
Ltac nan_block :=
  unfold_result; unfold out_of_range, ge_threshold, lt_threshold, fge, fgt;
  simpl; repeat case_inner; try reflexivity;
  exfalso;
  repeat match goal with
         | H : context [flt _ FNaN] |- _ => rewrite flt_nan_r in H
         | H : context [fle _ FNaN] |- _ => rewrite fle_nan_r in H
         end;
  simpl in *; congruence.

Lemma raw_alerts_nan (cfg : Config) (thresholds : dict threshold)
    (sensors : dict value) :
  (forall key v,
     In key ["temperature"; "gas"; "co2"; "oxygen"; "vibration"; "current"] ->
     dict_get key sensors = Some v -> v = VNum FNaN) ->
  raw_alerts cfg thresholds sensors = [].
Proof.
  intros Hnan. unfold raw_alerts.
  assert (Ht : temperature_alerts cfg thresholds sensors = []).
  { unfold temperature_alerts.
    destruct (dict_get "temperature" sensors) as [v|] eqn:Hv; [|done].
    rewrite (Hnan "temperature" v); [|solve_In|done].
    nan_block. }
  assert (Hg : gas_alerts cfg thresholds sensors = []).
  { unfold gas_alerts.
    destruct (dict_get "gas" sensors) as [v|] eqn:Hv; [|done].
    rewrite (Hnan "gas" v); [|solve_In|done].
    nan_block. }
  assert (Hc : co2_alerts thresholds sensors = []).
  { unfold co2_alerts.
    destruct (dict_get "co2" sensors) as [v|] eqn:Hv; [|done].
    rewrite (Hnan "co2" v); [|solve_In|done].
    nan_block. }
  assert (Ho : oxygen_alerts thresholds sensors = []).
  { unfold oxygen_alerts.
    destruct (dict_get "oxygen" sensors) as [v|] eqn:Hv; [|done].
    rewrite (Hnan "oxygen" v); [|solve_In|done].
    nan_block. }
  assert (Hvb : vibration_alerts thresholds sensors = []).
  { unfold vibration_alerts.
    destruct (dict_get "vibration" sensors) as [v|] eqn:Hv; [|done].
    rewrite (Hnan "vibration" v); [|solve_In|done].
    nan_block. }
  assert (Hcu : current_alerts thresholds sensors = []).
  { unfold current_alerts.
    destruct (dict_get "current" sensors) as [v|] eqn:Hv; [|done].
    rewrite (Hnan "current" v); [|solve_In|done].
    nan_block. }
  by rewrite Ht, Hg, Hc, Ho, Hvb, Hcu.
Qed.

(** The raw threshold pass is blind to NaN.  When each scalar reading that
    is present is NaN (a sensor that answers but has no value), no check
    fires for any equipment type and any configuration, the critical
    temperature check included, and nothing is sent. *)
Theorem raw_pass_silent_on_nan (cfg : Config) (now : string)
    (equipment : Equipment) (readings : Readings) :
  (forall key v,
     In key ["temperature"; "gas"; "co2"; "oxygen"; "vibration"; "current"] ->
     dict_get key (sensors readings) = Some v -> v = VNum FNaN) ->
  check_raw_sensor_thresholds cfg now equipment readings = Ok [].
Proof.
  intros Hnan. unfold check_raw_sensor_thresholds.
  destruct (get_equipment_thresholds_ok (eq_type equipment))
    as (thresholds & key & Hok & _).
  rewrite Hok. unfold_result. by rewrite raw_alerts_nan.
Qed.

(** For a type whose profile has its own gas threshold, the configuration's
    [GAS_ANALOG_THRESHOLD] is never consulted: two configurations that
    agree on the critical temperature make the raw pass send the same
    messages, whatever their gas thresholds are. *)
Theorem gas_type_threshold_overrides_config (cfg cfg' : Config) (now : string)
    (equipment : Equipment) (readings : Readings)
    (thresholds : dict threshold) :
  get_equipment_thresholds (eq_type equipment) = Ok thresholds ->
  dict_has "gas_analog_threshold" thresholds = true ->
  THERMAL_CRITICAL_THRESHOLD_C cfg = THERMAL_CRITICAL_THRESHOLD_C cfg' ->
  check_raw_sensor_thresholds cfg now equipment readings
  = check_raw_sensor_thresholds cfg' now equipment readings.
Proof.
  intros Hok Hhas Hcrit. unfold check_raw_sensor_thresholds.
  rewrite Hok. unfold_result.
  assert (Halerts : raw_alerts cfg thresholds (sensors readings)
                    = raw_alerts cfg' thresholds (sensors readings)).
  { unfold raw_alerts, temperature_alerts, gas_alerts, dict_has in *.
    rewrite Hcrit.
    by destruct (dict_get "gas_analog_threshold" thresholds). }
  by rewrite Halerts.
Qed.

Lemma dispatch_unsupported (channels : list string) (subject message : string) :
  (forall channel, In channel channels ->
                   channel <> "discord" /\ channel <> "email") ->
  dispatch channels subject message = [].
Proof.
  intros Hnone. unfold dispatch.
  induction channels as [|c rest IH]; [done|]. simpl.
  destruct (Hnone c) as [Hd He]; [by left|].
  destruct (String.eqb_spec c "discord") as [|_]; [done|].
  destruct (String.eqb_spec c "email") as [|_]; [done|].
  apply IH. intros channel Hin. apply Hnone. by right.
Qed.

(** An equipment whose [alert_channels] name neither "discord" nor "email"
    (only "sms", say, or a misspelt name) gets no threshold or anomaly
    message: in a monitoring cycle neither [check_raw_sensor_thresholds]
    nor [check_anomaly_and_alert] hands anything to the alert manager,
    whatever the readings and the model results are.  (The intrusion
    alerts of [monitor_security] do not go through [alert_channels]; they
    are the cycle's security events and are not concerned here.) *)
Theorem unsupported_channels_send_nothing (cfg : Config)
    (sec_cfg : SecurityConfig) (gpio : bool) (inp : CycleInput)
    (equipment : Equipment) (w : World) (channels : list string) :
  eq_alert_channels equipment = Some channels ->
  (forall channel, In channel channels ->
                   channel <> "discord" /\ channel <> "email") ->
  let out := snd (monitor_equipment cfg sec_cfg gpio inp equipment w) in
  raw_sends out = [] /\ model_sends out = [].
Proof.
  intros Hch Hnone out. subst out.
  assert (Hd : forall subject message,
             dispatch (alert_channels equipment) subject message = []).
  { intros subject message. unfold alert_channels. rewrite Hch.
    by apply dispatch_unsupported. }
  unfold monitor_equipment.
  destruct (lstm_step _ _ _ _) as [buffers submitted].
  assert (Hraw : forall readings,
             try_except
               (check_raw_sensor_thresholds cfg (cycle_now inp) equipment
                  readings) (fun _ => []) = []).
  { intros readings. unfold check_raw_sensor_thresholds. unfold_result.
    destruct (get_equipment_thresholds (eq_type equipment)); [|done].
    destruct (raw_alerts cfg a (sensors readings)); [done|].
    simpl. apply Hd. }
  assert (Hmodel : forall results,
             match check_anomaly_and_alert (cycle_now inp) equipment results
             with
             | Ok model => model = []
             | Raise _ => True
             end).
  { intros results. unfold check_anomaly_and_alert. unfold_result.
    destruct (get_equipment_thresholds (eq_type equipment)); [|done].
    destruct (detect_anomalies a results) as [[|x l]|]; [done| |done].
    apply Hd. }
  match goal with
  | |- context [check_anomaly_and_alert ?n ?e ?r] =>
      specialize (Hmodel r); destruct (check_anomaly_and_alert n e r)
  end; cbn [snd raw_sends model_sends]; rewrite Hraw; by split.
Qed.

(** ** The anomaly pass: what is reported *)

Lemma detect_anomaly_sound (thresholds : dict threshold) (r : InferenceResult)
    (found : list Anomaly) (a : Anomaly) :
  detect_anomaly thresholds r = Ok found -> In a found ->
  fgt (a_value a) (a_threshold a) = true
  /\ ((exists id ts,
          r = IThermal id (a_value a) ts
          /\ a_type a = "thermal"
          /\ dict_get_or "thermal_anomaly_confidence"
               (TNum (ratio 85 100)) thresholds
             = TNum (a_threshold a))
      \/ (exists id ts,
          r = IAcoustic id (a_value a) ts
          /\ a_type a = "acoustic"
          /\ dict_get_or "acoustic_anomaly_confidence"
               (TNum (ratio 85 100)) thresholds
             = TNum (a_threshold a))
      \/ (exists id ts,
          r = ILstm id (a_value a) ts
          /\ a_type a = "lstm_degradation"
          /\ dict_get_or "lstm_reconstruction_threshold"
               (TNum (ratio 45 1000)) thresholds
             = TNum (a_threshold a)))
  /\ found = [a].
Proof.
  unfold detect_anomaly. destruct r as [e|id c ts|id c ts|id c ts].
  - by intros [= <-] [].
  - destruct (dict_get_or _ _ thresholds) as [t|lo hi] eqn:Hentry; [|done].
    destruct (fgt c t) eqn:Hgt; intros [= <-] Hin; [|destruct Hin].
    destruct Hin as [<-|[]]. split; [exact Hgt|]. split; [|done].
    left. by exists id, ts.
  - destruct (dict_get_or _ _ thresholds) as [t|lo hi] eqn:Hentry; [|done].
    destruct (fgt c t) eqn:Hgt; intros [= <-] Hin; [|destruct Hin].
    destruct Hin as [<-|[]]. split; [exact Hgt|]. split; [|done].
    right. left. by exists id, ts.
  - destruct (dict_get_or _ _ thresholds) as [t|lo hi] eqn:Hentry; [|done].
    destruct (fgt c t) eqn:Hgt; intros [= <-] Hin; [|destruct Hin].
    destruct Hin as [<-|[]]. split; [exact Hgt|]. split; [|done].
    right. right. by exists id, ts.
Qed.

Lemma detect_anomalies_sound (thresholds : dict threshold)
    (results : list InferenceResult) (anomalies : list Anomaly) :
  detect_anomalies thresholds results = Ok anomalies ->
  (length anomalies <= length results)%nat
  /\ Forall (fun a =>
               fgt (a_value a) (a_threshold a) = true
               /\ ((exists id ts,
                       In (IThermal id (a_value a) ts) results
                       /\ a_type a = "thermal"
                       /\ dict_get_or "thermal_anomaly_confidence"
                            (TNum (ratio 85 100)) thresholds
                          = TNum (a_threshold a))
                   \/ (exists id ts,
                       In (IAcoustic id (a_value a) ts) results
                       /\ a_type a = "acoustic"
                       /\ dict_get_or "acoustic_anomaly_confidence"
                            (TNum (ratio 85 100)) thresholds
                          = TNum (a_threshold a))
                   \/ (exists id ts,
                       In (ILstm id (a_value a) ts) results
                       /\ a_type a = "lstm_degradation"
                       /\ dict_get_or "lstm_reconstruction_threshold"
                            (TNum (ratio 45 1000)) thresholds
                          = TNum (a_threshold a))))
       anomalies.
Proof.
  revert anomalies.
  induction results as [|r rest IH]; intros anomalies Hdet.
  - injection Hdet as <-. by split.
  - simpl in Hdet. unfold_result.
    destruct (detect_anomaly thresholds r) as [found|] eqn:Hr; [|done].
    destruct (detect_anomalies thresholds rest) as [more|] eqn:Hrest; [|done].
    injection Hdet as <-. destruct (IH more eq_refl) as [Hlen Hall].
    assert (Hone : (length found <= 1)%nat).
    { destruct found as [|a l]; [simpl; lia|].
      destruct (detect_anomaly_sound _ _ _ a Hr) as (_ & _ & Hone);
        [by left|].
      rewrite Hone. simpl. lia. }
    split.
    + rewrite length_app. simpl. lia.
    + apply Forall_app. split.
      * apply List.Forall_forall. intros a Ha.
        destruct (detect_anomaly_sound _ _ _ a Hr Ha) as (Hgt & Hfrom & _).
        split; [exact Hgt|].
        destruct Hfrom as [(id & ts & -> & Hty & Hth)
                          |[(id & ts & -> & Hty & Hth)
                           |(id & ts & -> & Hty & Hth)]].
        -- left. exists id, ts. by split; [left|].
        -- right. left. exists id, ts. by split; [left|].
        -- right. right. exists id, ts. by split; [left|].
      * eapply List.Forall_impl; [|exact Hall].
        intros a [Hgt Hfrom]. split; [exact Hgt|].
        destruct Hfrom as [(id & ts & Hin & Hty & Hth)
                          |[(id & ts & Hin & Hty & Hth)
                           |(id & ts & Hin & Hty & Hth)]].
        -- left. exists id, ts. by split; [right|].
        -- right. left. exists id, ts. by split; [right|].
        -- right. right. exists id, ts. by split; [right|].
Qed.

(** What the anomaly pass reports, for every equipment type and every list
    of inference results: the pass does not raise; each reported anomaly
    stems from a thermal, acoustic or LSTM result of the list, the
    threshold it records is the entry of the type's profile for that kind
    of result (the built-in default when the profile has none), and the
    value is strictly above that threshold, so a value equal to the
    threshold, a NaN value and an error result report nothing; there are no
    more anomalies than results; and conversely every thermal, acoustic or
    LSTM result whose value is strictly above the profile's threshold is
    reported, with that value and that threshold. *)
Theorem anomalies_exceed_thresholds (equipment_type : string)
    (results : list InferenceResult) :
  exists thresholds anomalies,
    get_equipment_thresholds equipment_type = Ok thresholds
    /\ detect_anomalies thresholds results = Ok anomalies
    /\ (length anomalies <= length results)%nat
    /\ Forall (fun a =>
                 fgt (a_value a) (a_threshold a) = true
                 /\ is_nan (a_value a) = false
                 /\ ((exists id ts,
                         In (IThermal id (a_value a) ts) results
                         /\ a_type a = "thermal"
                         /\ dict_get_or "thermal_anomaly_confidence"
                              (TNum (ratio 85 100)) thresholds
                            = TNum (a_threshold a))
                     \/ (exists id ts,
                         In (IAcoustic id (a_value a) ts) results
                         /\ a_type a = "acoustic"
                         /\ dict_get_or "acoustic_anomaly_confidence"
                              (TNum (ratio 85 100)) thresholds
                            = TNum (a_threshold a))
                     \/ (exists id ts,
                         In (ILstm id (a_value a) ts) results
                         /\ a_type a = "lstm_degradation"
                         /\ dict_get_or "lstm_reconstruction_threshold"
                              (TNum (ratio 45 1000)) thresholds
                            = TNum (a_threshold a))))
         anomalies
    /\ (forall id value ts t,
           (In (IThermal id value ts) results
            /\ dict_get_or "thermal_anomaly_confidence" (TNum (ratio 85 100))
                 thresholds = TNum t
            /\ fgt value t = true ->
            exists a, In a anomalies /\ a_type a = "thermal"
                      /\ a_value a = value /\ a_threshold a = t)
           /\ (In (IAcoustic id value ts) results
               /\ dict_get_or "acoustic_anomaly_confidence"
                    (TNum (ratio 85 100)) thresholds = TNum t
               /\ fgt value t = true ->
               exists a, In a anomalies /\ a_type a = "acoustic"
                         /\ a_value a = value /\ a_threshold a = t)
           /\ (In (ILstm id value ts) results
               /\ dict_get_or "lstm_reconstruction_threshold"
                    (TNum (ratio 45 1000)) thresholds = TNum t
               /\ fgt value t = true ->
               exists a, In a anomalies /\ a_type a = "lstm_degradation"
                         /\ a_value a = value /\ a_threshold a = t)).
Proof.
  destruct (get_equipment_thresholds_ok equipment_type)
    as (thresholds & key & Hok & _).
  destruct (detect_anomalies_ok thresholds results) as [anomalies Hdet].
  { intros k Hk. by eapply thresholds_numeric. }
  exists thresholds, anomalies. split; [exact Hok|]. split; [exact Hdet|].
  destruct (detect_anomalies_sound _ _ _ Hdet) as [Hlen Hall].
  split; [exact Hlen|]. split.
  - eapply List.Forall_impl; [|exact Hall].
    intros a [Hgt Hfrom]. split; [exact Hgt|]. split; [|exact Hfrom].
    unfold fgt in Hgt. by destruct (a_value a), (a_threshold a).
  - intros id value ts t. split; [|split]; intros (Hin & Hentry & Hgt).
    + eexists. split.
      * eapply (detect_anomalies_In _ _ _ _ _ _ Hdet Hin).
        -- unfold detect_anomaly. by rewrite Hentry, Hgt.
        -- by left.
      * by repeat split.
    + eexists. split.
      * eapply (detect_anomalies_In _ _ _ _ _ _ Hdet Hin).
        -- unfold detect_anomaly. by rewrite Hentry, Hgt.
        -- by left.
      * by repeat split.
    + eexists. split.
      * eapply (detect_anomalies_In _ _ _ _ _ _ Hdet Hin).
        -- unfold detect_anomaly. by rewrite Hentry, Hgt.
        -- by left.
      * by repeat split.
Qed.

(** ** One cycle touches one equipment *)

(** A monitoring cycle of one equipment leaves the stored state and the
    LSTM buffer of every other equipment as they were. *)
Theorem monitor_equipment_isolation (cfg : Config) (sec_cfg : SecurityConfig)
    (gpio : bool) (inp : CycleInput) (equipment : Equipment) (w : World)
    (other : string) :
  other <> eq_id equipment ->
  let w' := fst (monitor_equipment cfg sec_cfg gpio inp equipment w) in
  equipment_states w' !! other = equipment_states w !! other
  /\ equipment_lstm_buffers w' !! other = equipment_lstm_buffers w !! other.
Proof.
  intros Hother w'. subst w'. unfold monitor_equipment.
  destruct (lstm_step (equipment_lstm_buffers w) (eq_id equipment) _ _)
    as [buffers submitted] eqn:Hstep.
  assert (Hbuf : buffers !! other = equipment_lstm_buffers w !! other).
  { unfold lstm_step in Hstep.
    destruct (build_lstm_feature_vector _ _);
      destruct (equipment_lstm_buffers w !! eq_id equipment);
      injection Hstep as <- _;
      by rewrite ?lookup_insert_ne. }
  destruct (check_anomaly_and_alert _ _ _);
    cbn [fst equipment_states equipment_lstm_buffers];
    by rewrite ?lookup_insert_ne.
Qed.

(** ** The hardened main loop *)

(** The shape check of [run_inference] compares the two shapes position by
    position as far as both go: it passes exactly when every expected
    dimension that has a counterpart in the input is -1 or equal to it.
    Dimensions beyond the shorter shape are not looked at, so an input of
    another rank is not rejected for its rank. *)
Theorem shapes_compatible_iff (expected got : list Z) :
  shapes_compatible expected got = true <->
  forall (i : nat) (exp inp : Z),
    expected !! i = Some exp -> got !! i = Some inp -> exp = -1 \/ exp = inp.
Proof.
  revert got. induction expected as [|e expected IH]; intros got.
  - simpl. split; [|done]. intros _ i exp inp Hexp. destruct i; discriminate.
  - destruct got as [|g got]; simpl.
    + split; [|done]. intros _ i exp inp _ Hinp. destruct i; discriminate.
    + rewrite andb_true_iff, orb_true_iff, !Z.eqb_eq, IH. split.
      * intros [Hhead Htail] [|i] exp inp; simpl.
        -- by intros [= <-] [= <-].
        -- apply Htail.
      * intros Hall. split.
        -- by apply (Hall 0%nat).
        -- intros i. apply (Hall (S i)).
Qed.

Lemma has_title_app (title : string) (l1 l2 : list BackgroundAlert) :
  has_title title (l1 ++ l2)%list = has_title title l1 || has_title title l2.
Proof. unfold has_title. apply existsb_app. Qed.

(** A cycle of the hardened main loop sends at most two alerts, one from
    the model chain and one for gas.  The gas alert is sent exactly when
    both the thermal image and the spectrogram were read and the gas
    reading exceeds its threshold: a cycle in which either read returned
    None raises no gas alert, however high the gas reading is. *)
Theorem main_cycle_gas_alert (cfg : FusionConfig)
    (thermal_interpreter acoustic_interpreter : option Interpreter)
    (thermal_image acoustic_spectrogram : option ndarray)
    (gas_reading : pyfloat) :
  let alerts :=
    main_cycle cfg thermal_interpreter acoustic_interpreter thermal_image
      acoustic_spectrogram gas_reading in
  (length alerts <= 2)%nat
  /\ has_title TITLE_GAS alerts
     = match thermal_image, acoustic_spectrogram with
       | Some _, Some _ => fgt gas_reading (fc_gas_analog_threshold cfg)
       | _, _ => false
       end.
Proof.
  intros alerts. subst alerts. unfold main_cycle.
  destruct thermal_image as [image|], acoustic_spectrogram as [spectrogram|];
    try (split; [simpl; lia|reflexivity]).
  unfold fusion_pass. rewrite length_app, has_title_app.
  split.
  - repeat case_inner; simpl; lia.
  - destruct (fgt gas_reading (fc_gas_analog_threshold cfg));
      repeat case_inner; reflexivity.
Qed.

(** A masked inference failure is silent.  [run_inference] answers 0.0
    when there is no interpreter, when the shape check fails and when
    anything raises; with thresholds that are not negative, a cycle in
    which both scores are such a 0.0 sends no model alert at all. *)
Theorem masked_failure_sends_no_model_alert (cfg : FusionConfig)
    (thermal_interpreter acoustic_interpreter : option Interpreter)
    (image spectrogram : ndarray) (gas_reading : pyfloat) :
  run_inference thermal_interpreter image = ratio 0 1 ->
  run_inference acoustic_interpreter spectrogram = ratio 0 1 ->
  fle (ratio 0 1) (fc_thermal_anomaly_confidence cfg) = true ->
  fle (ratio 0 1) (fc_acoustic_anomaly_confidence cfg) = true ->
  fle (ratio 0 1) (fc_fusion_correlation_confidence cfg) = true ->
  let alerts :=
    main_cycle cfg thermal_interpreter acoustic_interpreter (Some image)
      (Some spectrogram) gas_reading in
  has_title TITLE_THERMAL alerts = false
  /\ has_title TITLE_ACOUSTIC alerts = false
  /\ has_title TITLE_CORRELATED alerts = false.
Proof.
  intros Hthermal Hacoustic Ht Ha Hc alerts. subst alerts.
  unfold main_cycle. rewrite Hthermal, Hacoustic. unfold fusion_pass.
  assert (Hno : forall t, fle (ratio 0 1) t = true -> fgt (ratio 0 1) t = false).
  { intros [|[]|x]; simpl; try done. intros Hle.
    apply Qltb_ge_false. by apply Qleb_le. }
  rewrite (Hno _ Ht), (Hno _ Ha), (Hno _ Hc). simpl.
  by destruct (fgt gas_reading (fc_gas_analog_threshold cfg)).
Qed.

(** ** config.py: validation *)

(** [validate_config] cannot fail.  Every message it collects starts with
    "WARNING", so the count of critical errors is always zero and the first
    component of the result is True, whatever is missing; the list holds
    one message for each of the four things that is missing. *)
Theorem validate_config_never_fails (thermal_exists acoustic_exists : bool)
    (thermal_path acoustic_path : string)
    (email_sender_address email_sender_password : option string) :
  let result :=
    validate_config thermal_exists acoustic_exists thermal_path acoustic_path
      email_sender_address email_sender_password in
  let missing (v : option string) : bool :=
    match v with Some text => String.eqb text "" | None => true end in
  fst result = true
  /\ length (snd result)
     = (Nat.b2n (negb thermal_exists) + Nat.b2n (negb acoustic_exists)
        + Nat.b2n (missing email_sender_address)
        + Nat.b2n (missing email_sender_password))%nat.
Proof.
  intros result missing. subst result missing. unfold validate_config.
  destruct thermal_exists, acoustic_exists,
    email_sender_address as [address|], email_sender_password as [password|];
    try destruct (String.eqb address ""); try destruct (String.eqb password "");
    by split.
Qed.

(** ** retry_utils.py *)







Lemma retry_loop_bounds {A : Type} (func : nat -> result A)
    (catches : exn -> bool) (backoff_multiplier : Q)
    (default_return : option A) (remaining : nat) :
  forall (attempt : nat) (delay : Q) (last_exception : option exn),
    let out := retry_loop func catches backoff_multiplier default_return
                 remaining attempt delay last_exception in
    (ro_calls out <= remaining)%nat
    /\ (length (ro_sleeps out) <= ro_calls out - 1)%nat.
Proof.
  induction remaining as [|remaining IH]; intros attempt delay last_exception;
    cbn [retry_loop]; [simpl; lia|].
  destruct (func attempt) as [r|e]; [simpl; lia|].
  destruct (catches e); [|simpl; lia].
  destruct remaining as [|remaining].
  - simpl. lia.
  - destruct (Qltb delay 0); [simpl; lia|].
    destruct (IH (S attempt) (delay * backoff_multiplier)%Q (Some e))
      as [Hcalls Hsleeps].
    cbn [ro_calls ro_sleeps length]. split; [lia|].
    assert (Hpos : (1 <= ro_calls
                      (retry_loop func catches backoff_multiplier
                         default_return (S remaining) (S attempt)
                         (delay * backoff_multiplier)%Q (Some e)))%nat).
    { cbn [retry_loop]. destruct (func (S attempt)) as [r'|e']; [simpl; lia|].
      destruct (catches e'); [|simpl; lia].
      destruct remaining; [simpl; lia|].
      destruct (Qltb (delay * backoff_multiplier) 0); simpl; lia. }
    lia.
Qed.

(** Whatever the wrapped function does, the wrapper calls it at most
    [max_attempts] times and sleeps at most once between two calls; with
    [max_attempts] zero or negative it does not call the function at all
    and answers the default, or None when there is none, without raising. *)
Theorem retry_bounds {A : Type} (max_attempts : Z)
    (delay_seconds backoff_multiplier : Q) (catches : exn -> bool)
    (default_return : option A) (func : nat -> result A) :
  let out := retry_on_failure max_attempts delay_seconds backoff_multiplier
               catches default_return func in
  (Z.of_nat (ro_calls out) <= Z.max 0 max_attempts)
  /\ (length (ro_sleeps out) <= ro_calls out - 1)%nat
  /\ (if max_attempts <=? 0
      then ro_calls out = 0%nat /\ ro_value out = Ok default_return
      else True).
Proof.
  intros out. subst out. unfold retry_on_failure.
  destruct (retry_loop_bounds func catches backoff_multiplier default_return
              (Z.to_nat max_attempts) 1%nat delay_seconds None)
    as [Hcalls Hsleeps].
  split; [lia|]. split; [exact Hsleeps|].
  destruct (Z.leb_spec max_attempts 0) as [Hle|]; [|done].
  replace (Z.to_nat max_attempts) with 0%nat by lia. simpl.
  split; [done|]. by destruct default_return.
Qed.
End Premonitor.

(** * Worked examples *)

Abbreviation sample_monitor_equipment :=
  (monitor_equipment Sample.fixed Sample.str_float Sample.np_mean
     Sample.np_rms Sample.round32 Sample.capture Sample.thermal_090
     Sample.no_model Sample.no_lstm).
Abbreviation sample_run_security :=
  (run_security Sample.fixed Sample.capture).
Abbreviation sample_check_tamper := (check_tamper Sample.fixed).
Abbreviation sample_run_inference :=
  (run_inference Sample.prepare_input Sample.dequantize).
Abbreviation sample_fusion_pass :=
  (fusion_pass Sample.fixed Sample.str_float).

(** ** C1: the first detection never alerts *)

(** C1 on the code.  From a fresh detector, with the default 300 s
    cooldown: two positive reads 10 s apart produce no motion alert (the
    specification promises exactly one), a third positive read at 400 s
    produces the first alert, not the second, when the pin stayed high, and
    none at all when the pin dropped in between; no "motion_detected" entry
    is logged for the detections that did not alert. *)
Theorem motion_cooldown_on_the_code :
  let run := fun calls =>
    fst (sample_run_security SECURITY_CONFIG false fridge_lab_a_01 calls None) in
  let two := [Sample.call_at 0 true; Sample.call_at 10 true] in
  let three := [Sample.call_at 0 true; Sample.call_at 10 true;
                Sample.call_at 400 true] in
  let separate := [Sample.call_at 0 true; Sample.call_at 5 false;
                   Sample.call_at 10 true; Sample.call_at 15 false;
                   Sample.call_at 400 true] in
  motion_alert_count (run two) = 0%nat
  /\ motion_log_count (run two) = 0%nat
  /\ motion_alert_count (run three) = 1%nat
  /\ motion_alert_count (run separate) = 0%nat
  /\ motion_log_count (run separate) = 0%nat.
Proof. vm_compute. by repeat split. Qed.

(** ** C5: a signalled tamper keeps the old baseline *)

(** C5 on the code.  With the baseline 5.0 °C stored at time 0, a reading
    of 20.0 °C one minute later is signalled as thermal tampering and the
    stored baseline stays (5.0 °C, 0) instead of becoming (20.0 °C, 60 s);
    a 3 G shock on a detector without baseline is signalled as physical
    tampering and no baseline is stored. *)
Theorem tamper_signal_skips_baseline_update :
  match sample_check_tamper SECURITY_CONFIG (Sample.seconds 60)
          (Sample.seconds 60) "fridge_lab_a_01" Sample.readings_20C
          Sample.detector_5C with
  | Ok (Some tamper, after) =>
      tamper_type tamper = "thermal_tampering"
      /\ baseline_readings after !! "fridge_lab_a_01" = Some Sample.baseline_5C
  | _ => False
  end
  /\ match sample_check_tamper SECURITY_CONFIG (Sample.seconds 60)
             (Sample.seconds 60) "fridge_lab_a_01" Sample.readings_shaken
             TamperDetector_init with
     | Ok (Some tamper, after) =>
         tamper_type tamper = "physical_tampering"
         /\ baseline_readings after !! "fridge_lab_a_01" = None
     | _ => False
     end.
Proof. vm_compute. by repeat split. Qed.

(** ** C9: a NaN output is returned as it is *)

(** C9 on the code.  A float32 model whose output is NaN makes
    [run_inference] return NaN, which is not a score in [0, 1]; the fusion
    pass then raises no model alert for it. *)
Theorem run_inference_returns_nan :
  let score := sample_run_inference (Some Sample.nan_model) Sample.input_1x2 in
  score = FNaN
  /\ fle (ratio 0 1) score = false
  /\ fle score (ratio 1 1) = false
  /\ sample_fusion_pass fusion_config score score (ratio 0 1) = [].
Proof. vm_compute. by repeat split. Qed.

(** ** C2: both scores high *)

(** With thermal and acoustic scores of 0.90, both above their anomaly
    thresholds (0.80 and 0.75), the fusion pass of the hardened main loop
    emits the CRITICAL thermal alert alone: the acoustic check sits in the
    [elif] of the thermal one. *)
Lemma fusion_both_high_one_alert :
  let alerts := sample_fusion_pass fusion_config (ratio 90 100) (ratio 90 100) (ratio 0 1) in
  fgt (ratio 90 100) (fc_thermal_anomaly_confidence fusion_config) = true
  /\ fgt (ratio 90 100) (fc_acoustic_anomaly_confidence fusion_config) = true
  /\ has_title TITLE_THERMAL alerts = true
  /\ has_title TITLE_ACOUSTIC alerts = false
  /\ length alerts = 1%nat.
Proof. vm_compute. by repeat split. Qed.

(** ** C3: one message per pass *)

(** A cycle of the registry's fridge in which the temperature reads 80 °C
    and the thermal model answers 0.90: the raw pass and the model pass each
    hand their own message to Discord and to e-mail, so the cycle hands
    over two distinct messages, not one. *)
Lemma two_messages_in_one_cycle :
  let out := snd (sample_monitor_equipment config SECURITY_CONFIG false
                    Sample.hot_cycle fridge_lab_a_01 initial_world) in
  length (distinct_messages (sends out)) = 2%nat
  /\ length (distinct_messages (raw_sends out)) = 1%nat
  /\ length (distinct_messages (model_sends out)) = 1%nat
  /\ length (sends out) = 4%nat
  /\ raised out = None.
Proof. vm_compute. by repeat split. Qed.

(** ** C4: 80 °C against a ceiling of 75 °C *)

Lemma critical_temperature_failsafe_witness :
  THERMAL_CRITICAL_THRESHOLD_C config = Some (ratio 75 1)
  /\ dict_get "temperature" (sensors Sample.readings_hot) = Some (VNum (ratio 80 1))
  /\ fge (ratio 80 1) (ratio 75 1) = true
  /\ exists thresholds,
       get_equipment_thresholds (eq_type fridge_lab_a_01) = Ok thresholds
       /\ critical_temperature_count
            (raw_alerts Sample.fixed Sample.str_float config thresholds
               (sensors Sample.readings_hot)) = 1%nat.
Proof.
  split; [reflexivity|]. split; [reflexivity|]. split; [reflexivity|].
  destruct (critical_temperature_failsafe Sample.fixed Sample.str_float config
              "2025-01-01 00:00:00" fridge_lab_a_01 Sample.readings_hot
              (ratio 75 1) (ratio 80 1) eq_refl eq_refl eq_refl)
    as (thresholds & Hok & _ & Hcount & _).
  exists thresholds. split; [exact Hok|exact Hcount].
Defined.

(** ** C6: the two reading maps of the unit test, and an array reading *)



(** ** C10: the docstring's fridge without a microphone *)

Lemma validate_equipment_config_required_witness :
  exists type_def,
    dict_get (eq_type Sample.fridge_thermal_only) EQUIPMENT_TYPES = Some type_def
    /\ (fst (validate_equipment_config Sample.fridge_thermal_only) = false <->
        exists required_sensor,
          In required_sensor (sensors_required type_def)
          /\ (dict_get
                (dict_get_or required_sensor required_sensor sensor_name_mapping)
                (default [] (eq_sensors Sample.fridge_thermal_only)) = None
              \/ exists wiring,
                   dict_get
                     (dict_get_or required_sensor required_sensor
                        sensor_name_mapping)
                     (default [] (eq_sensors Sample.fridge_thermal_only))
                   = Some wiring
                   /\ enabled wiring <> Some true))
    /\ validate_equipment_config Sample.fridge_thermal_only
       = (false, "Required sensor missing: acoustic (config key: microphone)").
Proof.
  eexists. split; [reflexivity|]. split; [|reflexivity].
  exact (proj1 (validate_equipment_config_required Sample.fridge_thermal_only
                  _ eq_refl)).
Defined.

(** ** Further examples *)

(** The tamper rate check: with the 5 °C/min ceiling, a move from 5.0 °C to
    20.0 °C within one minute is signalled as thermal tampering; the same
    move over ten minutes is not, and the baseline then becomes the new
    reading. *)
Lemma tamper_rate_examples :
  match sample_check_tamper SECURITY_CONFIG (Sample.seconds 60)
          (Sample.seconds 60) "fridge_lab_a_01" Sample.readings_20C
          Sample.detector_5C with
  | Ok (Some tamper, _) => indicator tamper = "rapid_temperature_change"
  | _ => False
  end
  /\ match sample_check_tamper SECURITY_CONFIG (Sample.seconds 600)
             (Sample.seconds 600) "fridge_lab_a_01" Sample.readings_20C
             Sample.detector_5C with
     | Ok (None, after) =>
         baseline_readings after !! "fridge_lab_a_01"
         = Some {| b_temperature := Some (VNum (ratio 20 1));
                   b_timestamp := Sample.seconds 600 |}
     | _ => False
     end.
Proof. vm_compute. by split. Qed.

(** The fusion pass on the two score pairs of the specification's examples,
    with anomaly thresholds 0.85 and correlation threshold 0.60: 0.90 / 0.50
    gives the CRITICAL thermal alert alone, 0.65 / 0.65 the correlated
    WARNING alone. *)
Lemma fusion_examples :
  map alert_title
    (sample_fusion_pass Sample.fridge_fusion_config (ratio 90 100) (ratio 50 100) (ratio 0 1))
  = [TITLE_THERMAL]
  /\ map alert_title
       (sample_fusion_pass Sample.fridge_fusion_config (ratio 65 100) (ratio 65 100)
          (ratio 0 1))
     = [TITLE_CORRELATED].
Proof. vm_compute. by split. Qed.

Lemma rising_edge_is_silent_witness :
  motion_detection_enabled SECURITY_CONFIG = true
  /\ motion_active (MotionDetector_init false) = false
  /\ si_motion (fst (Sample.call_at 0 true)) = true
  /\ now_cooldown (fst (Sample.call_at 0 true))
     - now_detect (fst (Sample.call_at 0 true))
     < cooldown_seconds SECURITY_CONFIG * 1000000
  /\ fst (monitor_motion Sample.capture SECURITY_CONFIG
            (fst (Sample.call_at 0 true)) fridge_lab_a_01
            (snd (Sample.call_at 0 true)) (MotionDetector_init false)) = [].
Proof.
  split; [reflexivity|]. split; [reflexivity|]. split; [reflexivity|].
  split; [reflexivity|].
  apply (rising_edge_is_silent Sample.capture SECURITY_CONFIG
           (fst (Sample.call_at 0 true)) fridge_lab_a_01
           (snd (Sample.call_at 0 true)) (MotionDetector_init false));
    reflexivity.
Defined.

Lemma check_tamper_quiet_updates_baseline_witness :
  tamper_detection_enabled SECURITY_CONFIG = true
  /\ sample_check_tamper SECURITY_CONFIG (Sample.seconds 600)
       (Sample.seconds 600) "fridge_lab_a_01" Sample.readings_20C
       TamperDetector_init
     = Ok (None,
           {| baseline_readings :=
                {[ "fridge_lab_a_01" :=
                     {| b_temperature := Some (VNum (ratio 20 1));
                        b_timestamp := Sample.seconds 600 |} ]} |})
  /\ ({[ "fridge_lab_a_01" :=
           {| b_temperature := Some (VNum (ratio 20 1));
              b_timestamp := Sample.seconds 600 |} ]}
        : gmap string Baseline) !! "fridge_lab_a_01"
     = Some {| b_temperature :=
                 dict_get "temperature" (sensors Sample.readings_20C);
               b_timestamp := Sample.seconds 600 |}.
Proof.
  split; [reflexivity|]. split; [reflexivity|].
  exact (check_tamper_quiet_updates_baseline Sample.fixed SECURITY_CONFIG
           (Sample.seconds 600) (Sample.seconds 600) "fridge_lab_a_01"
           Sample.readings_20C TamperDetector_init _ eq_refl eq_refl).
Defined.

Lemma check_tamper_signal_keeps_baseline_witness :
  (exists tamper,
      sample_check_tamper SECURITY_CONFIG (Sample.seconds 60)
        (Sample.seconds 60) "fridge_lab_a_01" Sample.readings_20C
        Sample.detector_5C
      = Ok (Some tamper, Sample.detector_5C))
  /\ Sample.detector_5C = Sample.detector_5C.
Proof.
  split; [eexists; reflexivity|].
  exact (check_tamper_signal_keeps_baseline Sample.fixed SECURITY_CONFIG
           (Sample.seconds 60) (Sample.seconds 60) "fridge_lab_a_01"
           Sample.readings_20C Sample.detector_5C Sample.detector_5C _
           eq_refl).
Defined.

Lemma run_inference_raises_witness :
  (forall t, invoke Sample.failing_model t = Raise RuntimeError)
  /\ sample_run_inference (Some Sample.failing_model) Sample.input_1x2 = ratio 0 1.
Proof.
  split; [reflexivity|].
  apply (run_inference_raises Sample.prepare_input Sample.dequantize
           Sample.failing_model Sample.input_1x2 RuntimeError).
  right. right. reflexivity.
Defined.

(** ** Instances of the further properties *)

Lemma check_tamper_vibration_first_witness :
  tamper_detection_enabled SECURITY_CONFIG = true
  /\ dict_get "vibration" (sensors Sample.readings_shaken)
     = Some (VNum (ratio 3 1))
  /\ fge (ratio 3 1) (vibration_threshold SECURITY_CONFIG) = true
  /\ sample_check_tamper SECURITY_CONFIG (Sample.seconds 60)
       (Sample.seconds 60) "fridge_lab_a_01" Sample.readings_shaken
       Sample.detector_5C
     = Ok (Some (vibration_tamper Sample.fixed (ratio 3 1)),
           Sample.detector_5C).
Proof.
  repeat (split; [reflexivity|]).
  apply (check_tamper_vibration_first Sample.fixed SECURITY_CONFIG
           (Sample.seconds 60) (Sample.seconds 60) "fridge_lab_a_01"
           Sample.readings_shaken Sample.detector_5C (ratio 3 1));
    reflexivity.
Defined.

Lemma check_tamper_frame_witness :
  sample_check_tamper SECURITY_CONFIG (Sample.seconds 600)
    (Sample.seconds 600) "fridge_lab_a_01" Sample.readings_20C
    Sample.detector_5C
  = Ok (None,
        {| baseline_readings :=
             <["fridge_lab_a_01" :=
                 {| b_temperature := Some (VNum (ratio 20 1));
                    b_timestamp := Sample.seconds 600 |}]>
               (baseline_readings Sample.detector_5C) |})
  /\ (<["fridge_lab_a_01" :=
          {| b_temperature := Some (VNum (ratio 20 1));
             b_timestamp := Sample.seconds 600 |}]>
        (baseline_readings Sample.detector_5C)) !! "incubator_01"
     = baseline_readings Sample.detector_5C !! "incubator_01".
Proof.
  split; [reflexivity|].
  destruct (check_tamper_frame Sample.fixed SECURITY_CONFIG
              (Sample.seconds 600) (Sample.seconds 600) "fridge_lab_a_01"
              Sample.readings_20C Sample.detector_5C _ None eq_refl)
    as [Hothers _].
  apply (Hothers "incubator_01"). discriminate.
Defined.

Lemma sustained_motion_alerts_every_call_witness :
  motion_detection_enabled SECURITY_CONFIG = true
  /\ motion_active Sample.detector_active = true
  /\ last_motion_time Sample.detector_active = Some 0
  /\ si_motion (fst (Sample.call_at 400 true)) = true
  /\ cooldown_seconds SECURITY_CONFIG * 1000000
     <= now_cooldown (fst (Sample.call_at 400 true)) - 0
  /\ motion_alert_count
       (fst (monitor_motion Sample.capture SECURITY_CONFIG
               (fst (Sample.call_at 400 true)) fridge_lab_a_01
               (snd (Sample.call_at 400 true)) Sample.detector_active))
     = 1%nat
  /\ snd (monitor_motion Sample.capture SECURITY_CONFIG
            (fst (Sample.call_at 400 true)) fridge_lab_a_01
            (snd (Sample.call_at 400 true)) Sample.detector_active)
     = Sample.detector_active.
Proof.
  repeat (split; [reflexivity || (vm_compute; discriminate)|]).
  apply (sustained_motion_alerts_every_call Sample.capture SECURITY_CONFIG
           (fst (Sample.call_at 400 true)) fridge_lab_a_01
           (snd (Sample.call_at 400 true)) Sample.detector_active 0);
    reflexivity || (vm_compute; discriminate).
Defined.

Lemma is_after_hours_fails_open_witness :
  weekdays_only Sample.hours_misspelt
  && (5 <=? weekday Sample.wednesday_noon) = false
  /\ Sample.strptime_time (bh_start Sample.hours_misspelt) = Raise ValueError
  /\ is_after_hours Sample.strptime_time Sample.hours_misspelt
       Sample.wednesday_noon = false.
Proof.
  split; [reflexivity|]. split; [reflexivity|].
  apply (is_after_hours_fails_open Sample.strptime_time Sample.hours_misspelt
           Sample.wednesday_noon ValueError); [reflexivity|].
  left. reflexivity.
Defined.

Lemma is_after_hours_window_witness :
  Sample.strptime_time (bh_start BUSINESS_HOURS) = Ok (8 * 3600 * 1000000)
  /\ Sample.strptime_time (bh_end BUSINESS_HOURS) = Ok (18 * 3600 * 1000000)
  /\ is_after_hours Sample.strptime_time BUSINESS_HOURS Sample.saturday_noon
     = true.
Proof.
  split; [reflexivity|]. split; [reflexivity|].
  destruct (is_after_hours_window Sample.strptime_time BUSINESS_HOURS
              Sample.saturday_noon (8 * 3600 * 1000000)
              (18 * 3600 * 1000000) eq_refl eq_refl) as [Hweekend _].
  apply Hweekend; [reflexivity|]. vm_compute. discriminate.
Defined.

Lemma validated_equipment_reads_required_sensors_witness :
  fst (validate_equipment_config fridge_lab_a_01) = true
  /\ (exists type_def,
         dict_get (eq_type fridge_lab_a_01) EQUIPMENT_TYPES = Some type_def
         /\ In "thermal" (sensors_required type_def))
  /\ exists config_key name read,
       dict_get "thermal" sensor_name_mapping = Some config_key
       /\ In (config_key, name, read) SENSOR_READS
       /\ wiring_enabled (default [] (eq_sensors fridge_lab_a_01)) config_key
          = true
       /\ dict_get name
            (sensors (read_equipment_sensors Sample.hot_hardware
                        "2025-01-01T00:00:00" fridge_lab_a_01))
          = match read Sample.hot_hardware with
            | Ok v => Some v
            | Raise _ => None
            end.
Proof.
  split; [reflexivity|].
  split; [eexists; split; [reflexivity|]; left; reflexivity|].
  eapply (validated_equipment_reads_required_sensors Sample.hot_hardware
            "2025-01-01T00:00:00" fridge_lab_a_01 _ "thermal");
    [reflexivity|reflexivity|left; reflexivity].
Defined.

Lemma startup_check_guarantee_witness :
  startup_check (fun _ => true) "premonitor_pi" = true
  /\ get_equipment_by_pi "premonitor_pi" <> []
  /\ Forall (fun equipment =>
               exists type_def,
                 dict_get (eq_type equipment) EQUIPMENT_TYPES = Some type_def
                 /\ Forall (fun required_sensor =>
                              wiring_enabled (default [] (eq_sensors equipment))
                                (dict_get_or required_sensor required_sensor
                                   sensor_name_mapping) = true)
                      (sensors_required type_def))
       (get_equipment_by_pi "premonitor_pi").
Proof.
  split; [reflexivity|].
  apply (startup_check_guarantee (fun _ => true) "premonitor_pi").
  reflexivity.
Defined.

Lemma raw_pass_silent_on_nan_witness :
  (forall key v,
      In key ["temperature"; "gas"; "co2"; "oxygen"; "vibration"; "current"] ->
      dict_get key (sensors Sample.readings_nan) = Some v -> v = VNum FNaN)
  /\ check_raw_sensor_thresholds Sample.fixed Sample.str_float config
       "2025-01-01 00:00:00" fridge_lab_a_01 Sample.readings_nan = Ok [].
Proof.
  assert (Hnan : forall key v,
             In key ["temperature"; "gas"; "co2"; "oxygen"; "vibration";
                     "current"] ->
             dict_get key (sensors Sample.readings_nan) = Some v ->
             v = VNum FNaN).
  { intros key v Hin.
    repeat (destruct Hin as [<-|Hin];
            [simpl; intros Hv; congruence|]).
    destruct Hin. }
  split; [exact Hnan|].
  exact (raw_pass_silent_on_nan Sample.fixed Sample.str_float config
           "2025-01-01 00:00:00" fridge_lab_a_01 Sample.readings_nan Hnan).
Defined.

Lemma gas_type_threshold_overrides_config_witness :
  get_equipment_thresholds (eq_type fridge_lab_a_01)
  = Ok (dict_get_or "fridge" [] EQUIPMENT_THRESHOLDS)
  /\ dict_has "gas_analog_threshold"
       (dict_get_or "fridge" [] EQUIPMENT_THRESHOLDS) = true
  /\ THERMAL_CRITICAL_THRESHOLD_C config
     = THERMAL_CRITICAL_THRESHOLD_C Sample.config_gas_100
  /\ check_raw_sensor_thresholds Sample.fixed Sample.str_float config
       "2025-01-01 00:00:00" fridge_lab_a_01 Sample.readings_gas_350
     = check_raw_sensor_thresholds Sample.fixed Sample.str_float
         Sample.config_gas_100 "2025-01-01 00:00:00" fridge_lab_a_01
         Sample.readings_gas_350.
Proof.
  repeat (split; [reflexivity|]).
  apply (gas_type_threshold_overrides_config Sample.fixed Sample.str_float
           config Sample.config_gas_100 "2025-01-01 00:00:00" fridge_lab_a_01
           Sample.readings_gas_350
           (dict_get_or "fridge" [] EQUIPMENT_THRESHOLDS));
    reflexivity.
Defined.

Lemma unsupported_channels_send_nothing_witness :
  eq_alert_channels Sample.fridge_sms_only = Some ["sms"]
  /\ (forall channel, In channel ["sms"] ->
                      channel <> "discord" /\ channel <> "email")
  /\ raw_sends (snd (sample_monitor_equipment config SECURITY_CONFIG false
                       Sample.hot_cycle Sample.fridge_sms_only initial_world))
     = []
  /\ model_sends (snd (sample_monitor_equipment config SECURITY_CONFIG false
                         Sample.hot_cycle Sample.fridge_sms_only
                         initial_world))
     = [].
Proof.
  assert (Hsms : forall channel, In channel ["sms"] ->
                                 channel <> "discord" /\ channel <> "email").
  { intros channel [<-|[]]. split; discriminate. }
  split; [reflexivity|]. split; [exact Hsms|].
  exact (unsupported_channels_send_nothing Sample.fixed Sample.str_float
           Sample.np_mean Sample.np_rms Sample.round32 Sample.capture
           Sample.thermal_090 Sample.no_model Sample.no_lstm config
           SECURITY_CONFIG false Sample.hot_cycle Sample.fridge_sms_only
           initial_world ["sms"] eq_refl Hsms).
Defined.

Lemma monitor_equipment_isolation_witness :
  "incubator_01" <> eq_id fridge_lab_a_01
  /\ equipment_states
       (fst (sample_monitor_equipment config SECURITY_CONFIG false
               Sample.hot_cycle fridge_lab_a_01 initial_world))
     !! "incubator_01"
     = equipment_states initial_world !! "incubator_01"
  /\ equipment_lstm_buffers
       (fst (sample_monitor_equipment config SECURITY_CONFIG false
               Sample.hot_cycle fridge_lab_a_01 initial_world))
     !! "incubator_01"
     = equipment_lstm_buffers initial_world !! "incubator_01".
Proof.
  assert (Hother : "incubator_01" <> eq_id fridge_lab_a_01) by discriminate.
  split; [exact Hother|].
  exact (monitor_equipment_isolation Sample.fixed Sample.str_float
           Sample.np_mean Sample.np_rms Sample.round32 Sample.capture
           Sample.thermal_090 Sample.no_model Sample.no_lstm config
           SECURITY_CONFIG false Sample.hot_cycle fridge_lab_a_01
           initial_world "incubator_01" Hother).
Defined.

Lemma masked_failure_sends_no_model_alert_witness :
  sample_run_inference (Some Sample.failing_model) Sample.input_1x2
  = ratio 0 1
  /\ sample_run_inference None Sample.input_1x2 = ratio 0 1
  /\ fle (ratio 0 1) (fc_thermal_anomaly_confidence Sample.fridge_fusion_config)
     = true
  /\ fle (ratio 0 1) (fc_acoustic_anomaly_confidence Sample.fridge_fusion_config)
     = true
  /\ fle (ratio 0 1)
       (fc_fusion_correlation_confidence Sample.fridge_fusion_config) = true
  /\ has_title TITLE_THERMAL
       (main_cycle Sample.fixed Sample.str_float Sample.prepare_input
          Sample.dequantize Sample.fridge_fusion_config
          (Some Sample.failing_model) None (Some Sample.input_1x2)
          (Some Sample.input_1x2) (ratio 0 1)) = false
  /\ has_title TITLE_ACOUSTIC
       (main_cycle Sample.fixed Sample.str_float Sample.prepare_input
          Sample.dequantize Sample.fridge_fusion_config
          (Some Sample.failing_model) None (Some Sample.input_1x2)
          (Some Sample.input_1x2) (ratio 0 1)) = false
  /\ has_title TITLE_CORRELATED
       (main_cycle Sample.fixed Sample.str_float Sample.prepare_input
          Sample.dequantize Sample.fridge_fusion_config
          (Some Sample.failing_model) None (Some Sample.input_1x2)
          (Some Sample.input_1x2) (ratio 0 1)) = false.
Proof.
  repeat (split; [reflexivity|]).
  apply (masked_failure_sends_no_model_alert Sample.fixed Sample.str_float
           Sample.prepare_input Sample.dequantize Sample.fridge_fusion_config
           (Some Sample.failing_model) None Sample.input_1x2 Sample.input_1x2
           (ratio 0 1));
    reflexivity.
Defined.


